(** * Booking worker: a shallow embedding of the /book-email pipeline

    The development follows the layout of the worker:
    - [JsString]   the string operations of the JavaScript runtime the code uses;
    - [Ecma]       the Date arithmetic of ECMAScript (time values in milliseconds);
    - [DateFnsTz]  the two entry points of the date-fns-tz library the worker calls,
                   with the transitions of America/Los_Angeles;
    - [Runtime]    outbound calls, console and exceptions as a small monad;
    - [Slack], [ApyHub], [SendGrid], [Index]  the four source files.

    Numbers are [Z]; a JavaScript number that may be NaN is an [option Z]. *)

From Stdlib Require Import ZArith List String Ascii Bool Lia.
Import ListNotations.

Local Open Scope string_scope.
Local Open Scope Z_scope.

(* ------------------------------------------------------------------ *)
(** ** Strings of the JavaScript runtime *)

Module JsString.

Definition charCode (c : ascii) : Z := Z.of_N (N_of_ascii c).

Definition isDigit (c : ascii) : bool :=
  (48 <=? charCode c) && (charCode c <=? 57).

Definition digitValue (c : ascii) : Z := charCode c - 48.

Definition digitChar (n : Z) : ascii := ascii_of_N (Z.to_N (48 + n)).

(** [fixedDigits w n]: the last [w] decimal digits of [n], most significant first. *)
Fixpoint fixedDigits (w : nat) (n : Z) : string :=
  match w with
  | O => EmptyString
  | S w' => fixedDigits w' (n / 10) ++ String (digitChar (n mod 10)) EmptyString
  end.

(** Number of decimal digits of a non-negative integer below 10^20
    (every integer the code prints is below 2^53). *)
Fixpoint numDigitsAux (fuel : nat) (n : Z) : nat :=
  match fuel with
  | O => 1%nat
  | S f => if n <? 10 then 1%nat else S (numDigitsAux f (n / 10))
  end.

Definition numDigits (n : Z) : nat := numDigitsAux 19 n.

(** [String(n)] for an integer [n]. *)
Definition toDecimal (n : Z) : string :=
  let a := Z.abs n in
  (if n <? 0 then "-" else EmptyString) ++ fixedDigits (numDigits a) a.

(** [addLeadingZeros(n, len)] of date-fns, also [padStart(len, '0')] of the
    absolute value as toISOString uses it: at least [len] digits, never cut. *)
Definition addLeadingZeros (n : Z) (len : nat) : string :=
  let a := Z.abs n in
  (if n <? 0 then "-" else EmptyString) ++ fixedDigits (Nat.max len (numDigits a)) a.

(** [parseInt(s, 10)] on a string of decimal digits. *)
Definition parseDigits (s : string) : Z :=
  fold_left (fun acc c => 10 * acc + digitValue c) (list_ascii_of_string s) 0.

(** Truthiness of a string: the empty string is the only falsy one. *)
Definition truthy (s : string) : bool :=
  match s with EmptyString => false | String _ _ => true end.

(** [s.split(sep)[0]] for a one-character separator: the part of [s] before
    the first occurrence of [sep], the whole of [s] when there is none. *)
Fixpoint splitHead (sep : ascii) (s : string) : string :=
  match s with
  | EmptyString => EmptyString
  | String c rest => if Ascii.eqb c sep then EmptyString else String c (splitHead sep rest)
  end.

(** [toLowerCase]: the letters A to Z, and the Kelvin sign (U+212A, bytes
    E2 84 AA in UTF-8), the only character outside ASCII whose lower case
    is an ASCII letter.  Strings are the UTF-8 bytes of the JavaScript
    string; other letters outside ASCII are left as they are. *)
Definition lowerAscii (c : ascii) : ascii :=
  if (65 <=? charCode c) && (charCode c <=? 90)
  then ascii_of_N (N_of_ascii c + 32) else c.

Fixpoint toLowerCase (s : string) : string :=
  match s with
  | String c1 (String c2 (String c3 rest as r2) as r1) =>
      if (charCode c1 =? 226) && (charCode c2 =? 132) && (charCode c3 =? 170)
      then String "k" (toLowerCase rest)
      else String (lowerAscii c1) (toLowerCase r1)
  | String c rest => String (lowerAscii c) (toLowerCase rest)
  | EmptyString => EmptyString
  end.

(** White space and line terminators that [trim] removes, as UTF-8 bytes:
    TAB LF VT FF CR SP, U+00A0, U+1680, U+2000..U+200A, U+2028, U+2029,
    U+202F, U+205F, U+3000, U+FEFF. *)
Definition isWhiteSpace (bytes : list Z) : bool :=
  match bytes with
  | [b] => (b =? 9) || (b =? 10) || (b =? 11) || (b =? 12) || (b =? 13) || (b =? 32)
  | [194; 160] => true
  | [225; 154; 128] => true
  | [226; 128; b] =>
      ((128 <=? b) && (b <=? 138)) || (b =? 168) || (b =? 169) || (b =? 175)
  | [226; 129; 159] => true
  | [227; 128; 128] => true
  | [239; 187; 191] => true
  | _ => false
  end.

(** Length in bytes of the white-space character [s] starts with, 0 if none. *)
Definition leadingWhiteSpace (s : list ascii) : nat :=
  let codes := map charCode s in
  if isWhiteSpace (firstn 1 codes) then 1%nat
  else if isWhiteSpace (firstn 2 codes) then 2%nat
  else if isWhiteSpace (firstn 3 codes) then 3%nat
  else 0%nat.

(** The same for the character the reversed string [r] ends with. *)
Definition trailingWhiteSpace (r : list ascii) : nat :=
  let codes := map charCode r in
  if isWhiteSpace (rev (firstn 1 codes)) then 1%nat
  else if isWhiteSpace (rev (firstn 2 codes)) then 2%nat
  else if isWhiteSpace (rev (firstn 3 codes)) then 3%nat
  else 0%nat.

Fixpoint stripWith (ws : list ascii -> nat) (fuel : nat) (s : list ascii) : list ascii :=
  match fuel with
  | O => s
  | S f =>
      match ws s with
      | O => s
      | n => stripWith ws f (skipn n s)
      end
  end.

Definition trim (s : string) : string :=
  let l := list_ascii_of_string s in
  let l1 := stripWith leadingWhiteSpace (List.length l) l in
  let l2 := stripWith trailingWhiteSpace (List.length l1) (rev l1) in
  string_of_list_ascii (rev l2).

(** [s.includes(needle) ? s.substring(0, s.indexOf(needle) + needle.length) : None]. *)
Definition prefixThrough (needle s : string) : option string :=
  match index 0 needle s with
  | Some i => Some (substring 0 (i + String.length needle)%nat s)
  | None => None
  end.

End JsString.

(* ------------------------------------------------------------------ *)
(** ** Exceptions *)

(** A thrown [Error] object; the code only ever reads its [message]. *)
Record Error := mkError { message : string }.

Inductive Completion (A : Type) : Type :=
| Normal (a : A)
| Throw (e : Error).
Arguments Normal {A} a.
Arguments Throw {A} e.

(* ------------------------------------------------------------------ *)
(** ** Date arithmetic of ECMAScript (sec. 21.4.1 of the language standard)

    A time value is a number of milliseconds since 1970-01-01T00:00:00Z.
    Months are numbered from 0, days of the month from 1. *)

Module Ecma.

Import JsString.

Definition msPerSecond : Z := 1000.
Definition msPerMinute : Z := 60000.
Definition msPerHour : Z := 3600000.
Definition msPerDay : Z := 86400000.

Definition Day (t : Z) : Z := t / msPerDay.
Definition TimeWithinDay (t : Z) : Z := t mod msPerDay.

Definition isLeapYear (y : Z) : bool :=
  (y mod 4 =? 0) && (negb (y mod 100 =? 0) || (y mod 400 =? 0)).

Definition DaysInYear (y : Z) : Z := if isLeapYear y then 366 else 365.

Definition DayFromYear (y : Z) : Z :=
  365 * (y - 1970) + (y - 1969) / 4 - (y - 1901) / 100 + (y - 1601) / 400.

Definition TimeFromYear (y : Z) : Z := msPerDay * DayFromYear y.

(** The standard defines the year of a day as the largest [y] with
    [DayFromYear y <= d]; it is computed here from the mean length of a
    year and corrected by at most one (lemma [YearFromDay_spec]). *)
Definition YearFromDay (d : Z) : Z :=
  let y0 := 1970 + (400 * d) / 146097 in
  if DayFromYear (y0 + 1) <=? d then y0 + 1
  else if DayFromYear y0 <=? d then y0
  else y0 - 1.

Definition YearFromTime (t : Z) : Z := YearFromDay (Day t).

Definition InLeapYear (t : Z) : Z := if isLeapYear (YearFromTime t) then 1 else 0.

Definition DayWithinYear (t : Z) : Z := Day t - DayFromYear (YearFromTime t).

Definition MonthFromTime (t : Z) : Z :=
  let d := DayWithinYear t in
  let l := InLeapYear t in
  if d <? 31 then 0
  else if d <? 59 + l then 1
  else if d <? 90 + l then 2
  else if d <? 120 + l then 3
  else if d <? 151 + l then 4
  else if d <? 181 + l then 5
  else if d <? 212 + l then 6
  else if d <? 243 + l then 7
  else if d <? 273 + l then 8
  else if d <? 304 + l then 9
  else if d <? 334 + l then 10
  else 11.

Definition DateFromTime (t : Z) : Z :=
  let d := DayWithinYear t in
  let l := InLeapYear t in
  match MonthFromTime t with
  | 0 => d + 1
  | 1 => d - 30
  | 2 => d - 58 - l
  | 3 => d - 89 - l
  | 4 => d - 119 - l
  | 5 => d - 150 - l
  | 6 => d - 180 - l
  | 7 => d - 211 - l
  | 8 => d - 242 - l
  | 9 => d - 272 - l
  | 10 => d - 303 - l
  | _ => d - 333 - l
  end.

(** 0 is Sunday. *)
Definition WeekDay (t : Z) : Z := (Day t + 4) mod 7.

Definition HourFromTime (t : Z) : Z := (t / msPerHour) mod 24.
Definition MinFromTime (t : Z) : Z := (t / msPerMinute) mod 60.
Definition SecFromTime (t : Z) : Z := (t / msPerSecond) mod 60.
Definition msFromTime (t : Z) : Z := t mod msPerSecond.

Definition MakeTime (hour min sec ms : Z) : Z :=
  hour * msPerHour + min * msPerMinute + sec * msPerSecond + ms.

(** Number of days of the year before the first of month [mn] (0..11). *)
Definition monthStart (leap : bool) (mn : Z) : Z :=
  let l := if leap then 1 else 0 in
  match mn with
  | 0 => 0
  | 1 => 31
  | 2 => 59 + l
  | 3 => 90 + l
  | 4 => 120 + l
  | 5 => 151 + l
  | 6 => 181 + l
  | 7 => 212 + l
  | 8 => 243 + l
  | 9 => 273 + l
  | 10 => 304 + l
  | _ => 334 + l
  end.

Definition DaysInMonth (leap : bool) (mn : Z) : Z :=
  match mn with
  | 1 => if leap then 29 else 28
  | 3 | 5 | 8 | 10 => 30
  | _ => 31
  end.

Definition MakeDay (year month date : Z) : Z :=
  let ym := year + month / 12 in
  let mn := month mod 12 in
  DayFromYear ym + monthStart (isLeapYear ym) mn + date - 1.

Definition MakeDate (day time : Z) : Z := day * msPerDay + time.

Definition TimeClip (t : Z) : option Z :=
  if Z.abs t <=? 8640000000000000 then Some t else None.

(** *** The Date object: its time value, [None] for an Invalid Date (NaN). *)

Definition Date : Type := option Z.

(** [new Date(n)] for a number [n] that may be NaN. *)
Definition newDate (n : option Z) : Date :=
  match n with
  | Some t => TimeClip t
  | None => None
  end.

Definition getTime (d : Date) : option Z := d.

Definition isNaN (n : option Z) : bool :=
  match n with
  | None => true
  | Some _ => false
  end.

(** [a + b] on numbers. *)
Definition plus (a : option Z) (b : Z) : option Z :=
  match a with
  | Some t => Some (t + b)
  | None => None
  end.

(** [Date.prototype.toISOString]: YYYY-MM-DDTHH:mm:ss.sssZ, the year with a
    sign and six digits outside 0..9999; a RangeError on an Invalid Date. *)
Definition isoYear (y : Z) : string :=
  if (0 <=? y) && (y <=? 9999) then addLeadingZeros y 4
  else (if y <? 0 then "-" else "+") ++ fixedDigits 6 (Z.abs y).

Definition toISOString (d : Date) : Completion string :=
  match d with
  | None => Throw (mkError "Invalid time value")
  | Some t =>
      Normal (isoYear (YearFromTime t) ++ "-" ++
              addLeadingZeros (MonthFromTime t + 1) 2 ++ "-" ++
              addLeadingZeros (DateFromTime t) 2 ++ "T" ++
              addLeadingZeros (HourFromTime t) 2 ++ ":" ++
              addLeadingZeros (MinFromTime t) 2 ++ ":" ++
              addLeadingZeros (SecFromTime t) 2 ++ "." ++
              addLeadingZeros (msFromTime t) 3 ++ "Z")
  end.

(** Value of a run of decimal digits, [None] if a character is no digit. *)
Definition number (cs : list ascii) : option Z :=
  if forallb isDigit cs
  then Some (fold_left (fun acc c => 10 * acc + digitValue c) cs 0)
  else None.

(** The first [n] characters of [cs] read as a decimal number, and what
    follows them; [None] if there are fewer, or one of them is no digit. *)
Definition takeNumber (n : nat) (cs : list ascii) : option (Z * list ascii) :=
  if (List.length (firstn n cs) =? n)%nat then
    match number (firstn n cs) with
    | Some v => Some (v, skipn n cs)
    | None => None
    end
  else None.

(** The year of a date-time string: four digits, or a sign and six digits
    (an expanded year; -000000 is no year). *)
Definition parseYear (cs : list ascii) : option (Z * list ascii) :=
  match takeNumber 4 cs with
  | Some r => Some r
  | None =>
      match cs with
      | sg :: rest =>
          if Ascii.eqb sg "+" then takeNumber 6 rest
          else if Ascii.eqb sg "-" then
            match takeNumber 6 rest with
            | Some (y, rest') => if y =? 0 then None else Some (- y, rest')
            | None => None
            end
          else None
      | [] => None
      end
  end.

(** The month and the day of the month are optional: a hyphen and two
    digits, or nothing, which stands for 1. *)
Definition parseDatePart (cs : list ascii) : option (Z * list ascii) :=
  match cs with
  | "-"%char :: rest => takeNumber 2 rest
  | _ => Some (1, cs)
  end.

(** The time forms [HH:mm], [HH:mm:ss] and [HH:mm:ss.sss]. *)
Definition parseTime (cs : list ascii) : option (Z * Z * Z * Z * list ascii) :=
  match takeNumber 2 cs with
  | Some (h, ":"%char :: r1) =>
      match takeNumber 2 r1 with
      | Some (mi, ":"%char :: r2) =>
          match takeNumber 2 r2 with
          | Some (sec, "."%char :: r3) =>
              match takeNumber 3 r3 with
              | Some (ms, r4) => Some (h, mi, sec, ms, r4)
              | None => None
              end
          | Some (sec, r3) => Some (h, mi, sec, 0, r3)
          | None => None
          end
      | Some (mi, r2) => Some (h, mi, 0, 0, r2)
      | None => None
      end
  | _ => None
  end.

(** The UTC offset that ends a date-time form, in minutes east of UTC:
    [Z], [+HH:mm] or [-HH:mm].  Without one the time is local time, and
    the local time zone of a Worker is UTC. *)
Definition parseOffset (cs : list ascii) : option Z :=
  match cs with
  | [] => Some 0
  | ["Z"%char] => Some 0
  | sg :: rest =>
      if Ascii.eqb sg "+" || Ascii.eqb sg "-" then
        match takeNumber 2 rest with
        | Some (hh, ":"%char :: r) =>
            match takeNumber 2 r with
            | Some (mm, []) =>
                if (hh <=? 23) && (mm <=? 59)
                then Some ((if Ascii.eqb sg "-" then -1 else 1) * (hh * 60 + mm))
                else None
            | _ => None
            end
        | _ => None
        end
      else None
  end.

(** Time value of the fields of a date-time string, as V8 checks them
    (month 1..12, day 1..31, 24:00:00.000 allowed as the end of a day),
    [offset] minutes east of UTC. *)
Definition dateValue (y mo d h mi sec ms offset : Z) : option Z :=
  if (1 <=? mo) && (mo <=? 12) && (1 <=? d) && (d <=? 31) &&
     ((h <=? 23) || ((h =? 24) && (mi =? 0) && (sec =? 0) && (ms =? 0))) &&
     (mi <=? 59) && (sec <=? 59)
  then TimeClip (MakeDate (MakeDay y (mo - 1) d) (MakeTime h mi sec ms)
                 - offset * msPerMinute)
  else None.

(** [new Date(s)] for a string in the date-time string format of the
    standard (sec. 21.4.1.32): the date-only forms YYYY, YYYY-MM and
    YYYY-MM-DD, read as UTC, and the date-time forms, a date-only form
    followed by T, one of the time forms and an optional UTC offset;
    [toISOString] prints the longest of them.  What an engine makes of a
    string outside the format is left to it by the standard; here such a
    string is an Invalid Date.  The handler passes only strings that
    [toISOString] wrote. *)
Definition newDateFromString (s : string) : Date :=
  match parseYear (list_ascii_of_string s) with
  | Some (y, r1) =>
      match parseDatePart r1 with
      | Some (mo, r2) =>
          match parseDatePart r2 with
          | Some (d, []) => dateValue y mo d 0 0 0 0 0
          | Some (d, "T"%char :: r3) =>
              match parseTime r3 with
              | Some (h, mi, sec, ms, r4) =>
                  match parseOffset r4 with
                  | Some offset => dateValue y mo d h mi sec ms offset
                  | None => None
                  end
              | None => None
              end
          | _ => None
          end
      | None => None
      end
  | None => None
  end.

End Ecma.

(* ------------------------------------------------------------------ *)
(** ** The date-fns-tz library, as far as the worker calls it

    The worker imports [zonedTimeToUtc] and [formatInTimeZone] from
    date-fns-tz; the library and the zone data it reads from the runtime
    are not part of the worker's sources.  The spec's TimeConverter
    (section 4.1) gives their contract: a local date and wall-clock time
    is read in the named zone, observing the daylight-saving rule of that
    zone on that date, and an instant is rendered as the wall clock of the
    zone.  The definitions below follow the library's own steps (guess the
    offset, test it, correct it once). *)

Module DateFnsTz.

Import JsString Ecma.

(** Modelled from the spec: the zone data of America/Los_Angeles, which the
    runtime supplies from the time zone database.  Local mean time
    (UTC-7:52:58) until 18 November 1883, 20:00 UTC; since then standard
    time (UTC-8), and daylight saving time (UTC-7) in the periods that
    [daylightSaving] lists.  Sundays are found from the day number. *)
Definition firstSundayOnOrAfter (day : Z) : Z :=
  day + (7 - (day + 4) mod 7) mod 7.

(** Modelled from the spec: see [firstSundayOnOrAfter]. *)
Definition lastSundayOnOrBefore (day : Z) : Z :=
  day - (day + 4) mod 7.

(** Modelled from the spec: first instant of daylight saving time in year
    [y] under the rule in force since 2007, 10:00 UTC (02:00 standard
    time) on the second Sunday of March. *)
Definition dstStart (y : Z) : Z :=
  MakeDate (firstSundayOnOrAfter (MakeDay y 2 8)) (10 * msPerHour).

(** Modelled from the spec: first instant of standard time in the autumn of
    year [y] under the rule in force since 2007, 09:00 UTC (02:00 daylight
    time) on the first Sunday of November. *)
Definition dstEnd (y : Z) : Z :=
  MakeDate (firstSundayOnOrAfter (MakeDay y 10 1)) (9 * msPerHour).

(** Modelled from the spec: the period of daylight saving time of the year
    [y], from its first instant to the first instant after it (the two
    are equal in a year without daylight saving time).
    - since 2007: second Sunday of March to first Sunday of November;
    - 1987 to 2006: first Sunday of April to last Sunday of October;
    - 1967 to 1986: last Sunday of April to last Sunday of October, but
      from 6 January in 1974 and from 23 February in 1975;
    - 1950 to 1966 (rules of California): last Sunday of April, at 01:00,
      to last Sunday of September, from 1962 of October;
    - 1948: from 14 March, 02:01, to 1 January 1949;
    - war time: from 9 February 1942 to 30 September 1945, through the
      years between;
    - 1918 and 1919: last Sunday of March to last Sunday of October.
    Transitions are at 02:00 wall-clock time unless said otherwise. *)
Definition daylightSaving (y : Z) : Z * Z :=
  let none := (TimeFromYear y, TimeFromYear y) in
  let at2 := 10 * msPerHour in
  let at1 := 9 * msPerHour in
  let back := 9 * msPerHour in
  let lastSunday m d := lastSundayOnOrBefore (MakeDay y m d) in
  if 2007 <=? y then (dstStart y, dstEnd y)
  else if 1987 <=? y then
    (MakeDate (firstSundayOnOrAfter (MakeDay y 3 1)) at2, MakeDate (lastSunday 9 31) back)
  else if 1976 <=? y then
    (MakeDate (lastSunday 3 30) at2, MakeDate (lastSunday 9 31) back)
  else if y =? 1975 then
    (MakeDate (MakeDay y 1 23) at2, MakeDate (lastSunday 9 31) back)
  else if y =? 1974 then
    (MakeDate (MakeDay y 0 6) at2, MakeDate (lastSunday 9 31) back)
  else if 1967 <=? y then
    (MakeDate (lastSunday 3 30) at2, MakeDate (lastSunday 9 31) back)
  else if 1962 <=? y then
    (MakeDate (lastSunday 3 30) at1, MakeDate (lastSunday 9 31) back)
  else if 1950 <=? y then
    (MakeDate (lastSunday 3 30) at1, MakeDate (lastSunday 8 30) back)
  else if y =? 1949 then
    (TimeFromYear y, MakeDate (MakeDay y 0 1) back)
  else if y =? 1948 then
    (MakeDate (MakeDay y 2 14) (at2 + msPerMinute), TimeFromYear (y + 1))
  else if 1946 <=? y then none
  else if y =? 1945 then
    (TimeFromYear y, MakeDate (MakeDay y 8 30) back)
  else if 1943 <=? y then
    (TimeFromYear y, TimeFromYear (y + 1))
  else if y =? 1942 then
    (MakeDate (MakeDay y 1 9) at2, TimeFromYear (y + 1))
  else if 1920 <=? y then none
  else if 1918 <=? y then
    (MakeDate (lastSunday 2 31) at2, MakeDate (lastSunday 9 31) back)
  else none.

(** Modelled from the spec: the instant standard time was introduced, noon
    of 18 November 1883 on the new clock, and the offset of the local mean
    time in use before. *)
Definition standardTimeStart : Z :=
  MakeDate (MakeDay 1883 10 18) (20 * msPerHour).

(** Modelled from the spec: see [standardTimeStart]. *)
Definition localMeanTime : Z :=
  - (7 * msPerHour + 52 * msPerMinute + 58 * msPerSecond).

(** Modelled from the spec: offset of Pacific local time from UTC at the
    instant [t], in milliseconds. *)
Definition pacificOffset (t : Z) : Z :=
  if t <? standardTimeStart then localMeanTime
  else
    let period := daylightSaving (YearFromTime t) in
    if (fst period <=? t) && (t <? snd period)
    then - (7 * msPerHour) else - (8 * msPerHour).

(** Modelled from the spec: the zones the model has data for.  The worker
    names no other zone; another name is answered like a zone name the
    runtime does not know. *)
Definition zoneOffset (timeZone : string) (t : Z) : option Z :=
  if String.eqb timeZone "America/Los_Angeles" then Some (pacificOffset t) else None.

(** Modelled from the spec: the calendar fields the library reads from the
    runtime's formatter. *)
Record Tokens := mkTokens
  { year : Z; month : Z; day : Z; hour : Z; minute : Z; second : Z }.

(** Modelled from the spec: [tzTokenizeDate], the calendar fields of the
    instant [t] on the wall clock of the zone (months from 1). *)
Definition tzTokenizeDate (timeZone : string) (t : Z) : option Tokens :=
  match zoneOffset timeZone t with
  | Some off =>
      let l := t + off in
      Some (mkTokens (YearFromTime l) (MonthFromTime l + 1) (DateFromTime l)
                     (HourFromTime l) (MinFromTime l) (SecFromTime l))
  | None => None
  end.

(** Modelled from the spec: [newDateUTC], the time value of calendar
    fields taken as UTC. *)
Definition newDateUTC (fullYear month day hour minute second millisecond : Z) : Z :=
  MakeDate (MakeDay fullYear month day) (MakeTime hour minute second millisecond).

(** Modelled from the spec: [calcOffset], the offset of the zone at the
    instant [t], recovered from the tokens. *)
Definition calcOffset (timeZone : string) (t : Z) : option Z :=
  match tzTokenizeDate timeZone t with
  | Some tk =>
      let asUTC := newDateUTC (year tk) (month tk - 1) (day tk)
                              (hour tk mod 24) (minute tk) (second tk) 0 in
      let asTS := t - t mod 1000 in
      Some (asUTC - asTS)
  | None => None
  end.

(** Modelled from the spec: [fixOffset], the offset that applies to the
    wall-clock reading [localTS]: the guess [offset] is tested at the
    instant it leads to and corrected once; in the hour a spring-forward
    transition skips, the later of the two offsets is taken. *)
Definition fixOffset (timeZone : string) (localTS offset : Z) : option Z :=
  let utcGuess := localTS - offset in
  match calcOffset timeZone utcGuess with
  | None => None
  | Some o2 =>
      if offset =? o2 then Some offset
      else
        let utcGuess := utcGuess - (o2 - offset) in
        match calcOffset timeZone utcGuess with
        | None => None
        | Some o3 => if o2 =? o3 then Some o2 else Some (Z.max o2 o3)
        end
  end.

(** Modelled from the spec: [tzParseTimezone] for a zone name and a
    wall-clock reading: what to add to the reading to get the instant. *)
Definition tzParseTimezone (timeZone : string) (localTS : Z) : option Z :=
  match calcOffset timeZone localTS with
  | None => None
  | Some offset =>
      match fixOffset timeZone localTS offset with
      | Some fixedOffset => Some (- fixedOffset)
      | None => None
      end
  end.

(** Modelled from the spec: [validateDate] and [validateTime], the ranges
    the library accepts for the fields of a date-time string (months from
    0; an hour 24 is accepted). *)
Definition validateDate (year month date : Z) : bool :=
  (0 <=? month) && (month <=? 11) && (1 <=? date) &&
  (date <=? DaysInMonth (isLeapYear year) month).

(** Modelled from the spec: see [validateDate]. *)
Definition validateTime (hours minutes seconds : Z) : bool :=
  (hours <? 25) && (minutes <? 60) && (seconds <? 60).

(** Modelled from the spec: [toDate] on a string YYYY-MM-DDTHH:MM:SS
    without a zone suffix, the only shape the worker builds: the reading
    as if it were UTC, [None] when a field is out of range. *)
Definition parseNaive (s : string) : option Z :=
  match list_ascii_of_string s with
  | [y1; y2; y3; y4; "-"; m1; m2; "-"; d1; d2; "T";
     h1; h2; ":"; n1; n2; ":"; s1; s2]%char =>
      match number [y1; y2; y3; y4], number [m1; m2], number [d1; d2],
            number [h1; h2], number [n1; n2], number [s1; s2] with
      | Some y, Some mo, Some d, Some h, Some mi, Some sec =>
          if validateDate y (mo - 1) d && validateTime h mi sec
          then Some (MakeDate (MakeDay y (mo - 1) d) 0 +
                     ((h mod 24) * msPerHour + mi * msPerMinute + sec * 1000))
          else None
      | _, _, _, _, _, _ => None
      end
  | _ => None
  end.

(** Modelled from the spec: [zonedTimeToUtc(date, timeZone)], the spec's
    [toAbsoluteInstant]: the instant at which the wall clock of the zone
    shows the given reading; an Invalid Date when the string or the zone
    is not understood. *)
Definition zonedTimeToUtc (date : string) (timeZone : string) : Date :=
  match parseNaive date with
  | None => None
  | Some localTS =>
      match tzParseTimezone timeZone localTS with
      | None => None
      | Some offset => TimeClip (localTS + offset)
      end
  end.

(** *** Formatting *)

(** Modelled from the spec: the pieces of a format pattern, a run of one
    letter or a single other character. *)
Inductive Token :=
| Letters (c : ascii) (n : nat)
| Literal (c : ascii).

(** Modelled from the spec: the letters A to Z and a to z. *)
Definition isLetter (c : ascii) : bool :=
  ((65 <=? charCode c) && (charCode c <=? 90)) ||
  ((97 <=? charCode c) && (charCode c <=? 122)).

(** Modelled from the spec: a pattern is cut into runs of one letter and
    single other characters. *)
Fixpoint tokenize (pattern : string) : list Token :=
  match pattern with
  | EmptyString => []
  | String c rest =>
      if isLetter c then
        match tokenize rest with
        | Letters c' n :: ts =>
            if Ascii.eqb c c' then Letters c (S n) :: ts
            else Letters c 1 :: Letters c' n :: ts
        | ts => Letters c 1 :: ts
        end
      else Literal c :: tokenize rest
  end.

(** Modelled from the spec: the tokens the spec lists for [formatForDisplay]
    (2-digit day and month, 4-digit year, 2-digit hour, minute and second,
    12-hour clock with meridiem, zone abbreviation), rendered from the
    wall-clock reading [l] and the offset [off] in force.  [None] for a
    letter run that is none of them. *)
Definition formatToken (l off : Z) (tok : Token) : option string :=
  match tok with
  | Literal c => Some (String c EmptyString)
  | Letters c n =>
      match c, n with
      | "d"%char, 2%nat => Some (addLeadingZeros (DateFromTime l) 2)
      | "M"%char, 2%nat => Some (addLeadingZeros (MonthFromTime l + 1) 2)
      | "y"%char, 4%nat =>
          let y := YearFromTime l in
          Some (addLeadingZeros (if 0 <? y then y else 1 - y) 4)
      | "H"%char, 2%nat => Some (addLeadingZeros (HourFromTime l) 2)
      | "h"%char, 2%nat =>
          let h := HourFromTime l mod 12 in
          Some (addLeadingZeros (if h =? 0 then 12 else h) 2)
      | "m"%char, 2%nat => Some (addLeadingZeros (MinFromTime l) 2)
      | "s"%char, 2%nat => Some (addLeadingZeros (SecFromTime l) 2)
      | "a"%char, 1%nat => Some (if 12 <=? HourFromTime l then "PM" else "AM")
      | "z"%char, 3%nat => Some (if off =? - (7 * msPerHour) then "PDT" else "PST")
      | _, _ => None
      end
  end.

(** Modelled from the spec: the rendered tokens in a row. *)
Fixpoint formatTokens (l off : Z) (toks : list Token) : option string :=
  match toks with
  | [] => Some EmptyString
  | tok :: rest =>
      match formatToken l off tok, formatTokens l off rest with
      | Some a, Some b => Some (a ++ b)
      | _, _ => None
      end
  end.

(** Modelled from the spec: [formatInTimeZone(date, timeZone, formatStr)],
    the spec's [formatForDisplay]: the instant rendered as the wall clock
    of the zone; a RangeError for an Invalid Date, an unknown zone or an
    unknown pattern letter. *)
Definition formatInTimeZone (date : Date) (timeZone : string) (formatStr : string)
  : Completion string :=
  match date with
  | None => Throw (mkError "Invalid time value")
  | Some t =>
      match zoneOffset timeZone t with
      | None => Throw (mkError "Invalid time zone specified")
      | Some off =>
          match formatTokens (t + off) off (tokenize formatStr) with
          | Some s => Normal s
          | None => Throw (mkError "Format string contains an unescaped latin alphabet character")
          end
      end
  end.

End DateFnsTz.

(* ------------------------------------------------------------------ *)
(** ** Runtime: outbound calls, console and exceptions

    A computation reads the answers of the outside world from a [World],
    threads the local variables [S] of the function that runs it, emits
    the calls it makes as [Event]s, and completes normally or throws. *)

Module Runtime.

Import JsString.

(** Values of the fields of a JSON request body. *)
Inductive Json :=
| JString (s : string)
| JStrings (l : list string).

(** A Slack block: a section with one mrkdwn text, a divider, or a section
    with a list of mrkdwn fields. *)
Inductive Block :=
| Section (text : string)
| Divider
| Fields (texts : list string).

Record SlackMessagePayload := mkPayload { blocks : list Block }.

(** Body of an outbound [fetch], before [JSON.stringify]: an object
    literal with its keys in order, or a Slack payload. *)
Inductive Body :=
| ObjectBody (fields : list (string * Json))
| SlackBody (payload : SlackMessagePayload).

Record HttpResponse := mkHttpResponse
  { status : Z;
    text : Completion string  (* [await response.text()] *) }.

Definition ok (r : HttpResponse) : bool := (200 <=? status r) && (status r <=? 299).

Inductive FetchOutcome :=
| Rejected (e : Error)
| Resolved (r : HttpResponse).

Record Attachment := mkAttachment
  { content : string; filename : string; type : string; disposition : string }.

Record MailData := mkMailData
  { to_email : string; to_name : string;
    cc : list string;
    from_email : string; from_name : string;
    subject : string;
    text_body : string;
    html : string;
    attachments : list Attachment }.

(** Outcome of [sgMail.send]: the status code of the first response, or a
    rejection with its error, which may carry the body of the service's
    response. *)
Inductive SendOutcome :=
| Sent (statusCode : Z)
| SendRejected (e : Error) (responseBody : option string).

Record World := mkWorld
  { fetch : string -> list (string * string) -> Body -> FetchOutcome;
    sgMail_send : string -> MailData -> SendOutcome }.

Inductive Level := LLog | LWarn | LError.

(** What a run does, in order.  A console call is recorded with its text,
    a message followed by further arguments with the message alone.
    [WaitUntil task] is a promise handed to [ctx.waitUntil]: the events of
    the detached task, which the caller does not await. *)
#[local] Set Warnings "-register-all".
Inductive Event :=
| Console (lvl : Level) (msg : string)
| Fetch (url : string) (headers : list (string * string)) (body : Body)
| SgMailSend (apiKey : string) (msg : MailData)
| WaitUntil (task : list Event).

Definition M (S A : Type) : Type := World -> S -> list Event * S * Completion A.

Definition ret {S A} (a : A) : M S A := fun _ s => ([], s, Normal a).

Definition bind {S A B} (m : M S A) (f : A -> M S B) : M S B :=
  fun w s =>
    match m w s with
    | (t1, s1, Normal a) =>
        match f a w s1 with
        | (t2, s2, r) => ((t1 ++ t2)%list, s2, r)
        end
    | (t1, s1, Throw e) => (t1, s1, Throw e)
    end.

Definition throw {S A} (e : Error) : M S A := fun _ s => ([], s, Throw e).

(** [try { m } catch (error) { h error }]: the handler sees the local
    variables as the throw left them. *)
Definition tryCatch {S A} (m : M S A) (h : Error -> M S A) : M S A :=
  fun w s =>
    match m w s with
    | (t1, s1, Normal a) => (t1, s1, Normal a)
    | (t1, s1, Throw e) =>
        match h e w s1 with
        | (t2, s2, r) => ((t1 ++ t2)%list, s2, r)
        end
    end.

Definition lift {S A} (c : Completion A) : M S A := fun _ s => ([], s, c).

Definition emit {S} (ev : Event) : M S unit := fun _ s => ([ev], s, Normal tt).

Definition console {S} (lvl : Level) (msg : string) : M S unit := emit (Console lvl msg).

Definition getLocals {S} : M S S := fun _ s => ([], s, Normal s).
Definition putLocals {S} (s : S) : M S unit := fun _ _ => ([], s, Normal tt).

(** [await fetch(url, { method: 'POST', headers, body })]. *)
Definition awaitFetch {S} (url : string) (headers : list (string * string)) (body : Body)
  : M S HttpResponse :=
  fun w s =>
    match fetch w url headers body with
    | Rejected e => ([Fetch url headers body], s, Throw e)
    | Resolved r => ([Fetch url headers body], s, Normal r)
    end.

(** [await sgMail.send(msg)] after [sgMail.setApiKey(apiKey)]. *)
Definition awaitSend {S} (apiKey : string) (msg : MailData) : M S Z :=
  fun w s =>
    match sgMail_send w apiKey msg with
    | Sent statusCode => ([SgMailSend apiKey msg], s, Normal statusCode)
    | SendRejected e _ => ([SgMailSend apiKey msg], s, Throw e)
    end.

(** [ctx.waitUntil(task)]: the task runs with no access to the caller's
    variables; its result and its failure are the runtime's, not the
    caller's. *)
Definition waitUntil {S A} (task : M unit A) : M S unit :=
  fun w s =>
    match task w tt with
    | (t, _, _) => ([WaitUntil t], s, Normal tt)
    end.

Module Notations.
  Notation "x <- m ;; k" := (bind m (fun x => k))
    (at level 61, m at next level, right associativity).
  Notation "m ;; k" := (bind m (fun _ => k))
    (at level 61, right associativity).
End Notations.

(** Every event of a run, those of detached tasks included. *)
Fixpoint flatten (ev : Event) : list Event :=
  match ev with
  | WaitUntil task => flat_map flatten task
  | _ => [ev]
  end.

Definition allEvents (t : list Event) : list Event := flat_map flatten t.

(** *** [btoa] *)

Definition base64Alphabet : string :=
  "ABCDEFGHIJKLMNOPQRSTUVWXYZabcdefghijklmnopqrstuvwxyz0123456789+/".

Definition base64Char (n : Z) : ascii :=
  match String.get (Z.to_nat n) base64Alphabet with
  | Some c => c
  | None => "="%char
  end.

Fixpoint base64 (bytes : list Z) : string :=
  match bytes with
  | [] => EmptyString
  | [a] =>
      String (base64Char (a / 4))
        (String (base64Char ((a mod 4) * 16)) "==")
  | [a; b] =>
      String (base64Char (a / 4))
        (String (base64Char ((a mod 4) * 16 + b / 16))
          (String (base64Char ((b mod 16) * 4)) "="))
  | a :: b :: c :: rest =>
      String (base64Char (a / 4))
        (String (base64Char ((a mod 4) * 16 + b / 16))
          (String (base64Char ((b mod 16) * 4 + c / 64))
            (String (base64Char (c mod 64)) (base64 rest))))
  end.

(** The code points of a string whose characters are all below U+0100,
    read from its UTF-8 bytes; [None] if a character is above. *)
Fixpoint latin1 (bytes : list Z) : option (list Z) :=
  match bytes with
  | [] => Some []
  | b :: rest =>
      if b <? 128 then option_map (cons b) (latin1 rest)
      else
        match rest with
        | b2 :: rest' =>
            if b =? 194 then option_map (cons b2) (latin1 rest')
            else if b =? 195 then option_map (cons (b2 + 64)) (latin1 rest')
            else None
        | [] => None
        end
  end.

Definition btoa (s : string) : Completion string :=
  match latin1 (map charCode (list_ascii_of_string s)) with
  | Some bytes => Normal (base64 bytes)
  | None => Throw (mkError "btoa() can only operate on characters in the Latin1 (ISO/IEC 8859-1) range.")
  end.

End Runtime.

(* ------------------------------------------------------------------ *)
(** ** src/utils/slack.ts *)

Module Slack.

Import JsString Runtime Runtime.Notations.

(** The parameter is declared a string; the first test of the function
    allows for a value that is undefined ([None]) or empty.  The attempt
    to read a failure body as JSON only adds a console line and is not
    recorded. *)
Definition sendSlackMessage {S} (webhookUrl : option string) (payload : SlackMessagePayload)
  : M S bool :=
  match webhookUrl with
  | None | Some EmptyString =>
      console LError "Slack webhook URL is undefined. Cannot send message." ;;
      ret false
  | Some webhookUrl =>
      let maskedUrl :=
        match prefixThrough "services/" webhookUrl with
        | Some p => p ++ "..."
        | None => "Invalid Slack URL"
        end in
      console LLog ("Sending Slack message to: " ++ maskedUrl) ;;
      tryCatch
        (response <- awaitFetch webhookUrl [("Content-Type", "application/json")]
                                (SlackBody payload) ;;
         responseText <- lift (text response) ;;
         if negb (ok response) then
           console LError ("Slack API Error (" ++ toDecimal (status response) ++ "): "
                           ++ responseText) ;;
           ret false
         else
           console LLog "Slack message sent successfully. Response:" ;;
           ret (String.eqb (toLowerCase (trim responseText)) "ok"))
        (fun error =>
           console LError "Error sending Slack message (network or other exception):" ;;
           ret false)
  end.

End Slack.

(* ------------------------------------------------------------------ *)
(** ** src/utils/apyhub.ts *)

Module ApyHub.

Import JsString Ecma DateFnsTz Runtime Runtime.Notations.

Record BookingDetails := mkBookingDetails
  { name : string;
    email : string;
    startTimeISO : string  (* This is UTC *) }.

Definition APYHUB_ICAL_URL : string :=
  "https://api.apyhub.com/generate/ical/file?output=invite.ics".

(** The object literal [requestBody] of [generateICS]. *)
Definition requestBody (details : BookingDetails)
                       (pacificTimeZone meetingDatePT startTimePT endTimePT : string)
  : list (string * Json) :=
  [ ("summary", JString ("Interview: " ++ name details));
    ("description", JString ("Bland AI Support Engineer Interview Slot for "
                             ++ name details ++ ". Please be ready!"));
    ("organizer_email", JString "hello@debtcat.com");
    ("attendees_emails", JStrings [email details]);
    ("time_zone", JString pacificTimeZone);
    ("meeting_date", JString meetingDatePT);
    ("start_time", JString startTimePT);
    ("end_time", JString endTimePT);
    ("organizer_name", JString "Bland AI Recruiting") ].

Definition generateICS {S} (details : BookingDetails) (apiToken : string) : M S string :=
  console LLog ("Generating ICS via ApyHub for: " ++ email details ++ ". Input UTC: "
                ++ startTimeISO details) ;;
  let pacificTimeZone := "America/Los_Angeles" in
  let utcStartDate := newDateFromString (startTimeISO details) in
  let utcEndDate := newDate (plus (getTime utcStartDate) (30 * 60 * 1000)) in
  meetingDatePT <- lift (formatInTimeZone utcStartDate pacificTimeZone "dd-MM-yyyy") ;;
  startTimePT <- lift (formatInTimeZone utcStartDate pacificTimeZone "HH:mm") ;;
  endTimePT <- lift (formatInTimeZone utcEndDate pacificTimeZone "HH:mm") ;;
  console LLog ("Derived Pacific Time for ApyHub: Date=" ++ meetingDatePT ++ ", Start="
                ++ startTimePT ++ ", End=" ++ endTimePT) ;;
  let requestBody := requestBody details pacificTimeZone meetingDatePT startTimePT endTimePT in
  console LLog "Sending body to ApyHub:" ;;
  tryCatch
    (response <- awaitFetch APYHUB_ICAL_URL
                   [("Content-Type", "application/json"); ("apy-token", apiToken)]
                   (ObjectBody requestBody) ;;
     if negb (ok response) then
       errorText <- lift (text response) ;;
       console LError ("ApyHub API Error (" ++ toDecimal (status response) ++ "): "
                       ++ errorText) ;;
       throw (mkError ("Failed to generate ICS: ApyHub returned status "
                       ++ toDecimal (status response) ++ " - " ++ errorText))
     else
       icsContent <- lift (text response) ;;
       console LLog "Successfully generated ICS content from ApyHub." ;;
       ret icsContent)
    (fun error =>
       console LError "Error calling ApyHub:" ;;
       throw error).

End ApyHub.

(* ------------------------------------------------------------------ *)
(** ** src/utils/sendgrid.ts *)

Module SendGrid.

Import JsString Ecma DateFnsTz Runtime Runtime.Notations.

Record EmailDetails := mkEmailDetails
  { toEmail : string;
    toName : string;
    startTimeISO : string;
    icsContent : string  (* Raw ICS text *) }.

Definition nl : string := String "010"%char EmptyString.

Definition sendEmailWithICS {S} (details : EmailDetails) (apiKey : string) : M S unit :=
  console LLog ("Sending email via SendGrid to: " ++ toEmail details
                ++ ", CC: lyori6@gmail.com") ;;
  let senderEmail := "hello@debtcat.com" in
  let senderName := "Bland AI Recruiting" in
  let pacificTimeZoneDisplay := "America/Los_Angeles" in
  let dateObjectForDisplay := newDateFromString (startTimeISO details) in
  displayTimePacific <- lift (formatInTimeZone dateObjectForDisplay pacificTimeZoneDisplay
                                               "MM/dd/yyyy, hh:mm:ss a zzz") ;;
  encoded <- lift (btoa (icsContent details)) ;;
  let msg :=
    {| to_email := toEmail details;
       to_name := toName details;
       cc := ["lyori6@gmail.com"];
       from_email := senderEmail;
       from_name := senderName;
       subject := "Interview Confirmation - Bland AI Support Engineer - " ++ toName details;
       text_body := "Hi " ++ toName details ++ "," ++ nl ++ nl
                    ++ "Your interview is confirmed for " ++ displayTimePacific ++ "."
                    ++ nl ++ nl ++ "Please find the calendar invite attached." ++ nl ++ nl
                    ++ "Best regards," ++ nl ++ senderName ++ nl ++ nl
                    ++ "(Raw UTC Time: " ++ startTimeISO details ++ ")";
       html := "<p>Hi " ++ toName details ++ ",</p><p>Your interview is confirmed for <strong>"
               ++ displayTimePacific
               ++ "</strong>.</p><p>Please find the calendar invite attached.</p><p>Best regards,<br/>"
               ++ senderName ++ "</p><p><small>(Raw UTC Time: " ++ startTimeISO details
               ++ ")</small></p>";
       attachments :=
         [ {| content := encoded;
              filename := "invite.ics";
              type := "text/calendar; method=REQUEST";
              disposition := "attachment" |} ] |} in
  tryCatch
    (statusCode <- awaitSend apiKey msg ;;
     console LLog "SendGrid email sent successfully. Status Code:")
    (fun error =>
       console LError "Error sending email via SendGrid:" ;;
       throw (mkError "Failed to send confirmation email via SendGrid.")).

End SendGrid.

(* ------------------------------------------------------------------ *)
(** ** src/index.ts *)

Module Index.

Import JsString Ecma DateFnsTz Runtime Runtime.Notations.
Import Slack ApyHub SendGrid.

Record Env := mkEnv
  { APY_TOKEN : string;
    SENDGRID_KEY : string;
    HMAC_SECRET : string;
    SLACK_BOOKINGS_URL : option string;
    SLACK_ERRORS_URL : option string }.

(** A property of the parsed body as the handler reads it: absent, a
    string, or a value of another type (null, a number, a boolean, an
    object), of which the handler only uses the truthiness and, in a
    template literal, the text. *)
Inductive JsField :=
| Undefined
| Str (s : string)
| NonString (truthy : bool) (shown : string).

(** What [request.json()] resolves to: a falsy value (null, false, 0, the
    empty string), a truthy value that is no object (true, a number, a
    string), or an object (an array has none of the three properties). *)
Inductive BlandWebhookInput :=
| Falsy
| Primitive
| Obj (email interview_date interview_time : JsField).

Record Request := mkRequest
  { method : string;
    pathname : string;
    json : Completion BlandWebhookInput  (* [await request.json()] *) }.

(** Body of a response of the worker: plain text, or the JSON text of
    [{ success: true, message }] or [{ success: false, error }]. *)
Inductive ResponseBody :=
| Text (s : string)
| Success (message : string)
| Failure (error : string).

Record Response := mkResponse
  { status : Z;
    contentType : option string;
    body : ResponseBody }.

Definition truthyField (f : JsField) : bool :=
  match f with
  | Undefined => false
  | Str s => truthy s
  | NonString b _ => b
  end.

(** The text of a value in a template literal. *)
Definition shown (f : JsField) : string :=
  match f with
  | Undefined => "undefined"
  | Str s => s
  | NonString _ s => s
  end.

(** [a || b] on strings. *)
Definition orElse (a b : string) : string := if truthy a then a else b.

(** [value.split('@')[0]]; a TypeError when [value] is no string. *)
Definition splitAt {S} (what : string) (value : JsField) : M S string :=
  match value with
  | Str s => ret (splitHead "@" s)
  | Undefined =>
      throw (mkError "Cannot read properties of undefined (reading 'split')")
  | NonString _ _ => throw (mkError (what ++ ".split is not a function"))
  end.

(** [/^(\d{2})-(\d{2})-(\d{4})$/]: the groups day, month, year. *)
Definition matchDate (s : string) : option (string * string * string) :=
  match list_ascii_of_string s with
  | [d1; d2; "-"; m1; m2; "-"; y1; y2; y3; y4]%char =>
      if forallb isDigit [d1; d2; m1; m2; y1; y2; y3; y4]
      then Some (string_of_list_ascii [d1; d2], string_of_list_ascii [m1; m2],
                 string_of_list_ascii [y1; y2; y3; y4])
      else None
  | _ => None
  end.

(** [/^(\d{2}):(\d{2})$/]: the groups hour, minute. *)
Definition matchTime (s : string) : option (string * string) :=
  match list_ascii_of_string s with
  | [h1; h2; ":"; m1; m2]%char =>
      if forallb isDigit [h1; h2; m1; m2]
      then Some (string_of_list_ascii [h1; h2], string_of_list_ascii [m1; m2])
      else None
  | _ => None
  end.

(** [value.match(re)]; a TypeError when [value] is no string. *)
Definition matchField {S A} (what : string) (re : string -> option A) (value : JsField)
  : M S (option A) :=
  match value with
  | Str s => ret (re s)
  | Undefined =>
      throw (mkError "Cannot read properties of undefined (reading 'match')")
  | NonString _ _ => throw (mkError (what ++ ".match is not a function"))
  end.

(** [bookingDataForSlack: { name?: string; email?: string }]. *)
Record SlackData := mkSlackData
  { slack_name : option string;
    slack_email : option string }.

(** The variables of [handleBookEmail] that its catch block reads. *)
Record Locals := mkLocals
  { inputData : option BlandWebhookInput;
    bookingDataForSlack : SlackData }.

Definition initialLocals : Locals :=
  {| inputData := None;
     bookingDataForSlack := {| slack_name := None; slack_email := None |} |}.

Definition setInputData (v : BlandWebhookInput) : M Locals unit :=
  l <- getLocals ;;
  putLocals {| inputData := Some v; bookingDataForSlack := bookingDataForSlack l |}.

Definition setBookingDataForSlack (d : SlackData) : M Locals unit :=
  l <- getLocals ;;
  putLocals {| inputData := inputData l; bookingDataForSlack := d |}.

Definition successMessageBlocks (bookingDetails : BookingDetails) (displayTimePacific : string)
  : list Block :=
  [ Section "✅ *New Interview Booked!*";
    Divider;
    Fields [ "*Applicant:* " ++ orElse (name bookingDetails) "N/A";
             "*Email:* " ++ orElse (email bookingDetails) "N/A";
             "*Time (PT):* " ++ displayTimePacific;
             "*Calendar Invite:* Sent Successfully!" ] ].

(** [bookingDataForSlack.email || (inputData ? inputData.email : 'N/A')],
    as a template literal prints it. *)
Definition applicantEmail (l : Locals) : string :=
  match slack_email (bookingDataForSlack l) with
  | Some e => if truthy e then e else
      match inputData l with
      | Some (Obj email0 _ _) => shown email0
      | Some Primitive => "undefined"
      | Some Falsy | None => "N/A"
      end
  | None =>
      match inputData l with
      | Some (Obj email0 _ _) => shown email0
      | Some Primitive => "undefined"
      | Some Falsy | None => "N/A"
      end
  end.

Definition failureMessageBlocks (l : Locals) (error : Error) : list Block :=
  [ Section "❌ *Interview Booking Failed!*";
    Divider;
    Fields [ "*Applicant Email:* " ++ applicantEmail l;
             "*Error Details:* " ++ orElse (message error) "Unknown internal error" ] ].

(** Lines 83 to 87: the naive date-time string of the matched groups, read
    as a wall-clock time of America/Los_Angeles. *)
Definition pacificDate (day month year hour minute : string) : Date :=
  let naiveDateTimeString :=
    year ++ "-" ++ month ++ "-" ++ day ++ "T" ++ hour ++ ":" ++ minute ++ ":00" in
  let pacificTimeZone := "America/Los_Angeles" in
  zonedTimeToUtc naiveDateTimeString pacificTimeZone.

(** First part of the try block, up to the construction of
    [bookingDetails]: the stages Received, Validated and TimeResolved. *)
Definition resolveBooking (request : Request) : M Locals BookingDetails :=
  data <- lift (json request) ;;
  setInputData data ;;
  match data with
  | Falsy => ret tt
  | Primitive =>
      setBookingDataForSlack
        {| slack_name := Some "Candidate (No Email)"; slack_email := None |}
  | Obj email0 _ _ =>
      if truthyField email0 then
        head <- splitAt "inputData.email" email0 ;;
        setBookingDataForSlack
          {| slack_name := Some (orElse head "Candidate");
             slack_email := Some (shown email0) |}
      else
        setBookingDataForSlack
          {| slack_name := Some "Candidate (No Email)"; slack_email := None |}
  end ;;
  match data with
  | Falsy | Primitive => throw (mkError "Invalid JSON payload")
  | Obj email0 interview_date interview_time =>
      console LLog "Received Bland input data:" ;;
      (if negb (truthyField email0) || negb (truthyField interview_date)
          || negb (truthyField interview_time)
       then
         let missingFields :=
           String.concat ", "
             (map fst (filter (fun field => negb (truthyField (snd field)))
                              [("email", email0); ("interview_date", interview_date);
                               ("interview_time", interview_time)])) in
         console LError ("Validation Error: Missing fields - " ++ missingFields) ;;
         throw (mkError ("Missing required fields: " ++ missingFields))
       else ret tt) ;;
      (* --- Date/Time Parsing --- *)
      dateParts <- matchField "inputData.interview_date" matchDate interview_date ;;
      timeParts <- matchField "inputData.interview_time" matchTime interview_time ;;
      match dateParts, timeParts with
      | Some (day, month, year), Some (hour, minute) =>
          let utcDate := pacificDate day month year hour minute in
          if isNaN (getTime utcDate) then throw (mkError "Could not parse Pacific date.")
          else
            startTimeISO <- lift (toISOString utcDate) ;;
            head <- splitAt "inputData.email" email0 ;;
            let derivedName := orElse head "Valued Candidate" in
            ret {| name := derivedName;
                   email := shown email0;
                   ApyHub.startTimeISO := startTimeISO |}
      | _, _ => throw (mkError "Invalid date or time format.")
      end
  end.

(** Second part of the try block, from the display string on: the stages
    InviteGenerated, EmailSent and Completed. *)
Definition completeBooking (bookingDetails : BookingDetails) (env : Env) : M Locals Response :=
  let pacificTimeZoneDisplay := "America/Los_Angeles" in
  let dateObjectForDisplay := newDateFromString (ApyHub.startTimeISO bookingDetails) in
  displayTimePacific <-
    lift (formatInTimeZone dateObjectForDisplay pacificTimeZoneDisplay
                           "MM/dd/yyyy, hh:mm:ss a zzz") ;;
  icsContent <- generateICS bookingDetails (APY_TOKEN env) ;;
  let emailDetails :=
    {| toEmail := email bookingDetails;
       toName := name bookingDetails;
       SendGrid.startTimeISO := ApyHub.startTimeISO bookingDetails;
       icsContent := icsContent |} in
  sendEmailWithICS emailDetails (SENDGRID_KEY env) ;;
  console LLog ("Successfully processed booking for " ++ email bookingDetails) ;;
  match SLACK_BOOKINGS_URL env with
  | Some (String _ _ as url) =>
      let slackPayload :=
        {| blocks := successMessageBlocks bookingDetails displayTimePacific |} in
      waitUntil
        (sent <- sendSlackMessage (Some url) slackPayload ;;
         if sent : bool then console LLog "Success Slack notification sent."
         else console LError "Failed to send success Slack notification.")
  | _ =>
      console LWarn "SLACK_BOOKINGS_URL not configured. Skipping success notification."
  end ;;
  ret {| status := 200;
         contentType := Some "application/json";
         body := Success "Booking confirmed and email sent." |}.

(** The body of the try block of [handleBookEmail]. *)
Definition tryBlock (request : Request) (env : Env) : M Locals Response :=
  bookingDetails <- resolveBooking request ;;
  completeBooking bookingDetails env.

(** The catch block of [handleBookEmail]. *)
Definition catchBlock (env : Env) (error : Error) : M Locals Response :=
  console LError "Error processing booking:" ;;
  l <- getLocals ;;
  match SLACK_ERRORS_URL env with
  | Some (String _ _ as url) =>
      let slackPayload := {| blocks := failureMessageBlocks l error |} in
      waitUntil
        (sent <- sendSlackMessage (Some url) slackPayload ;;
         if sent : bool then console LLog "Failure Slack notification sent."
         else console LError "Failed to send failure Slack notification.")
  | _ =>
      console LWarn "SLACK_ERRORS_URL not configured. Skipping failure notification."
  end ;;
  ret {| status := 500;
         contentType := Some "application/json";
         body := Failure (orElse (message error)
                                 "Failed to process booking due to an internal error.") |}.

(** --- Handler for /book-email --- *)
Definition handleBookEmail (request : Request) (env : Env) : M Locals Response :=
  console LLog "Handling /book-email request..." ;;
  putLocals initialLocals ;;
  tryCatch (tryBlock request env) (catchBlock env).

(** A call of a function with local variables of its own. *)
Definition call {S S' A} (init : S') (m : M S' A) : M S A :=
  fun w s =>
    match m w init with
    | (t, _, r) => (t, s, r)
    end.

(** The [fetch] entry point of the worker. *)
Definition worker_fetch (request : Request) (env : Env) : M unit Response :=
  if negb (String.eqb (method request) "POST") then
    console LLog ("Method Not Allowed: " ++ method request ++ " for " ++ pathname request) ;;
    ret {| status := 405; contentType := None; body := Text "Method Not Allowed" |}
  else if String.eqb (pathname request) "/book-email" then
    call initialLocals (handleBookEmail request env)
  else
    console LLog ("Path Not Found: " ++ pathname request) ;;
    ret {| status := 404; contentType := None; body := Text "Not Found" |}.

(** One invocation of the handler: the response returned to the caller
    and the events of the run. *)
Definition run (w : World) (request : Request) (env : Env) : list Event * Completion Response :=
  match handleBookEmail request env w initialLocals with
  | (t, _, r) => (t, r)
  end.

End Index.

(* ------------------------------------------------------------------ *)
(** ** What is observed of a run *)

Module Observe.

Import JsString Ecma DateFnsTz Runtime.

(** [if (url)] on an optional string. *)
Definition configured (url : option string) : bool :=
  match url with
  | Some s => truthy s
  | None => false
  end.

Definition isFetch (ev : Event) : bool :=
  match ev with
  | Fetch _ _ _ => true
  | _ => false
  end.

(** A POST of a Slack payload: a notification delivery. *)
Definition isNotification (ev : Event) : bool :=
  match ev with
  | Fetch _ _ (SlackBody _) => true
  | _ => false
  end.

(** A POST of an object body: the request to the invite generator. *)
Definition isInviteRequest (ev : Event) : bool :=
  match ev with
  | Fetch _ _ (ObjectBody _) => true
  | _ => false
  end.

Definition isEmailDispatch (ev : Event) : bool :=
  match ev with
  | SgMailSend _ _ => true
  | _ => false
  end.

Definition isErrorLog (ev : Event) : bool :=
  match ev with
  | Console LError _ => true
  | _ => false
  end.

Definition isDetached (ev : Event) : bool :=
  match ev with
  | WaitUntil _ => true
  | _ => false
  end.

Definition isConsole (ev : Event) : bool :=
  match ev with
  | Console _ _ => true
  | _ => false
  end.

Definition isCall (ev : Event) : bool := isFetch ev || isEmailDispatch ev.

(** The outbound calls of a run in order, those of detached tasks included. *)
Definition calls (t : list Event) : list Event := filter isCall (allEvents t).

(** The events of the response path: everything but the detached tasks. *)
Definition responsePath (t : list Event) : list Event :=
  filter (fun ev => negb (isDetached ev)) t.

(** The POST that [sendSlackMessage] makes. *)
Definition slackPost (url : string) (payload : SlackMessagePayload) : Event :=
  Fetch url [("Content-Type", "application/json")] (SlackBody payload).

(** The answer of the world to that POST. *)
Definition slackAnswer (w : World) (url : string) (payload : SlackMessagePayload)
  : FetchOutcome :=
  fetch w url [("Content-Type", "application/json")] (SlackBody payload).

(** A delivery failed: the transport threw, the status is no success, or
    the body could not be read. *)
Definition deliveryFailed (o : FetchOutcome) : bool :=
  match o with
  | Rejected _ => true
  | Resolved r =>
      negb (ok r) || match text r with Normal _ => false | Throw _ => true end
  end.

(** The answer is a success status with the literal body [ok]. *)
Definition literalOk (o : FetchOutcome) : bool :=
  match o with
  | Rejected _ => false
  | Resolved r =>
      ok r && match text r with Normal body => String.eqb body "ok" | Throw _ => false end
  end.

(** The POST that [generateICS] makes for a request body. *)
Definition invitePost (apiToken : string) (body : list (string * Json)) : Event :=
  Fetch ApyHub.APYHUB_ICAL_URL
        [("Content-Type", "application/json"); ("apy-token", apiToken)]
        (ObjectBody body).

Definition inviteAnswer (w : World) (apiToken : string) (body : list (string * Json))
  : FetchOutcome :=
  fetch w ApyHub.APYHUB_ICAL_URL
        [("Content-Type", "application/json"); ("apy-token", apiToken)]
        (ObjectBody body).

(** Invite generation fails on the answer: the remote service answers with
    a status that is no success. *)
Definition inviteRefused (o : FetchOutcome) : bool :=
  match o with
  | Rejected _ => false
  | Resolved r => negb (ok r)
  end.

(** What [generateICS] makes of the answer to its POST. *)
Definition inviteResult (o : FetchOutcome) : Completion string :=
  match o with
  | Rejected e => Throw e
  | Resolved r =>
      match text r with
      | Throw e => Throw e
      | Normal body =>
          if ok r then Normal body
          else Throw (mkError ("Failed to generate ICS: ApyHub returned status "
                               ++ toDecimal (status r) ++ " - " ++ body))
      end
  end.

(** What [sendEmailWithICS] makes of the outcome of [sgMail.send]. *)
Definition sendResult (o : SendOutcome) : Completion unit :=
  match o with
  | Sent _ => Normal tt
  | SendRejected _ _ => Throw (mkError "Failed to send confirmation email via SendGrid.")
  end.

(** Two worlds that differ at most in how notification deliveries end. *)
Definition sameButNotifications (w1 w2 : World) : Prop :=
  (forall url headers fields,
      fetch w1 url headers (ObjectBody fields) = fetch w2 url headers (ObjectBody fields))
  /\ (forall apiKey msg, sgMail_send w1 apiKey msg = sgMail_send w2 apiKey msg).

(** The notification a destination receives: one POST when it is
    configured, none otherwise. *)
Definition notification (url : option string) (payload : SlackMessagePayload) : list Event :=
  match url with
  | Some u => if truthy u then [slackPost u payload] else []
  | None => []
  end.

(** The two responses of [handleBookEmail]. *)
Definition successResponse : Index.Response :=
  {| Index.status := 200;
     Index.contentType := Some "application/json";
     Index.body := Index.Success "Booking confirmed and email sent." |}.

Definition failureResponse (error : Error) : Index.Response :=
  {| Index.status := 500;
     Index.contentType := Some "application/json";
     Index.body := Index.Failure (Index.orElse (message error)
                      "Failed to process booking due to an internal error.") |}.

(** How far the second part of the try block gets (the states of the
    orchestrator in section 4.5 of the spec, after TimeResolved). *)
Inductive Progress :=
| FailedBeforeInvite (e : Error)
| FailedInvite (body : list (string * Json)) (e : Error)
| FailedBeforeEmail (body : list (string * Json)) (e : Error)
| FailedEmail (body : list (string * Json)) (msg : MailData) (e : Error)
| Completed (body : list (string * Json)) (msg : MailData) (payload : SlackMessagePayload).

(** The calls on the response path, in order. *)
Definition pathCalls (env : Index.Env) (p : Progress) : list Event :=
  match p with
  | FailedBeforeInvite _ => []
  | FailedInvite body _ | FailedBeforeEmail body _ =>
      [invitePost (Index.APY_TOKEN env) body]
  | FailedEmail body msg _ | Completed body msg _ =>
      [invitePost (Index.APY_TOKEN env) body; SgMailSend (Index.SENDGRID_KEY env) msg]
  end.

(** The detached calls of the second part. *)
Definition successNotification (env : Index.Env) (p : Progress) : list Event :=
  match p with
  | Completed _ _ payload => notification (Index.SLACK_BOOKINGS_URL env) payload
  | _ => []
  end.

Definition progressResult (p : Progress) : Completion Index.Response :=
  match p with
  | FailedBeforeInvite e | FailedInvite _ e | FailedBeforeEmail _ e | FailedEmail _ _ e =>
      Throw e
  | Completed _ _ _ => Normal successResponse
  end.

(** The request body [generateICS] builds for a booking: the three strings
    are the start and the start plus 30 minutes, formatted in the zone. *)
Definition inviteBody (details : ApyHub.BookingDetails) (body : list (string * Json)) : Prop :=
  exists start meetingDatePT startTimePT endTimePT,
    newDateFromString (ApyHub.startTimeISO details) = Some start
    /\ formatInTimeZone (Some start) "America/Los_Angeles" "dd-MM-yyyy" = Normal meetingDatePT
    /\ formatInTimeZone (Some start) "America/Los_Angeles" "HH:mm" = Normal startTimePT
    /\ formatInTimeZone (newDate (Some (start + 30 * 60 * 1000)))
                        "America/Los_Angeles" "HH:mm" = Normal endTimePT
    /\ body = ApyHub.requestBody details "America/Los_Angeles"
                                 meetingDatePT startTimePT endTimePT.

(** The progress agrees with the answers of the world. *)
Definition explains (w : World) (env : Index.Env) (details : ApyHub.BookingDetails)
                    (p : Progress) : Prop :=
  match p with
  | FailedBeforeInvite _ => forall body, ~ inviteBody details body
  | FailedInvite body e =>
      inviteBody details body
      /\ inviteResult (inviteAnswer w (Index.APY_TOKEN env) body) = Throw e
  | FailedBeforeEmail body _ =>
      inviteBody details body
      /\ exists ics, inviteResult (inviteAnswer w (Index.APY_TOKEN env) body) = Normal ics
  | FailedEmail body msg e =>
      inviteBody details body
      /\ (exists ics, inviteResult (inviteAnswer w (Index.APY_TOKEN env) body) = Normal ics)
      /\ to_email msg = ApyHub.email details
      /\ sendResult (sgMail_send w (Index.SENDGRID_KEY env) msg) = Throw e
  | Completed body msg _ =>
      inviteBody details body
      /\ (exists ics, inviteResult (inviteAnswer w (Index.APY_TOKEN env) body) = Normal ics)
      /\ to_email msg = ApyHub.email details
      /\ sendResult (sgMail_send w (Index.SENDGRID_KEY env) msg) = Normal tt
  end.

(** The response the handler makes of the result of its try block. *)
Definition response (r : Completion Index.Response) : Index.Response :=
  match r with
  | Normal resp => resp
  | Throw e => failureResponse e
  end.

(** The detached call of the catch block, with the variables [l] as the
    throw left them. *)
Definition failureNotification (env : Index.Env) (l : Index.Locals)
                               (r : Completion Index.Response) : list Event :=
  match r with
  | Normal _ => []
  | Throw e =>
      notification (Index.SLACK_ERRORS_URL env)
                   {| blocks := Index.failureMessageBlocks l e |}
  end.

(** All stages of a run with trace [t] completed: the invite request and
    the mail were both sent on the response path, and both were answered
    with success. *)
Definition allStagesComplete (w : World) (env : Index.Env) (t : list Event) : Prop :=
  exists body msg,
    calls (responsePath t)
      = [invitePost (Index.APY_TOKEN env) body; SgMailSend (Index.SENDGRID_KEY env) msg]
    /\ (exists ics, inviteResult (inviteAnswer w (Index.APY_TOKEN env) body) = Normal ics)
    /\ sendResult (sgMail_send w (Index.SENDGRID_KEY env) msg) = Normal tt.

(** The names of the required properties that are missing (absent or
    falsy) from a body, in the order the handler lists them. *)
Definition missingFields (email interview_date interview_time : Index.JsField) : list string :=
  ((if Index.truthyField email then [] else ["email"])
   ++ (if Index.truthyField interview_date then [] else ["interview_date"])
   ++ (if Index.truthyField interview_time then [] else ["interview_time"]))%list.

(** The first property is as the interface of the input declares it: a
    string when it is there at all (a falsy value counts as absent). *)
Definition emailAsDeclared (email : Index.JsField) : bool :=
  match email with
  | Index.NonString true _ => false
  | _ => true
  end.

(** Two runs that a caller cannot tell apart: the same events on the
    response path, the same variables, the same result. *)
Definition similar {S A : Type} (x y : list Event * S * Completion A) : Prop :=
  responsePath (fst (fst x)) = responsePath (fst (fst y))
  /\ snd (fst x) = snd (fst y)
  /\ snd x = snd y.

(** The string has the character [@]. *)
Definition hasAt (s : string) : bool :=
  existsb (fun c => Ascii.eqb c "@") (list_ascii_of_string s).

(** The JSON string a formatting yields. *)
Definition jsonOf (c : Completion string) : option Json :=
  match c with
  | Normal s => Some (JString s)
  | Throw _ => None
  end.

(** A date of the calendar (months from 1) and a time of the day. *)
Definition validDate (y m d : Z) : bool :=
  (1 <=? m) && (m <=? 12) && (1 <=? d) && (d <=? DaysInMonth (isLeapYear y) (m - 1)).

Definition validTime (h mi : Z) : bool :=
  (0 <=? h) && (h <=? 23) && (0 <=? mi) && (mi <=? 59).

(** The reading is one the wall clock of America/Los_Angeles never shows:
    an hour 02 on the second Sunday of March, when the clock goes from
    01:59 to 03:00. *)
Definition skippedBySpringForward (y m d h : Z) : bool :=
  (MakeDay y (m - 1) d =? firstSundayOnOrAfter (MakeDay y 2 8)) && (h =? 2).

(** The strings of a request for a date and a time: DD-MM-YYYY and HH:MM. *)
Definition dateString (y m d : Z) : string :=
  addLeadingZeros d 2 ++ "-" ++ addLeadingZeros m 2 ++ "-" ++ addLeadingZeros y 4.

Definition timeString (h mi : Z) : string :=
  addLeadingZeros h 2 ++ ":" ++ addLeadingZeros mi 2.

(** Lines 80 to 88 of the handler on strings: the instant a date and a
    time resolve to, [None] when a pattern does not match or the date is
    invalid. *)
Definition resolveInstant (date time : string) : Date :=
  match Index.matchDate date, Index.matchTime time with
  | Some (day, month, year), Some (hour, minute) =>
      Index.pacificDate day month year hour minute
  | _, _ => None
  end.

(** The numbers a date DD-MM-YYYY and a time HH:MM stand for: year, month
    and day, hour and minute; [None] when the pattern does not match. *)
Definition dateFields (date : string) : option (Z * Z * Z) :=
  match Index.matchDate date with
  | Some (day, month, year) => Some (parseDigits year, parseDigits month, parseDigits day)
  | None => None
  end.

Definition timeFields (time : string) : option (Z * Z) :=
  match Index.matchTime time with
  | Some (hour, minute) => Some (parseDigits hour, parseDigits minute)
  | None => None
  end.

(** The string matches HH:MM and names an hour and a minute of the day. *)
Definition denotesRealTime (time : string) : bool :=
  match timeFields time with
  | Some (h, mi) => validTime h mi
  | None => false
  end.

(** The string matches DD-MM-YYYY and names a day of the calendar. *)
Definition denotesRealDate (date : string) : bool :=
  match dateFields date with
  | Some (y, m, d) => validDate y m d
  | None => false
  end.

(** The wall-clock reading of a date and a time as a time value: the
    instant at which a clock set to UTC shows it. *)
Definition reading (y m d h mi : Z) : Z :=
  MakeDate (MakeDay y (m - 1) d) (MakeTime h mi 0 0).

(** At the instant [t] the wall clock of America/Los_Angeles shows the
    date and the time. *)
Definition wallClockShows (t y m d h mi : Z) : Prop :=
  t + pacificOffset t = reading y m d h mi.

(** Under the rule in force since 2007, the reading is one of daylight
    saving time: from 03:00 on the second Sunday of March to 01:59 on the
    first Sunday of November.  (The hour from 01:00 of that Sunday comes
    twice; the first time it is daylight saving time.) *)
Definition daylightTime (y m d h : Z) : bool :=
  let day := MakeDay y (m - 1) d in
  let first := firstSundayOnOrAfter (MakeDay y 2 8) in
  let last := firstSundayOnOrAfter (MakeDay y 10 1) in
  ((first <? day) || ((day =? first) && (3 <=? h)))
  && ((day <? last) || ((day =? last) && (h <? 2))).

(** Value of a key of an object body. *)
Fixpoint field (key : string) (fields : list (string * Json)) : option Json :=
  match fields with
  | [] => None
  | (k, v) :: rest => if String.eqb k key then Some v else field key rest
  end.

End Observe.

(* ------------------------------------------------------------------ *)
(** ** Sample configurations, requests and worlds *)

Module Examples.

Import Runtime Index.

Definition bookingsUrl : string := "https://hooks.slack.com/services/T000/B000/bookings".
Definition errorsUrl : string := "https://hooks.slack.com/services/T000/B000/errors".

Definition env : Env :=
  {| APY_TOKEN := "apy-token"; SENDGRID_KEY := "sendgrid-key"; HMAC_SECRET := "secret";
     SLACK_BOOKINGS_URL := Some bookingsUrl; SLACK_ERRORS_URL := Some errorsUrl |}.

Definition envWithoutSlack : Env :=
  {| APY_TOKEN := "apy-token"; SENDGRID_KEY := "sendgrid-key"; HMAC_SECRET := "secret";
     SLACK_BOOKINGS_URL := None; SLACK_ERRORS_URL := None |}.

Definition booking (address date time : string) : Request :=
  {| method := "POST"; pathname := "/book-email";
     json := Normal (Obj (Str address) (Str date) (Str time)) |}.

(** A request without date and time. *)
Definition incomplete : Request :=
  {| method := "POST"; pathname := "/book-email";
     json := Normal (Obj (Str "a.b@x.com") Undefined Undefined) |}.

Definition answer (status : Z) (body : string) : FetchOutcome :=
  Resolved {| Runtime.status := status; text := Normal body |}.

(** Every service answers with success. *)
Definition allUp : World :=
  {| fetch := fun _ _ body =>
                match body with
                | ObjectBody _ => answer 200 "BEGIN:VCALENDAR"
                | SlackBody _ => answer 200 "ok"
                end;
     sgMail_send := fun _ _ => Sent 202 |}.

(** The same, with a Slack webhook that refuses every message. *)
Definition slackDown : World :=
  {| fetch := fun _ _ body =>
                match body with
                | ObjectBody _ => answer 200 "BEGIN:VCALENDAR"
                | SlackBody _ => answer 500 "invalid_payload"
                end;
     sgMail_send := fun _ _ => Sent 202 |}.

(** The same as [allUp], with a Slack webhook that answers in capitals. *)
Definition slackShouting : World :=
  {| fetch := fun _ _ body =>
                match body with
                | ObjectBody _ => answer 200 "BEGIN:VCALENDAR"
                | SlackBody _ => answer 200 "OK"
                end;
     sgMail_send := fun _ _ => Sent 202 |}.

(** The invite generator answers 500. *)
Definition inviteDown : World :=
  {| fetch := fun _ _ body =>
                match body with
                | ObjectBody _ => answer 500 "Internal Server Error"
                | SlackBody _ => answer 200 "ok"
                end;
     sgMail_send := fun _ _ => Sent 202 |}.

Definition hello : SlackMessagePayload := {| blocks := [Section "hello"] |}.

Definition sampleBooking : ApyHub.BookingDetails :=
  {| ApyHub.name := "a.b"; ApyHub.email := "a.b@x.com";
     ApyHub.startTimeISO := "2025-05-21T21:30:00.000Z" |}.

(** The invite request for a.b@x.com on 21-05-2025 at 14:30, Pacific
    daylight time. *)
Definition sampleInvite : list (string * Json) :=
  ApyHub.requestBody
    {| ApyHub.name := "a.b"; ApyHub.email := "a.b@x.com";
       ApyHub.startTimeISO := "2025-05-21T21:30:00.000Z" |}
    "America/Los_Angeles" "21-05-2025" "14:30" "15:00".

End Examples.

(* ------------------------------------------------------------------ *)
(** ** What the calls of a run carry *)

Module Content.

Import JsString Ecma DateFnsTz Runtime Observe Examples.

(** The message of [sendEmailWithICS] for a recipient and an invite text:
    to the recipient, with the one fixed copy address, from the fixed
    sender, with the invite as its only attachment, in base 64. *)
Definition confirmation (toEmail toName ics : string) (msg : MailData) : Prop :=
  to_email msg = toEmail
  /\ to_name msg = toName
  /\ cc msg = ["lyori6@gmail.com"]
  /\ from_email msg = "hello@debtcat.com"
  /\ subject msg = "Interview Confirmation - Bland AI Support Engineer - " ++ toName
  /\ exists encoded,
       btoa ics = Normal encoded
       /\ attachments msg
          = [ {| content := encoded; filename := "invite.ics";
                 type := "text/calendar; method=REQUEST";
                 disposition := "attachment" |} ].

(** The two bodies of the message, plain text and HTML, for a name, a
    start as displayed and a start as handed over. *)
Definition shows (toName displayTimePacific startTimeISO : string) (msg : MailData) : Prop :=
  text_body msg
    = "Hi " ++ toName ++ "," ++ SendGrid.nl ++ SendGrid.nl
      ++ "Your interview is confirmed for " ++ displayTimePacific ++ "."
      ++ SendGrid.nl ++ SendGrid.nl ++ "Please find the calendar invite attached."
      ++ SendGrid.nl ++ SendGrid.nl ++ "Best regards," ++ SendGrid.nl
      ++ "Bland AI Recruiting" ++ SendGrid.nl ++ SendGrid.nl
      ++ "(Raw UTC Time: " ++ startTimeISO ++ ")"
  /\ html msg
     = "<p>Hi " ++ toName ++ ",</p><p>Your interview is confirmed for <strong>"
       ++ displayTimePacific
       ++ "</strong>.</p><p>Please find the calendar invite attached.</p><p>Best regards,<br/>"
       ++ "Bland AI Recruiting" ++ "</p><p><small>(Raw UTC Time: " ++ startTimeISO
       ++ ")</small></p>".

(** The start of a booking as the handler and the mail display it. *)
Definition displayed (startTimeISO : string) : Completion string :=
  formatInTimeZone (newDateFromString startTimeISO) "America/Los_Angeles"
                   "MM/dd/yyyy, hh:mm:ss a zzz".

(** The mail and the success notification of a progress are those of the
    booking: the mail carries the text the invite generator answered
    with, the notification the booking and its start as displayed. *)
Definition carries (w : World) (env : Index.Env) (details : ApyHub.BookingDetails)
                   (p : Progress) : Prop :=
  match p with
  | FailedEmail body msg _ =>
      exists ics,
        inviteResult (inviteAnswer w (Index.APY_TOKEN env) body) = Normal ics
        /\ confirmation (ApyHub.email details) (ApyHub.name details) ics msg
  | Completed body msg payload =>
      (exists ics,
         inviteResult (inviteAnswer w (Index.APY_TOKEN env) body) = Normal ics
         /\ confirmation (ApyHub.email details) (ApyHub.name details) ics msg)
      /\ exists displayTimePacific,
           displayed (ApyHub.startTimeISO details) = Normal displayTimePacific
           /\ shows (ApyHub.name details) displayTimePacific (ApyHub.startTimeISO details)
                    msg
           /\ payload = {| blocks := Index.successMessageBlocks details displayTimePacific |}
  | _ => True
  end.

(** The blocks of a failure notification, for the two texts it shows. *)
Definition failureBlocks (applicant details : string) : list Block :=
  [ Section "❌ *Interview Booking Failed!*";
    Divider;
    Fields [ "*Applicant Email:* " ++ applicant; "*Error Details:* " ++ details ] ].

(** The mail of the sample booking once the invite generator of [allUp]
    has answered. *)
Definition sampleMail : MailData :=
  {| to_email := "a.b@x.com";
     to_name := "a.b";
     cc := ["lyori6@gmail.com"];
     from_email := "hello@debtcat.com";
     from_name := "Bland AI Recruiting";
     subject := "Interview Confirmation - Bland AI Support Engineer - a.b";
     text_body := "Hi a.b," ++ SendGrid.nl ++ SendGrid.nl
                  ++ "Your interview is confirmed for 05/21/2025, 02:30:00 PM PDT."
                  ++ SendGrid.nl ++ SendGrid.nl
                  ++ "Please find the calendar invite attached."
                  ++ SendGrid.nl ++ SendGrid.nl
                  ++ "Best regards," ++ SendGrid.nl ++ "Bland AI Recruiting"
                  ++ SendGrid.nl ++ SendGrid.nl
                  ++ "(Raw UTC Time: 2025-05-21T21:30:00.000Z)";
     html := "<p>Hi a.b,</p><p>Your interview is confirmed for <strong>05/21/2025, 02:30:00 PM PDT</strong>.</p><p>Please find the calendar invite attached.</p><p>Best regards,<br/>Bland AI Recruiting</p><p><small>(Raw UTC Time: 2025-05-21T21:30:00.000Z)</small></p>";
     attachments :=
       [ {| content := "QkVHSU46VkNBTEVOREFS"; filename := "invite.ics";
            type := "text/calendar; method=REQUEST"; disposition := "attachment" |} ] |}.

(** The invite generator answers with a text that has a character above
    U+00FF. *)
Definition inviteAboveLatin1 : World :=
  {| fetch := fun _ _ body =>
                match body with
                | ObjectBody _ => answer 200 "SUMMARY:Rozmowa z Łukaszem"
                | SlackBody _ => answer 200 "ok"
                end;
     sgMail_send := fun _ _ => Sent 202 |}.

(** The mail service rejects every message. *)
Definition mailDown : World :=
  {| fetch := fun _ _ body =>
                match body with
                | ObjectBody _ => answer 200 "BEGIN:VCALENDAR"
                | SlackBody _ => answer 200 "ok"
                end;
     sgMail_send := fun _ _ => SendRejected (mkError "Unauthorized") (Some "{}") |}.

End Content.

(** Case analysis on the next value a [match] of the goal waits for. *)
Ltac destruct_scrutinee :=
  match goal with
  | |- context [match ?x with _ => _ end] =>
      lazymatch x with
      | context [match _ with _ => _ end] => fail
      | _ => destruct x eqn:?
      end
  end.

(** Unfolding of the combinators of the runtime monad. *)
Ltac run_monad :=
  cbv beta iota delta
    [Runtime.bind Runtime.ret Runtime.throw Runtime.tryCatch Runtime.lift
     Runtime.emit Runtime.console Runtime.getLocals Runtime.putLocals
     Runtime.awaitFetch Runtime.awaitSend Runtime.waitUntil].

(* ------------------------------------------------------------------ *)
(** ** Outbound calls of a trace *)

Section CallFacts.

Import Runtime Observe.

Lemma calls_app (t1 t2 : list Event) : calls (t1 ++ t2) = (calls t1 ++ calls t2)%list.
Proof.
  unfold calls, allEvents. rewrite flat_map_app, filter_app. reflexivity.
Qed.

Lemma calls_console lvl msg (t : list Event) : calls (Console lvl msg :: t) = calls t.
Proof. reflexivity. Qed.

Lemma calls_detached (task t : list Event) :
  calls (WaitUntil task :: t) = (calls task ++ calls t)%list.
Proof.
  unfold calls, allEvents. cbn [flat_map flatten]. rewrite filter_app. reflexivity.
Qed.

Lemma calls_fetch url headers body (t : list Event) :
  calls (Fetch url headers body :: t) = Fetch url headers body :: calls t.
Proof. reflexivity. Qed.

Lemma responsePath_app (t1 t2 : list Event) :
  responsePath (t1 ++ t2) = (responsePath t1 ++ responsePath t2)%list.
Proof. unfold responsePath. apply filter_app. Qed.

Lemma responsePath_id (P : Event -> bool) (t : list Event) :
  (forall ev, P ev = true -> isDetached ev = false) ->
  forallb P t = true -> responsePath t = t.
Proof.
  intros HP. induction t as [| ev t IH]; [reflexivity|].
  cbn [forallb]. intros H. apply andb_prop in H as [H1 H2].
  unfold responsePath. cbn [filter]. rewrite (HP ev H1). cbn [negb].
  f_equal. apply IH, H2.
Qed.

Lemma responsePath_detached (task t : list Event) :
  responsePath (WaitUntil task :: t) = responsePath t.
Proof. reflexivity. Qed.

End CallFacts.

(* ------------------------------------------------------------------ *)
(** ** Notification delivery (src/utils/slack.ts) *)

Section SlackFacts.

Import JsString Runtime Observe Slack.

Context {S : Type}.

(** A delivery to a configured URL: one POST, a result that is never an
    exception. *)
Lemma sendSlackMessage_configured (url : string) payload w (s : S) :
  truthy url = true ->
  exists msg logs b,
    sendSlackMessage (Some url) payload w s
      = (Console LLog msg :: slackPost url payload :: logs, s, Normal b)
    /\ calls logs = [] /\ filter isDetached logs = []
    /\ (b = true <->
        exists r body, slackAnswer w url payload = Resolved r /\ ok r = true
                       /\ text r = Normal body
                       /\ toLowerCase (trim body) = "ok"%string)
    /\ (deliveryFailed (slackAnswer w url payload) = true ->
        b = false /\ existsb isErrorLog logs = true).
Proof.
  intros Hurl. destruct url as [| c rest]; [discriminate|].
  unfold slackAnswer, slackPost, sendSlackMessage. run_monad.
  destruct (fetch w (String c rest) [("Content-Type", "application/json")] (SlackBody payload))
    as [e | r] eqn:Hf.
  - eexists _, _, false. split; [reflexivity|]. cbn. repeat split; try discriminate.
    intros (r & body & H & _). discriminate.
  - destruct (text r) as [body | e] eqn:Ht.
    + destruct (ok r) eqn:Hok; cbn [negb].
      * eexists _, _, _. split; [reflexivity|]. do 2 (split; [reflexivity|]). split.
        -- rewrite String.eqb_eq. split.
           ++ intros H. exists r, body. auto.
           ++ intros (r' & body' & H1 & _ & H3 & H4).
              injection H1 as <-. rewrite Ht in H3. injection H3 as <-. exact H4.
        -- cbn. rewrite Hok, Ht. discriminate.
      * eexists _, _, false. split; [reflexivity|]. cbn. repeat split; try discriminate.
        intros (r' & body' & H1 & H2 & _). injection H1 as <-. congruence.
    + eexists _, _, false. split; [reflexivity|]. cbn. repeat split; try discriminate.
      intros (r' & body' & H1 & _ & H3 & _). injection H1 as <-. congruence.
Qed.

(** Without a URL nothing is sent. *)
Lemma sendSlackMessage_unconfigured (url : option string) payload w (s : S) :
  configured url = false ->
  exists msg,
    sendSlackMessage url payload w s = ([Console LError msg], s, Normal false).
Proof.
  intros H. destruct url as [[| c rest] |]; try discriminate; eexists; reflexivity.
Qed.

End SlackFacts.

(* ------------------------------------------------------------------ *)
(** ** Formatting never fails on an instant *)

Section FormatFacts.

Import JsString Ecma DateFnsTz.

Lemma formatInTimeZone_display (t : Z) :
  exists s, formatInTimeZone (Some t) "America/Los_Angeles" "MM/dd/yyyy, hh:mm:ss a zzz"
            = Normal s.
Proof. eexists. reflexivity. Qed.

Lemma append_empty_r (s : string) : (s ++ EmptyString)%string = s.
Proof. induction s as [| c s IH]; [reflexivity | cbn; now rewrite IH]. Qed.

Lemma formatInTimeZone_pacific (t : Z) (pattern : string) :
  formatInTimeZone (Some t) "America/Los_Angeles" pattern
  = match formatTokens (t + pacificOffset t) (pacificOffset t) (tokenize pattern) with
    | Some s => Normal s
    | None => Throw (mkError "Format string contains an unescaped latin alphabet character")
    end.
Proof. reflexivity. Qed.

(** The date and the time of the wall clock, as [generateICS] formats them. *)
Lemma formatInTimeZone_date (t : Z) :
  formatInTimeZone (Some t) "America/Los_Angeles" "dd-MM-yyyy"
  = Normal (addLeadingZeros (DateFromTime (t + pacificOffset t)) 2 ++ "-"
            ++ addLeadingZeros (MonthFromTime (t + pacificOffset t) + 1) 2 ++ "-"
            ++ addLeadingZeros (let y := YearFromTime (t + pacificOffset t) in
                                if 0 <? y then y else 1 - y) 4).
Proof.
  rewrite formatInTimeZone_pacific.
  change (tokenize "dd-MM-yyyy")
    with [Letters "d" 2; Literal "-"; Letters "M" 2; Literal "-"; Letters "y" 4].
  cbn [formatTokens formatToken]. rewrite append_empty_r. reflexivity.
Qed.

Lemma formatInTimeZone_time (t : Z) :
  formatInTimeZone (Some t) "America/Los_Angeles" "HH:mm"
  = Normal (addLeadingZeros (HourFromTime (t + pacificOffset t)) 2 ++ ":"
            ++ addLeadingZeros (MinFromTime (t + pacificOffset t)) 2).
Proof.
  rewrite formatInTimeZone_pacific.
  change (tokenize "HH:mm") with [Letters "H" 2; Literal ":"; Letters "m" 2].
  cbn [formatTokens formatToken]. rewrite append_empty_r. reflexivity.
Qed.

End FormatFacts.

(* ------------------------------------------------------------------ *)
(** ** Invite generation and email dispatch *)

Section StageFacts.

Import JsString Ecma DateFnsTz Runtime Observe ApyHub SendGrid.

Context {S : Type}.

(** [generateICS] either fails before any call, or makes exactly one POST
    whose body holds the three formatted strings. *)
Lemma generateICS_run (details : BookingDetails) (apiToken : string) w (s : S) :
  exists t r,
    generateICS details apiToken w s = (t, s, r)
    /\ forallb (fun ev => isConsole ev || isInviteRequest ev) t = true
    /\ ((calls t = [] /\ (exists e, r = Throw e) /\ forall body, ~ inviteBody details body)
        \/ exists body,
             inviteBody details body
             /\ calls t = [invitePost apiToken body]
             /\ r = inviteResult (inviteAnswer w apiToken body)).
Proof.
  unfold generateICS, inviteAnswer, invitePost, inviteResult, inviteBody. run_monad.
  destruct (newDateFromString (ApyHub.startTimeISO details)) as [start |] eqn:Hs.
  2:{ change (formatInTimeZone None "America/Los_Angeles" "dd-MM-yyyy")
        with (@Throw string (mkError "Invalid time value")).
      cbv beta iota.
      eexists _, _. split; [reflexivity|]. split; [reflexivity|]. left.
      split; [reflexivity|]. split; [eauto|].
      intros body (start & md & st & et & H & _). discriminate. }
  cbn [getTime plus].
  destruct (formatInTimeZone (Some start) "America/Los_Angeles" "dd-MM-yyyy") as [md | e] eqn:H1.
  2:{ eexists _, _. split; [reflexivity|]. split; [reflexivity|]. left.
      split; [reflexivity|]. split; [eauto|].
      intros body (start' & md & st & et & H & H' & _). injection H as <-. congruence. }
  destruct (formatInTimeZone (Some start) "America/Los_Angeles" "HH:mm") as [st | e] eqn:H2.
  2:{ eexists _, _. split; [reflexivity|]. split; [reflexivity|]. left.
      split; [reflexivity|]. split; [eauto|].
      intros body (start' & md' & st & et & H & _ & H' & _). injection H as <-. congruence. }
  destruct (formatInTimeZone (newDate (Some (start + 30 * 60 * 1000)))
                             "America/Los_Angeles" "HH:mm") as [et | e] eqn:H3.
  2:{ eexists _, _. split; [reflexivity|]. split; [reflexivity|]. left.
      split; [reflexivity|]. split; [eauto|].
      intros body (start' & md' & st' & et & H & _ & _ & H' & _). injection H as <-.
      congruence. }
  destruct (fetch w APYHUB_ICAL_URL
              [("Content-Type", "application/json"); ("apy-token", apiToken)]
              (ObjectBody (requestBody details "America/Los_Angeles" md st et)))
    as [e | r] eqn:Hf;
    [| destruct (ok r) eqn:Hok; cbn [negb]; destruct (text r) as [txt | e] eqn:Ht ];
    (eexists _, _; split; [reflexivity|]; split; [reflexivity|]; right;
     exists (requestBody details "America/Los_Angeles" md st et);
     split; [exists start, md, st, et; repeat split; assumption|];
     split; [reflexivity|]; rewrite Hf; try rewrite Ht; try rewrite Hok; reflexivity).
Qed.

(** [sendEmailWithICS] either fails before any call, or hands exactly one
    message to the mail service. *)
Lemma sendEmailWithICS_run (details : EmailDetails) (apiKey : string) w (s : S) :
  exists t r,
    sendEmailWithICS details apiKey w s = (t, s, r)
    /\ forallb (fun ev => isConsole ev || isEmailDispatch ev) t = true
    /\ ((calls t = [] /\ exists e, r = Throw e)
        \/ exists msg,
             calls t = [SgMailSend apiKey msg]
             /\ r = sendResult (sgMail_send w apiKey msg)
             /\ to_email msg = toEmail details).
Proof.
  unfold sendEmailWithICS, sendResult. run_monad.
  destruct (formatInTimeZone (newDateFromString (SendGrid.startTimeISO details))
                             "America/Los_Angeles" "MM/dd/yyyy, hh:mm:ss a zzz")
    as [disp | e].
  2:{ eexists _, _. split; [reflexivity|]. split; [reflexivity|]. left.
      split; [reflexivity | eauto]. }
  destruct (btoa (icsContent details)) as [enc | e].
  2:{ eexists _, _. split; [reflexivity|]. split; [reflexivity|]. left.
      split; [reflexivity | eauto]. }
  match goal with
  | |- context [sgMail_send w apiKey ?m] =>
      destruct (sgMail_send w apiKey m) as [code | e rb] eqn:Hs;
      (eexists _, _; split; [reflexivity|]; split; [reflexivity|]; right;
       exists m; split; [reflexivity|]; rewrite Hs; split; reflexivity)
  end.
Qed.

End StageFacts.

(* ------------------------------------------------------------------ *)
(** ** The handler (src/index.ts) *)

Section HandlerFacts.

Import JsString Ecma DateFnsTz Runtime Observe ApyHub SendGrid Slack Index.

Lemma console_only_calls (t : list Event) :
  forallb isConsole t = true -> calls t = [] /\ filter isDetached t = [].
Proof.
  induction t as [| ev t IH]; [split; reflexivity|].
  cbn [forallb]. intros H. apply andb_prop in H as [H1 H2].
  destruct ev; try discriminate. destruct (IH H2) as [IH1 IH2].
  split; [rewrite calls_console; exact IH1 | exact IH2].
Qed.

Ltac unfold_resolve :=
  unfold resolveBooking, setInputData, setBookingDataForSlack, splitAt, matchField;
  run_monad.

(** Resolving the booking makes no call and asks the world nothing. *)
Lemma resolveBooking_quiet (request : Request) w (l0 : Locals) :
  exists t l r,
    resolveBooking request w l0 = (t, l, r)
    /\ forallb isConsole t = true
    /\ forall w', resolveBooking request w' l0 = (t, l, r).
Proof.
  unfold_resolve.
  repeat (destruct_scrutinee; cbv beta iota; cbn [negb orb truthyField]);
    (eexists _, _, _; split; [reflexivity|]; split; [reflexivity|]; intros w'; reflexivity).
Qed.

(** A value the handler can read [split] and [match] from. *)
Lemma truthy_orElse (a b : string) : truthy b = true -> truthy (orElse a b) = true.
Proof. unfold orElse. destruct (truthy a) eqn:E; auto. Qed.

(** A booking that resolves comes from an object with three non-empty
    strings; its name and the name kept for the failure notification are
    the part of the address before the first [@], each with its own
    fallback. *)
Lemma resolveBooking_inv (request : Request) w (l0 : Locals) t l bookingDetails :
  resolveBooking request w l0 = (t, l, Normal bookingDetails) ->
  exists address date time day month year hour minute instant,
    json request = Normal (Obj (Str address) (Str date) (Str time))
    /\ truthy address = true
    /\ matchDate date = Some (day, month, year)
    /\ matchTime time = Some (hour, minute)
    /\ pacificDate day month year hour minute = Some instant
    /\ toISOString (Some instant) = Normal (ApyHub.startTimeISO bookingDetails)
    /\ name bookingDetails = orElse (splitHead "@" address) "Valued Candidate"
    /\ email bookingDetails = address
    /\ l = {| inputData := Some (Obj (Str address) (Str date) (Str time));
              bookingDataForSlack :=
                {| slack_name := Some (orElse (splitHead "@" address) "Candidate");
                   slack_email := Some address |} |}.
Proof.
  unfold_resolve. intros H.
  destruct (json request) as [[| | [| address | b sh] [| date | b2 sh2] [| time | b3 sh3]] | e];
    cbn [truthyField negb orb] in H; cbv beta iota in H;
    try discriminate;
    repeat match type of H with
    | context [if ?b then _ else _] => destruct b eqn:?; cbn [negb orb] in H; cbv beta iota in H
    end;
    try discriminate.
  destruct (matchDate date) as [[[day month] year] |] eqn:Hd; try discriminate.
  destruct (matchTime time) as [[hour minute] |] eqn:Ht; try discriminate.
  destruct (pacificDate day month year hour minute) as [instant |] eqn:Hp;
    cbn [getTime isNaN] in H; cbv beta iota in H; try discriminate.
  destruct (toISOString (Some instant)) as [iso | e] eqn:Hi; try discriminate.
  injection H as <- <- <-.
  exists address, date, time, day, month, year, hour, minute, instant.
  repeat split; try assumption; reflexivity.
Qed.

(** A detached delivery: the caller gets nothing back from it. *)
Lemma detached_notification (url : string) payload (yes no : M unit unit) w (l : Locals) :
  truthy url = true ->
  (forall w' s', exists ev, yes w' s' = ([ev], s', Normal tt) /\ isConsole ev = true) ->
  (forall w' s', exists ev, no w' s' = ([ev], s', Normal tt) /\ isConsole ev = true) ->
  exists task,
    waitUntil (bind (sendSlackMessage (Some url) payload)
                    (fun sent : bool => if sent then yes else no)) w l
      = ([WaitUntil task], l, Normal tt)
    /\ calls task = [slackPost url payload].
Proof.
  intros Hu Hy Hn. unfold waitUntil, bind.
  destruct (sendSlackMessage_configured url payload w tt Hu)
    as (msg & logs & b & -> & Hc & _).
  destruct b.
  - destruct (Hy w tt) as (ev & -> & Hev). eexists. split; [reflexivity|].
    unfold slackPost. cbn [app].
    rewrite calls_console, calls_fetch, calls_app, Hc.
    destruct ev; try discriminate. reflexivity.
  - destruct (Hn w tt) as (ev & -> & Hev). eexists. split; [reflexivity|].
    unfold slackPost. cbn [app].
    rewrite calls_console, calls_fetch, calls_app, Hc.
    destruct ev; try discriminate. reflexivity.
Qed.

(** The catch block: the failure response, and the failure notification
    as the only call, detached; the response path is the same whatever
    the world answers. *)
Lemma catchBlock_run (env : Env) (error : Error) (l : Locals) :
  exists path,
    forallb isConsole path = true
    /\ forall w, exists t,
          catchBlock env error w l = (t, l, Normal (failureResponse error))
          /\ calls t = notification (SLACK_ERRORS_URL env)
                                    {| blocks := failureMessageBlocks l error |}
          /\ responsePath t = path.
Proof.
  unfold catchBlock.
  destruct (SLACK_ERRORS_URL env) as [[| c url] |] eqn:Hurl;
    try (eexists; split; [| intros w; eexists; split; [reflexivity|];
                            split; reflexivity]; reflexivity).
  exists [Console LError "Error processing booking:"]. split; [reflexivity|]. intros w.
  destruct (detached_notification (String c url)
              {| blocks := failureMessageBlocks l error |}
              (console LLog "Failure Slack notification sent.")
              (console LError "Failed to send failure Slack notification.") w l)
    as (task & Ht & Hc);
    [reflexivity | intros w' s'; eexists; split; reflexivity
     | intros w' s'; eexists; split; reflexivity |].
  unfold bind at 1 2 3. unfold console at 1, emit, getLocals, ret.
  rewrite Ht.
  eexists. split; [reflexivity|]. split; [| reflexivity].
  cbn [app]. rewrite calls_console, calls_detached, Hc. reflexivity.
Qed.

(** The second part of the try block, by the progress it makes. *)
Lemma completeBooking_run (bookingDetails : BookingDetails) (env : Env) w (l : Locals) :
  exists p t,
    explains w env bookingDetails p
    /\ completeBooking bookingDetails env w l = (t, l, progressResult p)
    /\ calls (responsePath t) = pathCalls env p
    /\ calls t = (pathCalls env p ++ successNotification env p)%list.
Proof.
  unfold completeBooking. unfold bind at 1, lift.
  destruct (formatInTimeZone (newDateFromString (ApyHub.startTimeISO bookingDetails))
              "America/Los_Angeles" "MM/dd/yyyy, hh:mm:ss a zzz") as [disp | e] eqn:Hdisp.
  2:{ exists (FailedBeforeInvite e). eexists. split; [| repeat split].
      intros body (start & md & st & et & Hs & _). rewrite Hs in Hdisp.
      destruct (formatInTimeZone_display start) as [disp Hd]. congruence. }
  unfold bind at 1.
  destruct (generateICS_run bookingDetails (APY_TOKEN env) w l)
    as (t2 & r2 & -> & Hq2 & Hc2).
  assert (Hp2 : responsePath t2 = t2).
  { eapply responsePath_id; [| exact Hq2]. intros [] H; try reflexivity; discriminate. }
  destruct Hc2 as [(Hc2 & [e ->] & Hno) | (body & Hb & Hc2 & ->)].
  { exists (FailedBeforeInvite e). eexists. split; [exact Hno|]. split; [reflexivity|].
    cbn [app]. rewrite Hp2, Hc2. split; reflexivity. }
  destruct (inviteResult (inviteAnswer w (APY_TOKEN env) body)) as [ics | e] eqn:Hi.
  2:{ exists (FailedInvite body e). eexists. split; [split; assumption|].
      split; [reflexivity|]. cbn [app]. rewrite Hp2, Hc2. split; reflexivity. }
  unfold bind at 1.
  destruct (sendEmailWithICS_run
              {| toEmail := email bookingDetails; toName := name bookingDetails;
                 SendGrid.startTimeISO := ApyHub.startTimeISO bookingDetails;
                 icsContent := ics |} (SENDGRID_KEY env) w l)
    as (t3 & r3 & -> & Hq3 & Hc3).
  assert (Hp3 : responsePath t3 = t3).
  { eapply responsePath_id; [| exact Hq3]. intros [] H; try reflexivity; discriminate. }
  destruct Hc3 as [[Hc3 [e ->]] | (msg & Hc3 & -> & Hto)]; [| cbn [toEmail] in Hto].
  { exists (FailedBeforeEmail body e). eexists. split; [split; eauto|].
    split; [reflexivity|]. cbn [pathCalls successNotification app].
    rewrite responsePath_app, !calls_app, Hp2, Hp3, Hc2, Hc3. split; reflexivity. }
  destruct (sendResult (sgMail_send w (SENDGRID_KEY env) msg)) as [[] | e] eqn:Hs.
  2:{ exists (FailedEmail body msg e). eexists. split; [repeat split; eauto|].
      split; [reflexivity|]. cbn [pathCalls successNotification app].
      rewrite responsePath_app, !calls_app, Hp2, Hp3, Hc2, Hc3. split; reflexivity. }
  exists (Completed body msg {| blocks := successMessageBlocks bookingDetails disp |}).
  unfold bind at 1. unfold console at 1, emit.
  destruct (SLACK_BOOKINGS_URL env) as [[| c url] |] eqn:Hurl;
    try (eexists; split; [repeat split; eauto|]; split; [reflexivity|];
         cbn [pathCalls successNotification app]; rewrite Hurl;
         cbn [notification truthy];
         rewrite !responsePath_app, !calls_app, Hp2, Hp3, Hc2, Hc3; split; reflexivity).
  destruct (detached_notification (String c url)
              {| blocks := successMessageBlocks bookingDetails disp |}
              (console LLog "Success Slack notification sent.")
              (console LError "Failed to send success Slack notification.") w l)
    as (task & Ht & Hc);
    [reflexivity | intros w' s'; eexists; split; reflexivity
     | intros w' s'; eexists; split; reflexivity |].
  unfold bind at 1. rewrite Ht. unfold ret.
  eexists. split; [repeat split; eauto|]. split; [reflexivity|].
  cbn [pathCalls successNotification app]. rewrite Hurl. cbn [notification truthy].
  rewrite !responsePath_app, !calls_app, Hp2, Hp3, Hc2, Hc3.
  cbn [app]. rewrite calls_console, calls_detached, Hc. split; reflexivity.
Qed.

(** The handler around its try block. *)
Lemma handle_run (request : Request) (env : Env) w tryTrace l r :
  tryBlock request env w initialLocals = (tryTrace, l, r) ->
  exists t,
    run w request env = (t, Normal (response r))
    /\ calls (responsePath t) = calls (responsePath tryTrace)
    /\ calls t = (calls tryTrace ++ failureNotification env l r)%list.
Proof.
  intros Htry. unfold run, handleBookEmail.
  unfold bind at 1 2, console, emit, putLocals, tryCatch. rewrite Htry.
  destruct r as [resp | e].
  - eexists. split; [reflexivity|]. cbn [app failureNotification].
    rewrite app_nil_r. split; reflexivity.
  - destruct (catchBlock_run env e l) as (path & Hpath & K).
    destruct (K w) as (t' & -> & Hc & Hp).
    eexists. split; [reflexivity|]. cbn [app failureNotification].
    rewrite calls_console, calls_app, Hc. split; [| reflexivity].
    change (responsePath (Console LLog "Handling /book-email request..."
                          :: (tryTrace ++ t')%list))
      with (Console LLog "Handling /book-email request..."
            :: responsePath (tryTrace ++ t')%list).
    rewrite calls_console, responsePath_app, calls_app, Hp.
    destruct (console_only_calls path Hpath) as [-> _]. apply app_nil_r.
Qed.

(** One invocation, by the stage it reaches. *)
Lemma run_outcome (request : Request) (env : Env) w :
  exists t1 l1 r1,
    resolveBooking request w initialLocals = (t1, l1, r1)
    /\ forallb isConsole t1 = true
    /\ match r1 with
       | Throw e =>
           exists t,
             run w request env = (t, Normal (failureResponse e))
             /\ calls (responsePath t) = []
             /\ calls t = failureNotification env l1 (Throw e)
       | Normal bookingDetails =>
           exists p t,
             explains w env bookingDetails p
             /\ run w request env = (t, Normal (response (progressResult p)))
             /\ calls (responsePath t) = pathCalls env p
             /\ calls t = (pathCalls env p ++ successNotification env p
                           ++ failureNotification env l1 (progressResult p))%list
       end.
Proof.
  destruct (resolveBooking_quiet request w initialLocals) as (t1 & l1 & r1 & HR & Hq & _).
  exists t1, l1, r1. split; [exact HR|]. split; [exact Hq|].
  destruct (console_only_calls t1 Hq) as [Hc1 Hd1].
  assert (Hp1 : responsePath t1 = t1).
  { eapply responsePath_id; [| exact Hq]. intros [] H; try reflexivity; discriminate. }
  destruct r1 as [bookingDetails | e].
  - destruct (completeBooking_run bookingDetails env w l1) as (p & t2 & Hex & HC & Hp2 & Hc2).
    assert (Htry : tryBlock request env w initialLocals
                   = ((t1 ++ t2)%list, l1, progressResult p)).
    { unfold tryBlock, bind. rewrite HR, HC. reflexivity. }
    destruct (handle_run request env w _ _ _ Htry) as (t & Hrun & Hpath & Hcalls).
    exists p, t. split; [exact Hex|]. split; [exact Hrun|]. split.
    + rewrite Hpath, responsePath_app, calls_app, Hp1, Hc1, Hp2. reflexivity.
    + rewrite Hcalls, calls_app, Hc1, Hc2. cbn [app]. apply eq_sym, app_assoc.
  - assert (Htry : tryBlock request env w initialLocals = (t1, l1, Throw e)).
    { unfold tryBlock, bind. rewrite HR. reflexivity. }
    destruct (handle_run request env w _ _ _ Htry) as (t & Hrun & Hpath & Hcalls).
    exists t. split; [exact Hrun|]. split.
    + rewrite Hpath, Hp1. exact Hc1.
    + rewrite Hcalls, Hc1. reflexivity.
Qed.

End HandlerFacts.

(* ------------------------------------------------------------------ *)
(** ** Claims about notification delivery *)

Section NotificationClaims.

Import JsString Runtime Observe Slack Examples.

(** C6.  A notification is best effort.  When the destination URL is not
    configured, [sendSlackMessage] sends nothing and reports [false]; when
    it is configured and the delivery fails (the transport throws, the
    webhook answers with a status that is no success, or the body cannot
    be read), the failure is logged with [console.error] and reported as
    [false].  In both cases the function returns: nothing is thrown to
    the caller. *)
Theorem notification_is_best_effort
    (S : Type) (webhookUrl : option string) (payload : SlackMessagePayload)
    (w : World) (s : S) :
  configured webhookUrl = false
  \/ (exists url, webhookUrl = Some url /\ truthy url = true
                  /\ deliveryFailed (slackAnswer w url payload) = true) ->
  exists t,
    sendSlackMessage webhookUrl payload w s = (t, s, Normal false)
    /\ existsb isErrorLog t = true
    /\ calls t = notification webhookUrl payload.
Proof.
  intros [Hun | (url & -> & Hurl & Hfail)].
  - destruct (sendSlackMessage_unconfigured webhookUrl payload w s Hun) as [msg ->].
    eexists. split; [reflexivity|]. split; [reflexivity|].
    destruct webhookUrl as [[| c u] |]; try discriminate; reflexivity.
  - destruct (sendSlackMessage_configured url payload w s Hurl)
      as (msg & logs & b & -> & Hc & _ & _ & Hf).
    destruct (Hf Hfail) as [-> Hlog].
    eexists. split; [reflexivity|]. split.
    + cbn [existsb isErrorLog orb]. exact Hlog.
    + rewrite calls_console. unfold slackPost. rewrite calls_fetch, Hc.
      cbn [notification]. rewrite Hurl. reflexivity.
Qed.

Lemma notification_is_best_effort_witness :
  exists t,
    sendSlackMessage (Some errorsUrl) hello slackDown tt = (t, tt, Normal false)
    /\ existsb isErrorLog t = true
    /\ calls t = notification (Some errorsUrl) hello.
Proof.
  apply (notification_is_best_effort unit (Some errorsUrl) hello slackDown tt).
  right. exists errorsUrl. split; [reflexivity|]. split; reflexivity.
Defined.

(** C7, as stated, fails: a webhook that answers 200 with the body [OK] in
    capitals is reported as delivered, although the body is not the
    literal string [ok]. *)
Lemma delivered_without_literal_ok :
  snd (sendSlackMessage (Some bookingsUrl) hello slackShouting tt) = Normal true
  /\ literalOk (slackAnswer slackShouting bookingsUrl hello) = false.
Proof. split; vm_compute; reflexivity. Qed.

(** C7, amended.  For a configured URL, [sendSlackMessage] reports [true]
    if and only if the webhook answers with a success status and a body
    that, with surrounding white space removed and in lower case, is
    [ok]. *)
Theorem delivered_iff_ok_after_trim_and_lowercase
    (S : Type) (url : string) (payload : SlackMessagePayload) (w : World) (s : S) :
  truthy url = true ->
  snd (sendSlackMessage (Some url) payload w s) = Normal true
  <-> exists r body,
        slackAnswer w url payload = Resolved r /\ ok r = true
        /\ text r = Normal body /\ toLowerCase (trim body) = "ok"%string.
Proof.
  intros Hurl.
  destruct (sendSlackMessage_configured url payload w s Hurl)
    as (msg & logs & b & -> & _ & _ & Hb & _).
  cbn [snd]. rewrite <- Hb. split; [intros H; injection H; auto | intros ->; reflexivity].
Qed.

Lemma delivered_iff_ok_after_trim_and_lowercase_witness :
  snd (sendSlackMessage (Some bookingsUrl) hello slackShouting tt) = Normal true
  <-> exists r body,
        slackAnswer slackShouting bookingsUrl hello = Resolved r /\ ok r = true
        /\ text r = Normal body /\ toLowerCase (trim body) = "ok"%string.
Proof.
  apply (delivered_iff_ok_after_trim_and_lowercase unit bookingsUrl hello slackShouting tt).
  reflexivity.
Defined.

End NotificationClaims.

(* ------------------------------------------------------------------ *)
(** ** Claims about the /book-email handler *)

Section HandlerClaims.

Import JsString Ecma DateFnsTz Runtime Observe ApyHub SendGrid Slack Index Examples.

(** C2, as stated, fails: a request without date and time, a validation
    error, is answered with status 500, not with a status of the 400
    class. *)
Lemma validation_error_is_answered_500 :
  exists t error,
    run allUp incomplete env = (t, Normal (failureResponse error))
    /\ message error = "Missing required fields: interview_date, interview_time"
    /\ status (failureResponse error) = 500
    /\ ~ (400 <= status (failureResponse error) <= 499).
Proof.
  eexists _, (mkError "Missing required fields: interview_date, interview_time").
  split; [vm_compute; reflexivity|].
  split; [reflexivity|]. split; [reflexivity|]. cbn. lia.
Qed.

(** C2, amended.  The handler always returns a response.  It is
    [200 { success: true, message }] exactly when all stages complete (the
    invite request and the mail were sent and both answered with success);
    otherwise it is [500 { success: false, error }], whatever the stage
    that failed: validation and time resolution are answered with 500
    like the downstream failures. *)
Theorem response_by_outcome (w : World) (request : Request) (env : Env) :
  exists t,
    (allStagesComplete w env t /\ run w request env = (t, Normal successResponse))
    \/ (~ allStagesComplete w env t
        /\ exists error, run w request env = (t, Normal (failureResponse error))).
Proof.
  destruct (run_outcome request env w) as (t1 & l1 & r1 & HR & Hq & H).
  destruct r1 as [bookingDetails | e].
  - destruct H as (p & t & Hex & Hrun & Hpath & Hcalls). exists t.
    destruct p as [e | body e | body e | body msg e | body msg payload];
      cbn [progressResult response pathCalls] in *;
      try (right; split; [| exists e; exact Hrun];
           intros (body' & msg' & Hc & Hi & Hs); rewrite Hpath in Hc; try discriminate).
    + injection Hc as <- <-. destruct Hex as (_ & _ & _ & Hsend). congruence.
    + left. split; [| exact Hrun]. exists body, msg.
      destruct Hex as (_ & Hi & _ & Hs). auto.
  - destruct H as (t & Hrun & Hpath & _). exists t. right. split; [| exists e; exact Hrun].
    intros (body & msg & Hc & _). rewrite Hpath in Hc. discriminate.
Qed.

(** A body that lacks a required property stops at validation. *)
Lemma resolveBooking_missing (method pathname : string) (email date time : JsField) w :
  emailAsDeclared email = true ->
  missingFields email date time <> [] ->
  exists t l,
    resolveBooking {| method := method; pathname := pathname;
                      json := Normal (Obj email date time) |} w initialLocals
    = (t, l, Throw (mkError ("Missing required fields: "
                             ++ String.concat ", " (missingFields email date time)))).
Proof.
  intros Hdecl Hmiss. unfold resolveBooking, setInputData, setBookingDataForSlack, splitAt.
  run_monad. cbn [json]. unfold missingFields in *.
  destruct email as [| address | [] sh]; try discriminate;
    destruct date as [| d | [] sh2]; destruct time as [| tm | [] sh3];
    cbn [truthyField negb orb filter map fst snd app] in *;
    repeat match goal with
    | |- context [truthy ?x] => destruct (truthy x) eqn:?;
                                cbn [negb orb filter map fst snd app] in *
    end;
    try (exfalso; apply Hmiss; reflexivity);
    eexists _, _; reflexivity.
Qed.

(** C3, as stated, fails: with an errors destination configured, a request
    without date and time makes an outbound call, the failure
    notification. *)
Lemma missing_fields_are_notified :
  exists t payload,
    fst (run allUp incomplete env) = t
    /\ calls t = [slackPost errorsUrl payload]
    /\ filter isNotification (calls t) <> [].
Proof.
  eexists _, _. split; [reflexivity|]. split; [vm_compute; reflexivity|].
  vm_compute. discriminate.
Qed.

(** C3, amended.  For every request whose body is an object that lacks
    any of [email], [interview_date], [interview_time] (absent or falsy,
    the address a string if it is there), the handler fails with the
    error [Missing required fields:] followed by exactly the missing
    names, and answers it with the failure response.  No invite request
    and no mail is sent: the response path makes no call at all.  The only
    outbound call is the failure notification, detached, sent when the
    errors destination is configured and not otherwise. *)
Theorem missing_fields_stop_the_pipeline
    (w : World) (env : Env) (method pathname : string) (email date time : JsField) :
  emailAsDeclared email = true ->
  missingFields email date time <> [] ->
  exists t payload,
    run w {| method := method; pathname := pathname;
             json := Normal (Obj email date time) |} env
    = (t, Normal (failureResponse
                    (mkError ("Missing required fields: "
                              ++ String.concat ", " (missingFields email date time)))))
    /\ calls (responsePath t) = []
    /\ calls t = notification (SLACK_ERRORS_URL env) payload.
Proof.
  intros Hdecl Hmiss.
  destruct (resolveBooking_missing method pathname email date time w Hdecl Hmiss)
    as (t0 & l0 & HR0).
  destruct (run_outcome {| method := method; pathname := pathname;
                           json := Normal (Obj email date time) |} env w)
    as (t1 & l1 & r1 & HR & _ & H).
  rewrite HR0 in HR. injection HR as <- <- <-.
  destruct H as (t & Hrun & Hpath & Hcalls).
  exists t. eexists. split; [exact Hrun|]. split; [exact Hpath|]. exact Hcalls.
Qed.

Lemma missing_fields_stop_the_pipeline_witness :
  exists t payload,
    run allUp {| method := "POST"; pathname := "/book-email";
                 json := Normal (Obj (Str "a.b@x.com") Undefined (Str EmptyString)) |} env
    = (t, Normal (failureResponse
                    (mkError ("Missing required fields: "
                              ++ String.concat ", "
                                   (missingFields (Str "a.b@x.com") Undefined (Str EmptyString))))))
    /\ calls (responsePath t) = []
    /\ calls t = notification (SLACK_ERRORS_URL env) payload.
Proof.
  apply (missing_fields_stop_the_pipeline allUp env "POST" "/book-email"
           (Str "a.b@x.com") Undefined (Str EmptyString)).
  - reflexivity.
  - vm_compute. discriminate.
Defined.

Lemma notification_cases (url : option string) (payload : SlackMessagePayload) :
  notification url payload = []
  \/ exists u, url = Some u /\ truthy u = true
                /\ notification url payload = [slackPost u payload].
Proof.
  destruct url as [[| c u] |]; [left | right | left]; try reflexivity.
  eexists. repeat split.
Qed.

Lemma failureNotification_cases (env : Env) (l : Locals) (r : Completion Response) :
  failureNotification env l r = []
  \/ exists u payload, failureNotification env l r = [slackPost u payload].
Proof.
  destruct r as [resp | e]; [left; reflexivity|]. cbn [failureNotification].
  destruct (notification_cases (SLACK_ERRORS_URL env)
              {| blocks := failureMessageBlocks l e |}) as [-> | (u & _ & _ & ->)];
    [left | right; eexists _, _]; reflexivity.
Qed.

Lemma inviteRefused_throws (o : FetchOutcome) :
  inviteRefused o = true -> exists e, inviteResult o = Throw e.
Proof.
  destruct o as [e | r]; [discriminate|]. cbn [inviteRefused inviteResult].
  intros H. apply negb_true_iff in H. rewrite H. destruct (text r); eauto.
Qed.

(** C5, as stated, fails: when no errors destination is configured, a
    failed invite generation is followed by no notification attempt at
    all. *)
Lemma invite_failure_without_destination :
  exists t body,
    fst (run inviteDown (booking "a.b@x.com" "21-05-2025" "14:30") envWithoutSlack) = t
    /\ calls t = [invitePost (APY_TOKEN envWithoutSlack) body]
    /\ inviteRefused (inviteAnswer inviteDown (APY_TOKEN envWithoutSlack) body) = true
    /\ List.length (filter isNotification (calls t)) <> 1%nat.
Proof.
  eexists _, _. split; [reflexivity|]. split; [vm_compute; reflexivity|].
  split; [reflexivity|]. vm_compute. discriminate.
Qed.

(** C5, amended.  For every invocation in which the invite request is
    made and the remote service answers it with a status that is no
    success, no mail is dispatched, the response is the failure response
    (status 500, [success: false]), and the failure notification is
    attempted exactly once when the errors destination is configured; when
    it is not configured, no notification is attempted. *)
Theorem invite_failure_short_circuits
    (w : World) (request : Request) (env : Env) (t : list Event)
    (resp : Completion Response) (body : list (string * Json)) :
  run w request env = (t, resp) ->
  In (invitePost (APY_TOKEN env) body) (calls t) ->
  inviteRefused (inviteAnswer w (APY_TOKEN env) body) = true ->
  filter isEmailDispatch (calls t) = []
  /\ exists error l,
       resp = Normal (failureResponse error)
       /\ calls t = (invitePost (APY_TOKEN env) body
                     :: notification (SLACK_ERRORS_URL env)
                                     {| blocks := failureMessageBlocks l error |})
       /\ List.length (filter isNotification (calls t))
          = if configured (SLACK_ERRORS_URL env) then 1%nat else 0%nat.
Proof.
  intros Hrun Hin Hrefused.
  destruct (inviteRefused_throws _ Hrefused) as [e0 He0].
  destruct (run_outcome request env w) as (t1 & l1 & r1 & HR & _ & H).
  destruct r1 as [bookingDetails | e].
  - destruct H as (p & t' & Hex & Hrun' & _ & Hcalls).
    rewrite Hrun in Hrun'. injection Hrun' as <- ->.
    rewrite Hcalls in Hin |- *.
    assert (Hbody : forall body' rest,
               In (invitePost (APY_TOKEN env) body)
                  (invitePost (APY_TOKEN env) body'
                   :: (rest ++ successNotification env p
                       ++ failureNotification env l1 (progressResult p))%list) ->
               (forall ev, In ev rest -> isEmailDispatch ev = true) ->
               body' = body).
    { intros body' rest [Heq | Hin'] Hrest; [injection Heq; auto|]. exfalso.
      apply in_app_or in Hin' as [Hin' | Hin'];
        [apply Hrest in Hin'; discriminate|].
      apply in_app_or in Hin' as [Hin' | Hin'].
      - destruct p; cbn [successNotification] in Hin'; try contradiction.
        destruct (notification_cases (SLACK_BOOKINGS_URL env) payload)
          as [E | (u & _ & _ & E)]; rewrite E in Hin'; [contradiction|].
        destruct Hin' as [Hin' | []]. discriminate.
      - destruct (failureNotification_cases env l1 (progressResult p))
          as [E | (u & payload & E)]; rewrite E in Hin'; [contradiction|].
        destruct Hin' as [Hin' | []]. discriminate. }
    destruct p as [e | body' e | body' e | body' msg e | body' msg payload];
      cbn [pathCalls progressResult response] in *.
    + exfalso. cbn [app successNotification] in Hin.
      destruct (failureNotification_cases env l1 (Throw e))
        as [E | (u & payload & E)]; rewrite E in Hin; [contradiction|].
      destruct Hin as [Hin | []]. discriminate.
    + assert (body' = body) as ->
        by (apply (Hbody body' []); [exact Hin | intros ev []]).
      cbn [app successNotification failureNotification].
      destruct (notification_cases (SLACK_ERRORS_URL env)
                  {| blocks := failureMessageBlocks l1 e |})
        as [E | (u & Hu & Hut & E)]; rewrite E; (split; [reflexivity|]);
        exists e, l1; rewrite E; (split; [reflexivity|]); (split; [reflexivity|]).
      * destruct (SLACK_ERRORS_URL env) as [[| c u] |]; try discriminate; reflexivity.
      * rewrite Hu. cbn [configured]. rewrite Hut. reflexivity.
    + exfalso.
      assert (body' = body) as ->
        by (apply (Hbody body' []); [exact Hin | intros ev []]).
      destruct Hex as (_ & [ics Hi]). congruence.
    + exfalso.
      assert (body' = body) as ->.
      { apply (Hbody body' [SgMailSend (SENDGRID_KEY env) msg]); [exact Hin|].
        intros ev [<- | []]. reflexivity. }
      destruct Hex as (_ & [ics Hi] & _). congruence.
    + exfalso.
      assert (body' = body) as ->.
      { apply (Hbody body' [SgMailSend (SENDGRID_KEY env) msg]); [exact Hin|].
        intros ev [<- | []]. reflexivity. }
      destruct Hex as (_ & [ics Hi] & _). congruence.
  - exfalso. destruct H as (t' & Hrun' & _ & Hcalls).
    rewrite Hrun in Hrun'. injection Hrun' as <- ->. rewrite Hcalls in Hin.
    destruct (failureNotification_cases env l1 (Throw e))
      as [E | (u & payload & E)]; rewrite E in Hin; [contradiction|].
    destruct Hin as [Hin | []]. discriminate.
Qed.

Lemma invite_failure_short_circuits_witness :
  let r := run inviteDown (booking "a.b@x.com" "21-05-2025" "14:30") env in
  filter isEmailDispatch (calls (fst r)) = []
  /\ exists error l,
       snd r = Normal (failureResponse error)
       /\ calls (fst r) = (invitePost (APY_TOKEN env) sampleInvite
                           :: notification (SLACK_ERRORS_URL env)
                                           {| blocks := failureMessageBlocks l error |})
       /\ List.length (filter isNotification (calls (fst r)))
          = if configured (SLACK_ERRORS_URL env) then 1%nat else 0%nat.
Proof.
  intros r.
  apply (invite_failure_short_circuits inviteDown
           (booking "a.b@x.com" "21-05-2025" "14:30") env (fst r) (snd r) sampleInvite).
  - apply surjective_pairing.
  - vm_compute. left. reflexivity.
  - vm_compute. reflexivity.
Defined.

(** The stages ask the world for nothing but the answers to the invite
    request and to the mail. *)
Lemma generateICS_world (S : Type) (details : BookingDetails) (apiToken : string)
    (w w' : World) (s : S) :
  sameButNotifications w w' ->
  generateICS details apiToken w s = generateICS details apiToken w' s.
Proof.
  intros [Hf _]. unfold generateICS. run_monad.
  repeat (destruct_scrutinee; try reflexivity); rewrite Hf in *; congruence.
Qed.

Lemma sendEmailWithICS_world (S : Type) (details : EmailDetails) (apiKey : string)
    (w w' : World) (s : S) :
  sameButNotifications w w' ->
  sendEmailWithICS details apiKey w s = sendEmailWithICS details apiKey w' s.
Proof.
  intros [_ Hs]. unfold sendEmailWithICS. run_monad.
  repeat (destruct_scrutinee; try reflexivity); rewrite Hs in *; congruence.
Qed.

Section Similar.

Context {S : Type}.

Lemma similar_refl {A} (x : list Event * S * Completion A) : similar x x.
Proof. repeat split. Qed.

Lemma similar_eq {A} (x y : list Event * S * Completion A) : x = y -> similar x y.
Proof. intros ->. apply similar_refl. Qed.

Lemma similar_bind {A B} (m : M S A) (f : A -> M S B) (w w' : World) (s : S) :
  similar (m w s) (m w' s) ->
  (forall a s1, similar (f a w s1) (f a w' s1)) ->
  similar (bind m f w s) (bind m f w' s).
Proof.
  unfold similar, bind. intros (Ht & Hs & Hr) Hf.
  destruct (m w s) as [[t1 s1] r1], (m w' s) as [[t1' s1'] r1'].
  cbn [fst snd] in *. subst s1' r1'. destruct r1 as [a | e]; [| repeat split; assumption].
  specialize (Hf a s1). destruct (f a w s1) as [[t2 s2] r2], (f a w' s1) as [[t2' s2'] r2'].
  cbn [fst snd] in *. destruct Hf as (Ht2 & -> & ->).
  rewrite !responsePath_app, Ht, Ht2. repeat split.
Qed.

Lemma similar_tryCatch {A} (m : M S A) (h : Error -> M S A) (w w' : World) (s : S) :
  similar (m w s) (m w' s) ->
  (forall e s1, similar (h e w s1) (h e w' s1)) ->
  similar (tryCatch m h w s) (tryCatch m h w' s).
Proof.
  unfold similar, tryCatch. intros (Ht & Hs & Hr) Hh.
  destruct (m w s) as [[t1 s1] r1], (m w' s) as [[t1' s1'] r1'].
  cbn [fst snd] in *. subst s1' r1'. destruct r1 as [a | e]; [repeat split; assumption|].
  specialize (Hh e s1). destruct (h e w s1) as [[t2 s2] r2], (h e w' s1) as [[t2' s2'] r2'].
  cbn [fst snd] in *. destruct Hh as (Ht2 & -> & ->).
  rewrite !responsePath_app, Ht, Ht2. repeat split.
Qed.

(** A detached task leaves nothing on the response path. *)
Lemma similar_waitUntil {A} (task : M unit A) (w w' : World) (s : S) :
  similar (waitUntil task w s) (waitUntil task w' s).
Proof.
  unfold similar, waitUntil.
  destruct (task w tt) as [[t u] r], (task w' tt) as [[t' u'] r']. repeat split.
Qed.

End Similar.

Lemma completeBooking_world (bookingDetails : BookingDetails) (env : Env)
    (w w' : World) (l : Locals) :
  sameButNotifications w w' ->
  similar (completeBooking bookingDetails env w l) (completeBooking bookingDetails env w' l).
Proof.
  intros Hw. unfold completeBooking.
  apply similar_bind; [apply similar_refl|]. intros disp s1.
  apply similar_bind; [apply similar_eq, generateICS_world, Hw|]. intros ics s2.
  apply similar_bind; [apply similar_eq, sendEmailWithICS_world, Hw|]. intros [] s3.
  apply similar_bind; [apply similar_refl|]. intros [] s4.
  apply similar_bind; [| intros; apply similar_refl].
  destruct (SLACK_BOOKINGS_URL env) as [[| c url] |];
    [apply similar_refl | apply similar_waitUntil | apply similar_refl].
Qed.

Lemma catchBlock_world (env : Env) (error : Error) (w w' : World) (l : Locals) :
  similar (catchBlock env error w l) (catchBlock env error w' l).
Proof.
  unfold catchBlock.
  apply similar_bind; [apply similar_refl|]. intros [] s1.
  apply similar_bind; [apply similar_refl|]. intros l1 s2.
  apply similar_bind; [| intros; apply similar_refl].
  destruct (SLACK_ERRORS_URL env) as [[| c url] |];
    [apply similar_refl | apply similar_waitUntil | apply similar_refl].
Qed.

Lemma handleBookEmail_world (request : Request) (env : Env) (w w' : World) (l : Locals) :
  sameButNotifications w w' ->
  similar (handleBookEmail request env w l) (handleBookEmail request env w' l).
Proof.
  intros Hw. unfold handleBookEmail.
  apply similar_bind; [apply similar_refl|]. intros [] s1.
  apply similar_bind; [apply similar_refl|]. intros [] s2.
  apply similar_tryCatch; [| intros; apply catchBlock_world].
  unfold tryBlock. apply similar_bind.
  - apply similar_eq.
    destruct (resolveBooking_quiet request w s2) as (t1 & l1 & r1 & HR & _ & K).
    rewrite HR, (K w'). reflexivity.
  - intros bookingDetails s3. apply completeBooking_world, Hw.
Qed.

(** C8.  The response does not depend on how the notification ends.  Two
    runs of the same request in worlds that differ at most in the answers
    to notification deliveries return the same response (status and body)
    and make the same events on the response path; no notification
    delivery is on the response path: it is part of a task handed to
    [ctx.waitUntil], which the handler does not await. *)
Theorem response_ignores_notification
    (w1 w2 : World) (request : Request) (env : Env) :
  sameButNotifications w1 w2 ->
  snd (run w1 request env) = snd (run w2 request env)
  /\ responsePath (fst (run w1 request env)) = responsePath (fst (run w2 request env))
  /\ filter isNotification (calls (responsePath (fst (run w1 request env)))) = [].
Proof.
  intros Hw. split; [| split].
  3:{ destruct (run_outcome request env w1) as (t1 & l1 & r1 & _ & _ & H).
      destruct r1 as [bookingDetails | e].
      - destruct H as (p & t & _ & Hrun & Hpath & _). rewrite Hrun. cbn [fst].
        rewrite Hpath. destruct p; reflexivity.
      - destruct H as (t & Hrun & Hpath & _). rewrite Hrun. cbn [fst].
        rewrite Hpath. reflexivity. }
  all: destruct (handleBookEmail_world request env w1 w2 initialLocals Hw) as (Ht & _ & Hr);
    unfold run;
    destruct (handleBookEmail request env w1 initialLocals) as [[ta la] ra],
             (handleBookEmail request env w2 initialLocals) as [[tb lb] rb];
    assumption.
Qed.

Lemma response_ignores_notification_witness :
  snd (run allUp (booking "a.b@x.com" "21-05-2025" "14:30") env)
  = snd (run slackDown (booking "a.b@x.com" "21-05-2025" "14:30") env)
  /\ responsePath (fst (run allUp (booking "a.b@x.com" "21-05-2025" "14:30") env))
     = responsePath (fst (run slackDown (booking "a.b@x.com" "21-05-2025" "14:30") env))
  /\ filter isNotification
       (calls (responsePath (fst (run allUp (booking "a.b@x.com" "21-05-2025" "14:30") env))))
     = [].
Proof.
  apply (response_ignores_notification allUp slackDown
           (booking "a.b@x.com" "21-05-2025" "14:30") env).
  split; intros; reflexivity.
Defined.

(** The two worlds of the witness do differ in how the notification ends. *)
Lemma witness_worlds_differ :
  snd (sendSlackMessage (Some bookingsUrl) hello allUp tt) = Normal true
  /\ snd (sendSlackMessage (Some bookingsUrl) hello slackDown tt) = Normal false.
Proof. split; vm_compute; reflexivity. Qed.

(** [split('@')[0]] is the part before the first [@]. *)
Lemma splitHead_before_first_at (prefix rest : string) :
  hasAt prefix = false ->
  splitHead "@" (prefix ++ String "@" rest) = prefix.
Proof.
  unfold hasAt. induction prefix as [| c prefix IH]; [reflexivity|].
  cbn [list_ascii_of_string existsb splitHead append].
  destruct (Ascii.eqb c "@"); [discriminate|].
  cbn [orb]. intros H. now rewrite IH.
Qed.

Lemma splitHead_without_at (s : string) :
  hasAt s = false -> splitHead "@" s = s.
Proof.
  unfold hasAt. induction s as [| c s IH]; [reflexivity|].
  cbn [list_ascii_of_string existsb splitHead].
  destruct (Ascii.eqb c "@"); [discriminate|].
  cbn [orb]. intros H. now rewrite IH.
Qed.

(** C10.  Whenever the booking of a request resolves (the request passes
    validation and time resolution), the name in [bookingDetails] is not
    empty: it is the part of the address before the first [@], or
    [Valued Candidate] when that part is empty.  The data kept for the
    failure notification holds the same part with the other fallback,
    [Candidate]. *)
Theorem derived_name
    (request : Request) (w : World) (l0 l : Locals) (t : list Event)
    (bookingDetails : BookingDetails) :
  resolveBooking request w l0 = (t, l, Normal bookingDetails) ->
  exists address date time,
    json request = Normal (Obj (Str address) date time)
    /\ email bookingDetails = address
    /\ name bookingDetails
       = (if truthy (splitHead "@" address) then splitHead "@" address
          else "Valued Candidate")
    /\ truthy (name bookingDetails) = true
    /\ slack_name (bookingDataForSlack l)
       = Some (if truthy (splitHead "@" address) then splitHead "@" address
               else "Candidate").
Proof.
  intros H.
  destruct (resolveBooking_inv request w l0 t l bookingDetails H)
    as (address & date & time & day & month & year & hour & minute & instant
        & Hj & Ha & _ & _ & _ & _ & Hn & He & ->).
  exists address, (Str date), (Str time).
  split; [exact Hj|]. split; [exact He|]. split; [exact Hn|]. split; [| reflexivity].
  rewrite Hn. apply truthy_orElse. reflexivity.
Qed.

Lemma derived_name_witness :
  exists address date time,
    json (booking "a.b@x.com" "21-05-2025" "14:30") = Normal (Obj (Str address) date time)
    /\ email sampleBooking = address
    /\ name sampleBooking
       = (if truthy (splitHead "@" address) then splitHead "@" address
          else "Valued Candidate")
    /\ truthy (name sampleBooking) = true
    /\ slack_name
         (bookingDataForSlack
            (snd (fst (resolveBooking (booking "a.b@x.com" "21-05-2025" "14:30")
                                      allUp initialLocals))))
       = Some (if truthy (splitHead "@" address) then splitHead "@" address
               else "Candidate").
Proof.
  apply (derived_name (booking "a.b@x.com" "21-05-2025" "14:30") allUp initialLocals
           (snd (fst (resolveBooking (booking "a.b@x.com" "21-05-2025" "14:30")
                                     allUp initialLocals)))
           (fst (fst (resolveBooking (booking "a.b@x.com" "21-05-2025" "14:30")
                                     allUp initialLocals)))
           sampleBooking).
  vm_compute. reflexivity.
Defined.

End HandlerClaims.

(* ------------------------------------------------------------------ *)
(** ** Claims about the invite request *)

Section InviteClaims.

Import JsString Ecma DateFnsTz Runtime Observe ApyHub Examples.

Lemma newDate_in_range (x : Z) :
  Z.abs x <= 8640000000000000 -> newDate (Some x) = Some x.
Proof.
  intros H. unfold newDate, TimeClip.
  replace (Z.abs x <=? 8640000000000000) with true; [reflexivity|].
  symmetry. apply Z.leb_le. exact H.
Qed.

(** Past the last half hour of the range of time values there is no end
    of the event: the formatting of the end throws, and no request is
    made. *)
Lemma invite_beyond_the_range :
  exists start t e,
    newDateFromString "+275760-09-13T00:00:00.000Z" = Some start
    /\ 8640000000000000 < start + 30 * 60 * 1000
    /\ generateICS {| name := "a.b"; email := "a.b@x.com";
                      startTimeISO := "+275760-09-13T00:00:00.000Z" |}
                   "apy-token" allUp tt
       = (t, tt, Throw e)
    /\ calls t = [].
Proof.
  exists 8640000000000000. do 2 eexists.
  split; [vm_compute; reflexivity|]. split; [reflexivity|].
  split; vm_compute; reflexivity.
Qed.

(** C4.  For every booking whose [startTimeISO] is read as an instant,
    the end of the event, the start plus exactly 30 minutes (1 800 000
    ms) on the time line, being a time value: [generateICS] makes exactly
    one request, to the invite generator, whose body carries the date and
    the time of the start and the time of the end, each formatted on the
    wall clock of America/Los_Angeles, and the zone name; its keys are
    exactly the nine below, with no [start_date_time] and no
    [end_date_time]. *)
Theorem invite_request_is_local
    (S : Type) (details : BookingDetails) (apiToken : string) (w : World) (s : S)
    (start : Z) :
  newDateFromString (startTimeISO details) = Some start ->
  Z.abs (start + 30 * 60 * 1000) <= 8640000000000000 ->
  exists t r body,
    generateICS details apiToken w s = (t, s, r)
    /\ calls t = [invitePost apiToken body]
    /\ map fst body
       = ["summary"; "description"; "organizer_email"; "attendees_emails";
          "time_zone"; "meeting_date"; "start_time"; "end_time"; "organizer_name"]
    /\ field "time_zone" body = Some (JString "America/Los_Angeles")
    /\ field "meeting_date" body
       = jsonOf (formatInTimeZone (Some start) "America/Los_Angeles" "dd-MM-yyyy")
    /\ field "start_time" body
       = jsonOf (formatInTimeZone (Some start) "America/Los_Angeles" "HH:mm")
    /\ field "end_time" body
       = jsonOf (formatInTimeZone (Some (start + 1800000))
                                  "America/Los_Angeles" "HH:mm")
    /\ field "start_date_time" body = None
    /\ field "end_date_time" body = None.
Proof.
  intros Hs Hend. pose proof (newDate_in_range _ Hend) as E.
  destruct (generateICS_run details apiToken w s) as (t & r & Hrun & _ & H).
  exists t, r.
  destruct H as [(_ & _ & Hno) | (body & Hb & Hc & _)].
  - exfalso. eapply Hno. exists start. do 3 eexists.
    split; [exact Hs|]. rewrite E.
    split; [apply formatInTimeZone_date|]. split; [apply formatInTimeZone_time|].
    split; [apply formatInTimeZone_time | reflexivity].
  - exists body. split; [exact Hrun|]. split; [exact Hc|].
    destruct Hb as (start' & md & st & et & Hs' & Hmd & Hst & Het & ->).
    rewrite Hs in Hs'. injection Hs' as <-. rewrite E in Het.
    change (30 * 60 * 1000) with 1800000 in Het.
    rewrite Hmd, Hst, Het. repeat split.
Qed.

Lemma invite_request_is_local_witness :
  exists t r body,
    generateICS sampleBooking "apy-token" allUp tt = (t, tt, r)
    /\ calls t = [invitePost "apy-token" body]
    /\ map fst body
       = ["summary"; "description"; "organizer_email"; "attendees_emails";
          "time_zone"; "meeting_date"; "start_time"; "end_time"; "organizer_name"]
    /\ field "time_zone" body = Some (JString "America/Los_Angeles")
    /\ field "meeting_date" body
       = jsonOf (formatInTimeZone (Some 1747863000000) "America/Los_Angeles" "dd-MM-yyyy")
    /\ field "start_time" body
       = jsonOf (formatInTimeZone (Some 1747863000000) "America/Los_Angeles" "HH:mm")
    /\ field "end_time" body
       = jsonOf (formatInTimeZone (Some (1747863000000 + 1800000))
                                  "America/Los_Angeles" "HH:mm")
    /\ field "start_date_time" body = None
    /\ field "end_date_time" body = None.
Proof.
  apply (invite_request_is_local unit sampleBooking "apy-token" allUp tt 1747863000000).
  - vm_compute. reflexivity.
  - vm_compute. discriminate.
Defined.

End InviteClaims.

(* ------------------------------------------------------------------ *)
(** ** The calendar *)

Section CalendarFacts.

Import Ecma.

Lemma DayFromYear_step (y : Z) : DayFromYear (y + 1) = DayFromYear y + DaysInYear y.
Proof.
  unfold DayFromYear, DaysInYear, isLeapYear.
  destruct (y mod 4 =? 0) eqn:E4; destruct (y mod 100 =? 0) eqn:E100;
    destruct (y mod 400 =? 0) eqn:E400; cbn [andb orb negb];
    rewrite ?Z.eqb_eq, ?Z.eqb_neq in *; Z.div_mod_to_equations; lia.
Qed.

Lemma DaysInYear_cases (y : Z) : DaysInYear y = 365 \/ DaysInYear y = 366.
Proof. unfold DaysInYear. destruct (isLeapYear y); auto. Qed.

Lemma DayFromYear_mono (a b : Z) : a <= b -> DayFromYear a <= DayFromYear b.
Proof. intros H. unfold DayFromYear. Z.div_mod_to_equations. lia. Qed.

(** The year of a day is the one whose days contain it. *)
Lemma YearFromDay_spec (y d : Z) :
  DayFromYear y <= d < DayFromYear (y + 1) -> YearFromDay d = y.
Proof.
  intros H. unfold YearFromDay.
  set (y0 := 1970 + 400 * d / 146097).
  assert (Hy : y - 1 <= y0 <= y + 1).
  { subst y0. unfold DayFromYear in H. Z.div_mod_to_equations. lia. }
  pose proof (DayFromYear_step y) as S0. pose proof (DaysInYear_cases y) as C0.
  pose proof (DayFromYear_step (y + 1)) as S1. pose proof (DaysInYear_cases (y + 1)) as C1.
  pose proof (DayFromYear_step (y - 1)) as S2. pose proof (DaysInYear_cases (y - 1)) as C2.
  replace (y - 1 + 1) with y in S2 by lia.
  assert (C : y0 = y - 1 \/ y0 = y \/ y0 = y + 1) by lia.
  destruct C as [C | [C | C]]; rewrite C.
  - replace (y - 1 + 1) with y by lia.
    destruct (DayFromYear y <=? d) eqn:E; [reflexivity | apply Z.leb_gt in E; lia].
  - destruct (DayFromYear (y + 1) <=? d) eqn:E; [apply Z.leb_le in E; lia|].
    destruct (DayFromYear y <=? d) eqn:E2; [reflexivity | apply Z.leb_gt in E2; lia].
  - destruct (DayFromYear (y + 1 + 1) <=? d) eqn:E; [apply Z.leb_le in E; lia|].
    destruct (DayFromYear (y + 1) <=? d) eqn:E2; [apply Z.leb_le in E2; lia|]. lia.
Qed.

(** Every day lies in the year computed for it. *)
Lemma YearFromDay_bounds (d : Z) :
  DayFromYear (YearFromDay d) <= d < DayFromYear (YearFromDay d + 1).
Proof.
  unfold YearFromDay.
  set (y0 := 1970 + 400 * d / 146097).
  assert (H : DayFromYear (y0 - 1) <= d < DayFromYear (y0 + 2)).
  { subst y0. unfold DayFromYear. Z.div_mod_to_equations. lia. }
  pose proof (DayFromYear_step y0) as S0.
  pose proof (DayFromYear_step (y0 + 1)) as S1.
  pose proof (DayFromYear_step (y0 - 1)) as S2.
  replace (y0 - 1 + 1) with y0 in S2 by lia.
  replace (y0 + 1 + 1) with (y0 + 2) in S1 by lia.
  destruct (DayFromYear (y0 + 1) <=? d) eqn:E.
  - apply Z.leb_le in E. replace (y0 + 1 + 1) with (y0 + 2) by lia. lia.
  - apply Z.leb_gt in E. destruct (DayFromYear y0 <=? d) eqn:E2.
    + apply Z.leb_le in E2. lia.
    + apply Z.leb_gt in E2. replace (y0 - 1 + 1) with y0 by lia. lia.
Qed.

Lemma Day_MakeDate (day time : Z) :
  0 <= time < msPerDay ->
  Day (MakeDate day time) = day /\ TimeWithinDay (MakeDate day time) = time.
Proof.
  unfold Day, TimeWithinDay, MakeDate, msPerDay. intros H.
  Z.div_mod_to_equations. lia.
Qed.

Lemma MakeDay_in_year (y mn d : Z) :
  0 <= mn <= 11 ->
  MakeDay y mn d = DayFromYear y + monthStart (isLeapYear y) mn + d - 1.
Proof.
  intros H. unfold MakeDay.
  replace (mn / 12) with 0 by (Z.div_mod_to_equations; lia).
  replace (mn mod 12) with mn by (Z.div_mod_to_equations; lia).
  now rewrite Z.add_0_r.
Qed.

(** The calendar fields of a time value built from a date of the calendar
    are the fields it was built from. *)
Lemma fields_of_date (y mn d time : Z) :
  0 <= mn <= 11 ->
  1 <= d <= DaysInMonth (isLeapYear y) mn ->
  0 <= time < msPerDay ->
  let t := MakeDate (MakeDay y mn d) time in
  YearFromTime t = y /\ MonthFromTime t = mn /\ DateFromTime t = d.
Proof.
  intros Hm Hd Ht t.
  destruct (Day_MakeDate (MakeDay y mn d) time Ht) as [HD _]. fold t in HD.
  rewrite (MakeDay_in_year y mn d Hm) in HD.
  pose proof (DayFromYear_step y) as Hstep. unfold DaysInYear in Hstep.
  assert (Hy : YearFromTime t = y).
  { unfold YearFromTime. rewrite HD. apply YearFromDay_spec.
    assert (C : mn = 0 \/ mn = 1 \/ mn = 2 \/ mn = 3 \/ mn = 4 \/ mn = 5 \/ mn = 6
                \/ mn = 7 \/ mn = 8 \/ mn = 9 \/ mn = 10 \/ mn = 11) by lia.
    destruct (isLeapYear y);
      repeat (destruct C as [-> | C]; [cbn [monthStart DaysInMonth] in *; lia|]);
      subst mn; cbn [monthStart DaysInMonth] in *; lia. }
  split; [exact Hy|].
  unfold DateFromTime, MonthFromTime, DayWithinYear, InLeapYear. rewrite Hy, HD.
  assert (C : mn = 0 \/ mn = 1 \/ mn = 2 \/ mn = 3 \/ mn = 4 \/ mn = 5 \/ mn = 6
              \/ mn = 7 \/ mn = 8 \/ mn = 9 \/ mn = 10 \/ mn = 11) by lia.
  destruct (isLeapYear y);
    repeat (destruct C as [-> | C];
            [cbn [monthStart DaysInMonth] in *;
             repeat match goal with
             | |- context [?a <? ?b] =>
                 destruct (Z.ltb_spec a b); try lia
             end; split; lia|]);
    subst mn; cbn [monthStart DaysInMonth] in *;
    repeat match goal with
    | |- context [?a <? ?b] => destruct (Z.ltb_spec a b); try lia
    end; split; lia.
Qed.

(** Every time value has a month from 0 to 11 and a day of that month, and
    is built back from its fields. *)
Lemma date_of_fields (t : Z) :
  0 <= MonthFromTime t <= 11
  /\ 1 <= DateFromTime t <= DaysInMonth (isLeapYear (YearFromTime t)) (MonthFromTime t)
  /\ MakeDay (YearFromTime t) (MonthFromTime t) (DateFromTime t) = Day t.
Proof.
  pose proof (YearFromDay_bounds (Day t)) as Hb.
  pose proof (DayFromYear_step (YearFromDay (Day t))) as Hstep.
  unfold DaysInYear in Hstep.
  unfold DateFromTime, MonthFromTime, DayWithinYear, InLeapYear, YearFromTime.
  set (y := YearFromDay (Day t)) in *.
  set (d := Day t) in *.
  destruct (isLeapYear y) eqn:Hl;
    repeat match goal with
    | |- context [?a <? ?b] => destruct (Z.ltb_spec a b)
    end;
    (split; [lia|]); rewrite MakeDay_in_year by lia; rewrite Hl;
    cbn [monthStart DaysInMonth]; lia.
Qed.

Lemma time_of_fields (t : Z) :
  0 <= HourFromTime t <= 23 /\ 0 <= MinFromTime t <= 59
  /\ 0 <= SecFromTime t <= 59 /\ 0 <= msFromTime t <= 999
  /\ MakeTime (HourFromTime t) (MinFromTime t) (SecFromTime t) (msFromTime t)
     = TimeWithinDay t.
Proof.
  unfold HourFromTime, MinFromTime, SecFromTime, msFromTime, MakeTime, TimeWithinDay,
    msPerHour, msPerMinute, msPerSecond, msPerDay.
  Z.div_mod_to_equations. lia.
Qed.

Lemma MakeDate_Day (t : Z) : MakeDate (Day t) (TimeWithinDay t) = t.
Proof.
  unfold MakeDate, Day, TimeWithinDay, msPerDay. Z.div_mod_to_equations. lia.
Qed.

(** The clock fields of a time value built from a time of day. *)
Lemma clock_of_time (day hour min sec ms : Z) :
  0 <= hour <= 23 -> 0 <= min <= 59 -> 0 <= sec <= 59 -> 0 <= ms <= 999 ->
  let t := MakeDate day (MakeTime hour min sec ms) in
  HourFromTime t = hour /\ MinFromTime t = min /\ SecFromTime t = sec
  /\ msFromTime t = ms /\ 0 <= MakeTime hour min sec ms < msPerDay.
Proof.
  intros Hh Hm Hs Hf t. subst t.
  unfold HourFromTime, MinFromTime, SecFromTime, msFromTime, MakeTime, MakeDate,
    msPerHour, msPerMinute, msPerSecond, msPerDay.
  Z.div_mod_to_equations. lia.
Qed.

End CalendarFacts.

(* ------------------------------------------------------------------ *)
(** ** The Pacific zone *)

Section PacificFacts.

Import JsString Ecma DateFnsTz.

Lemma firstSundayOnOrAfter_bounds (day : Z) :
  day <= firstSundayOnOrAfter day <= day + 6.
Proof. unfold firstSundayOnOrAfter. Z.div_mod_to_equations. lia. Qed.

Lemma lastSundayOnOrBefore_bounds (day : Z) :
  day - 6 <= lastSundayOnOrBefore day <= day.
Proof. unfold lastSundayOnOrBefore. Z.div_mod_to_equations. lia. Qed.

Lemma firstSundayOnOrAfter_sunday (day : Z) :
  WeekDay (MakeDate (firstSundayOnOrAfter day) 0) = 0.
Proof.
  unfold WeekDay. destruct (Day_MakeDate (firstSundayOnOrAfter day) 0) as [-> _];
    [unfold msPerDay; lia|].
  unfold firstSundayOnOrAfter. Z.div_mod_to_equations. lia.
Qed.

Lemma dstStart_bounds (y : Z) :
  TimeFromYear y + 66 * msPerDay + 10 * msPerHour <= dstStart y
  <= TimeFromYear y + 73 * msPerDay + 10 * msPerHour.
Proof.
  unfold dstStart, MakeDate, TimeFromYear. rewrite MakeDay_in_year by lia.
  pose proof (firstSundayOnOrAfter_bounds
                (DayFromYear y + monthStart (isLeapYear y) 2 + 8 - 1)) as H.
  cbn [monthStart] in *. unfold msPerDay, msPerHour. destruct (isLeapYear y); lia.
Qed.

Lemma dstEnd_bounds (y : Z) :
  TimeFromYear y + 304 * msPerDay + 9 * msPerHour <= dstEnd y
  <= TimeFromYear y + 311 * msPerDay + 9 * msPerHour.
Proof.
  unfold dstEnd, MakeDate, TimeFromYear. rewrite MakeDay_in_year by lia.
  pose proof (firstSundayOnOrAfter_bounds
                (DayFromYear y + monthStart (isLeapYear y) 10 + 1 - 1)) as H.
  cbn [monthStart] in *. unfold msPerDay, msPerHour. destruct (isLeapYear y); lia.
Qed.

Lemma TimeFromYear_step (y : Z) :
  TimeFromYear y + 365 * msPerDay <= TimeFromYear (y + 1)
  <= TimeFromYear y + 366 * msPerDay.
Proof.
  unfold TimeFromYear. rewrite DayFromYear_step.
  destruct (DaysInYear_cases y) as [-> | ->]; unfold msPerDay; lia.
Qed.

Lemma YearFromTime_spec (y t : Z) :
  TimeFromYear y <= t < TimeFromYear (y + 1) -> YearFromTime t = y.
Proof.
  unfold TimeFromYear, YearFromTime, Day, msPerDay. intros H.
  apply YearFromDay_spec. Z.div_mod_to_equations. lia.
Qed.

Lemma YearFromTime_bounds (t : Z) :
  TimeFromYear (YearFromTime t) <= t < TimeFromYear (YearFromTime t + 1).
Proof.
  pose proof (YearFromDay_bounds (Day t)) as H.
  unfold TimeFromYear, YearFromTime, Day, msPerDay in *.
  Z.div_mod_to_equations. lia.
Qed.

(** A transition on a Sunday found from a day of the year: where it lies
    in the year, and its time of the day. *)
Lemma sunday_transition (y mn d clock sunday : Z) :
  0 <= mn <= 11 ->
  MakeDay y mn d - 6 <= sunday <= MakeDay y mn d + 6 ->
  0 <= clock < msPerDay ->
  TimeFromYear y + (monthStart (isLeapYear y) mn + d - 7) * msPerDay + clock
    <= MakeDate sunday clock
    <= TimeFromYear y + (monthStart (isLeapYear y) mn + d + 5) * msPerDay + clock
  /\ MakeDate sunday clock mod msPerDay = clock.
Proof.
  intros Hm Hs Hc. rewrite MakeDay_in_year in Hs by exact Hm.
  unfold MakeDate, TimeFromYear, msPerDay in *. split; [lia|].
  Z.div_mod_to_equations. lia.
Qed.

Lemma exact_transition (y mn d clock : Z) :
  0 <= mn <= 11 ->
  0 <= clock < msPerDay ->
  MakeDate (MakeDay y mn d) clock
  = TimeFromYear y + (monthStart (isLeapYear y) mn + d - 1) * msPerDay + clock
  /\ MakeDate (MakeDay y mn d) clock mod msPerDay = clock.
Proof.
  intros Hm Hc. rewrite MakeDay_in_year by exact Hm.
  unfold MakeDate, TimeFromYear, msPerDay in *. split; [lia|].
  Z.div_mod_to_equations. lia.
Qed.

(** The daylight saving period of a year: it lies in the year; it is
    empty or lasts nine hours at least; it starts with the year in the
    years it continues the period of the year before, and otherwise not
    in the first days of the year, at a time of the day from 09:00 to
    10:01 UTC; it ends with the year in the years whose period goes on in
    the next, and otherwise a day at least before the end of the year. *)
Lemma daylightSaving_shape (y : Z) :
  let s := fst (daylightSaving y) in
  let e := snd (daylightSaving y) in
  TimeFromYear y <= s <= e /\ e <= TimeFromYear (y + 1)
  /\ (((y = 1943 \/ y = 1944 \/ y = 1945 \/ y = 1949)
       /\ s = TimeFromYear y /\ s + 9 * msPerHour <= e)
      \/ (~ (y = 1943 \/ y = 1944 \/ y = 1945 \/ y = 1949)
          /\ (s = e
              \/ (TimeFromYear y + 5 * msPerDay <= s /\ s + 9 * msPerHour <= e
                  /\ 9 * msPerHour <= s mod msPerDay
                     <= 10 * msPerHour + msPerMinute))))
  /\ (((y = 1942 \/ y = 1943 \/ y = 1944 \/ y = 1948) /\ s < e /\ e = TimeFromYear (y + 1))
      \/ (~ (y = 1942 \/ y = 1943 \/ y = 1944 \/ y = 1948)
          /\ e + msPerDay <= TimeFromYear (y + 1))).
Proof.
  cbv zeta.
  pose proof (TimeFromYear_step y) as HY.
  assert (First : forall mn d clock,
             0 <= mn <= 11 -> 0 <= clock < msPerDay ->
             TimeFromYear y + (monthStart (isLeapYear y) mn + d - 1) * msPerDay + clock
               <= MakeDate (firstSundayOnOrAfter (MakeDay y mn d)) clock
               <= TimeFromYear y + (monthStart (isLeapYear y) mn + d + 5) * msPerDay + clock
             /\ MakeDate (firstSundayOnOrAfter (MakeDay y mn d)) clock mod msPerDay = clock).
  { intros mn d clock Hm Hc.
    pose proof (firstSundayOnOrAfter_bounds (MakeDay y mn d)) as Hb.
    destruct (sunday_transition y mn d clock (firstSundayOnOrAfter (MakeDay y mn d)))
      as [B C]; [lia | lia | lia |].
    split; [| exact C]. pose proof (MakeDay_in_year y mn d Hm) as E.
    unfold MakeDate, TimeFromYear, msPerDay in *. lia. }
  assert (Last : forall mn d clock,
             0 <= mn <= 11 -> 0 <= clock < msPerDay ->
             TimeFromYear y + (monthStart (isLeapYear y) mn + d - 7) * msPerDay + clock
               <= MakeDate (lastSundayOnOrBefore (MakeDay y mn d)) clock
               <= TimeFromYear y + (monthStart (isLeapYear y) mn + d - 1) * msPerDay + clock
             /\ MakeDate (lastSundayOnOrBefore (MakeDay y mn d)) clock mod msPerDay = clock).
  { intros mn d clock Hm Hc.
    pose proof (lastSundayOnOrBefore_bounds (MakeDay y mn d)) as Hb.
    destruct (sunday_transition y mn d clock (lastSundayOnOrBefore (MakeDay y mn d)))
      as [B C]; [lia | lia | lia |].
    split; [| exact C]. pose proof (MakeDay_in_year y mn d Hm) as E.
    unfold MakeDate, TimeFromYear, msPerDay in *. lia. }
  assert (Exact : forall mn d clock,
             0 <= mn <= 11 -> 0 <= clock < msPerDay ->
             MakeDate (MakeDay y mn d) clock
             = TimeFromYear y + (monthStart (isLeapYear y) mn + d - 1) * msPerDay + clock
             /\ MakeDate (MakeDay y mn d) clock mod msPerDay = clock)
    by (intros; now apply exact_transition).
  assert (H9 : 0 <= 9 * msPerHour < msPerDay) by (unfold msPerHour, msPerDay; lia).
  assert (H10 : 0 <= 10 * msPerHour < msPerDay) by (unfold msPerHour, msPerDay; lia).
  assert (H101 : 0 <= 10 * msPerHour + msPerMinute < msPerDay)
    by (unfold msPerHour, msPerDay, msPerMinute; lia).
  unfold daylightSaving, dstStart, dstEnd. cbv zeta.
  repeat match goal with
         | |- context [if ?a <=? ?b then _ else _] => destruct (Z.leb_spec a b)
         | |- context [if ?a =? ?b then _ else _] => destruct (Z.eqb_spec a b)
         end;
    cbn [fst snd]; try lia;
    repeat match goal with
           | |- context [MakeDate (firstSundayOnOrAfter (MakeDay y ?mn ?d)) ?clock] =>
               let B := fresh "B" in let C := fresh "C" in
               destruct (First mn d clock) as [B C]; [lia | assumption |];
               rewrite ?C;
               generalize dependent (MakeDate (firstSundayOnOrAfter (MakeDay y mn d)) clock);
               intros
           | |- context [MakeDate (lastSundayOnOrBefore (MakeDay y ?mn ?d)) ?clock] =>
               let B := fresh "B" in let C := fresh "C" in
               destruct (Last mn d clock) as [B C]; [lia | assumption |];
               rewrite ?C;
               generalize dependent (MakeDate (lastSundayOnOrBefore (MakeDay y mn d)) clock);
               intros
           | |- context [MakeDate (MakeDay y ?mn ?d) ?clock] =>
               let B := fresh "B" in let C := fresh "C" in
               destruct (Exact mn d clock) as [B C]; [lia | assumption |];
               rewrite ?C;
               generalize dependent (MakeDate (MakeDay y mn d) clock);
               intros
           end;
    clear First Last Exact;
    cbn [monthStart] in *; unfold msPerHour, msPerDay, msPerMinute in *;
    destruct (isLeapYear y); try lia.
Qed.

Lemma TimeFromYear_mono (a b : Z) : a <= b -> TimeFromYear a <= TimeFromYear b.
Proof.
  intros H. pose proof (DayFromYear_mono a b H). unfold TimeFromYear, msPerDay. lia.
Qed.

(** The three offsets of the zone, whole seconds each. *)
Lemma pacificOffset_values (u : Z) :
  pacificOffset u = localMeanTime
  \/ pacificOffset u = - (7 * msPerHour)
  \/ pacificOffset u = - (8 * msPerHour).
Proof.
  unfold pacificOffset. destruct (u <? standardTimeStart); [auto|].
  cbv zeta. match goal with |- context [if ?c then _ else _] => destruct c end; auto.
Qed.

Lemma pacificOffset_range (u : Z) :
  - (8 * msPerHour) <= pacificOffset u <= - (7 * msPerHour)
  /\ pacificOffset u mod 1000 = 0.
Proof.
  destruct (pacificOffset_values u) as [-> | [-> | ->]];
    unfold localMeanTime, msPerHour, msPerMinute, msPerSecond; split; try lia;
    reflexivity.
Qed.

(** Within a year since 1884, and for the first hours of the next, the
    offset is read off the daylight saving period of the year, which goes
    on for these hours where it goes on in the next year. *)
Lemma pacificOffset_in_year (y u : Z) :
  1884 <= y ->
  TimeFromYear y <= u < TimeFromYear (y + 1) + 8 * msPerHour ->
  pacificOffset u
  = if (fst (daylightSaving y) <=? u)
       && (u <? (if snd (daylightSaving y) =? TimeFromYear (y + 1)
                 then TimeFromYear (y + 1) + 8 * msPerHour
                 else snd (daylightSaving y)))
    then - (7 * msPerHour) else - (8 * msPerHour).
Proof.
  intros Hy Hu.
  assert (HS : standardTimeStart < TimeFromYear 1884) by (vm_compute; reflexivity).
  pose proof (TimeFromYear_mono 1884 y Hy) as Hm.
  unfold pacificOffset. destruct (Z.ltb_spec u standardTimeStart) as [Hlt | _]; [lia|].
  cbv zeta.
  pose proof (daylightSaving_shape y) as (A1 & A2 & A3 & A4).
  pose proof (daylightSaving_shape (y + 1)) as (B1 & B2 & B3 & B4).
  pose proof (TimeFromYear_step (y + 1)) as Y1.
  pose proof (TimeFromYear_step y) as Y0.
  cbv zeta in *.
  destruct (Z_lt_ge_dec u (TimeFromYear (y + 1))) as [Hin | Hout].
  - rewrite (YearFromTime_spec y u) by lia.
    destruct (Z.eqb_spec (snd (daylightSaving y)) (TimeFromYear (y + 1))) as [E | E];
      [| reflexivity].
    destruct (Z.leb_spec (fst (daylightSaving y)) u);
      destruct (Z.ltb_spec u (snd (daylightSaving y)));
      destruct (Z.ltb_spec u (TimeFromYear (y + 1) + 8 * msPerHour));
      cbn [andb]; try reflexivity; unfold msPerHour in *; lia.
  - rewrite (YearFromTime_spec (y + 1) u) by (unfold msPerDay, msPerHour in *; lia).
    unfold msPerDay, msPerHour, msPerMinute in *.
    destruct (Z.eqb_spec (snd (daylightSaving y)) (TimeFromYear (y + 1))) as [E | E];
      destruct (Z.leb_spec (fst (daylightSaving (y + 1))) u);
      destruct (Z.ltb_spec u (snd (daylightSaving (y + 1))));
      destruct (Z.leb_spec (fst (daylightSaving y)) u);
      try destruct (Z.ltb_spec u (snd (daylightSaving y)));
      try destruct (Z.ltb_spec u (TimeFromYear (y + 1) + 8 * 3600000));
      cbn [andb]; try reflexivity; exfalso; lia.
Qed.

(** Over eight hours the offset changes at most once, and where it
    changes forward, the clock is set from standard to daylight saving
    time at a time of the day from 09:00 to 10:01 UTC. *)
Lemma pacificOffset_window (x : Z) :
  exists tau a b,
    (forall u, x <= u <= x + 8 * msPerHour ->
               pacificOffset u = if u <? tau then a else b)
    /\ (a = b
        \/ b < a
        \/ (a = - (8 * msPerHour) /\ b = - (7 * msPerHour)
            /\ 9 * msPerHour <= tau mod msPerDay <= 10 * msPerHour + msPerMinute)).
Proof.
  destruct (Z_lt_ge_dec (YearFromTime x) 1884) as [Hold | Hnew].
  - (* up to 1883: local mean time, then standard time *)
    exists standardTimeStart, localMeanTime, (- (8 * msPerHour)).
    split; [| right; left; vm_compute; reflexivity].
    intros u Hu.
    pose proof (YearFromTime_bounds x) as Hx.
    pose proof (TimeFromYear_mono (YearFromTime x + 1) 1884 ltac:(lia)) as Hm.
    assert (E3 : TimeFromYear 1883 <= standardTimeStart) by (vm_compute; discriminate).
    pose proof (TimeFromYear_step 1884) as S4. change (1884 + 1) with 1885 in S4.
    unfold pacificOffset.
    destruct (Z.ltb_spec u standardTimeStart) as [Hlt | Hge]; [reflexivity|].
    cbv zeta.
    destruct (Z_lt_ge_dec u (TimeFromYear 1884)) as [H3 | H4].
    + rewrite (YearFromTime_spec 1883 u) by (change (1883 + 1) with 1884; lia).
      change (daylightSaving 1883) with (TimeFromYear 1883, TimeFromYear 1883).
      cbn [fst snd].
      destruct (Z.leb_spec (TimeFromYear 1883) u); destruct (Z.ltb_spec u (TimeFromYear 1883));
        cbn [andb]; try reflexivity; lia.
    + rewrite (YearFromTime_spec 1884 u)
        by (change (1884 + 1) with 1885; unfold msPerDay, msPerHour in *; lia).
      change (daylightSaving 1884) with (TimeFromYear 1884, TimeFromYear 1884).
      cbn [fst snd].
      destruct (Z.leb_spec (TimeFromYear 1884) u); destruct (Z.ltb_spec u (TimeFromYear 1884));
        cbn [andb]; try reflexivity; lia.
  - (* since 1884: the period of the year *)
    set (y := YearFromTime x) in *.
    pose proof (YearFromTime_bounds x) as Hx. fold y in Hx.
    pose proof (daylightSaving_shape y) as (A1 & A2 & A3 & A4). cbv zeta in *.
    set (S := fst (daylightSaving y)) in *.
    set (E := if snd (daylightSaving y) =? TimeFromYear (y + 1)
              then TimeFromYear (y + 1) + 8 * msPerHour
              else snd (daylightSaving y)).
    assert (K : forall u, x <= u <= x + 8 * msPerHour ->
                pacificOffset u
                = if (S <=? u) && (u <? E) then - (7 * msPerHour) else - (8 * msPerHour)).
    { intros u Hu. apply pacificOffset_in_year; [lia|]. lia. }
    assert (HE : S = E \/ (S + 8 * msPerHour < E /\ S < snd (daylightSaving y))).
    { subst E. unfold msPerHour, msPerDay, msPerMinute in *.
      destruct (Z.eqb_spec (snd (daylightSaving y)) (TimeFromYear (y + 1))); lia. }
    destruct HE as [HE | [HE HS]].
    { exists x, (- (8 * msPerHour)), (- (8 * msPerHour)). split; [| now left].
      intros u Hu. rewrite (K u Hu), <- HE.
      destruct (Z.leb_spec S u); destruct (Z.ltb_spec u S); destruct (u <? x);
        cbn [andb]; try reflexivity; lia. }
    destruct (Z_lt_ge_dec x S) as [H1 | H1].
    + exists S, (- (8 * msPerHour)), (- (7 * msPerHour)). split.
      * intros u Hu. rewrite (K u Hu).
        destruct (Z.leb_spec S u); destruct (Z.ltb_spec u E); destruct (Z.ltb_spec u S);
          cbn [andb]; try reflexivity; lia.
      * right. right. split; [reflexivity|]. split; [reflexivity|].
        unfold msPerHour, msPerDay, msPerMinute in *. lia.
    + exists E, (- (7 * msPerHour)), (- (8 * msPerHour)). split.
      * intros u Hu. rewrite (K u Hu).
        destruct (Z.leb_spec S u); destruct (Z.ltb_spec u E);
          cbn [andb]; try reflexivity; lia.
      * right. left. unfold msPerHour. lia.
Qed.

(** The offset the library recovers from the calendar fields of the wall
    clock is the offset of the zone. *)
Lemma calcOffset_pacific (u : Z) :
  calcOffset "America/Los_Angeles" u = Some (pacificOffset u).
Proof.
  unfold calcOffset, tzTokenizeDate.
  change (zoneOffset "America/Los_Angeles" u) with (Some (pacificOffset u)).
  cbn [year month day hour minute second]. f_equal.
  set (l := u + pacificOffset u).
  destruct (date_of_fields l) as (Hm & Hd & HD).
  destruct (time_of_fields l) as (Hh & Hmi & Hs & Hms & HT).
  unfold newDateUTC. replace (MonthFromTime l + 1 - 1) with (MonthFromTime l) by lia.
  rewrite HD. replace (HourFromTime l mod 24) with (HourFromTime l)
    by (Z.div_mod_to_equations; lia).
  assert (HT0 : MakeTime (HourFromTime l) (MinFromTime l) (SecFromTime l) 0
                = TimeWithinDay l - msFromTime l).
  { rewrite <- HT. unfold MakeTime. lia. }
  rewrite HT0. pose proof (MakeDate_Day l) as Hl. unfold MakeDate in *.
  assert (Hmod : msFromTime l = u mod 1000).
  { unfold msFromTime, msPerSecond. subst l.
    destruct (pacificOffset_range u) as [_ H0]. Z.div_mod_to_equations. lia. }
  subst l. lia.
Qed.

(** What the library resolves a wall-clock reading to: the earliest
    instant at which the wall clock of the zone shows the reading, if
    there is one; no instant shows a reading that a forward transition
    skips, and such a reading is of a time of the day from 01:00 to
    03:00. *)
Lemma tzParseTimezone_pacific (localTS : Z) :
  exists o,
    tzParseTimezone "America/Los_Angeles" localTS = Some (- o)
    /\ - (8 * msPerHour) <= o <= - (7 * msPerHour)
    /\ ((pacificOffset (localTS - o) = o
         /\ forall t, t + pacificOffset t = localTS -> localTS - o <= t)
        \/ ((forall t, t + pacificOffset t <> localTS)
            /\ msPerHour <= localTS mod msPerDay < 3 * msPerHour + msPerMinute)).
Proof.
  destruct (pacificOffset_window localTS) as (tau & a & b & K & Hab).
  assert (R : forall u, - (8 * msPerHour) <= pacificOffset u <= - (7 * msPerHour))
    by (intros u; apply pacificOffset_range).
  assert (Shown : forall t, t + pacificOffset t = localTS ->
                            pacificOffset t = if t <? tau then a else b).
  { intros t Ht. apply K. pose proof (R t). unfold msPerHour in *. lia. }
  pose proof (R localTS) as R1. pose proof (K localTS) as K1.
  unfold tzParseTimezone, fixOffset. cbv zeta. rewrite !calcOffset_pacific. cbv beta iota.
  unfold msPerHour, msPerDay, msPerMinute in *.
  rewrite K1 in * by lia.
  destruct (Z.ltb_spec localTS tau) as [L1 | L1].
  - (* the reading, taken as an instant, is before the change *)
    pose proof (R (localTS - a)) as R2. pose proof (K (localTS - a)) as K2.
    rewrite K2 in * by lia.
    destruct (Z.ltb_spec (localTS - a) tau) as [L2 | L2].
    + rewrite Z.eqb_refl. exists a. split; [reflexivity|]. split; [lia|]. left.
      rewrite K2 by lia.
      destruct (Z.ltb_spec (localTS - a) tau); [| lia]. split; [reflexivity|].
      intros t Ht. pose proof (Shown t Ht) as Hs. pose proof (R t).
      destruct (Z.ltb_spec t tau); lia.
    + destruct (Z.eqb_spec a b) as [Eab | Nab].
      * exists a. split; [reflexivity|]. split; [lia|]. left.
        rewrite K2 by lia. destruct (Z.ltb_spec (localTS - a) tau); [lia|].
        split; [congruence|].
        intros t Ht. pose proof (Shown t Ht) as Hs. pose proof (R t).
        destruct (Z.ltb_spec t tau); lia.
      * pose proof (R (localTS - a - (b - a))) as R3.
        pose proof (K (localTS - a - (b - a))) as K3.
        rewrite K3 in * by lia.
        destruct (Z.ltb_spec (localTS - a - (b - a)) tau) as [L3 | L3].
        -- (* a reading that the change skips *)
           replace (b =? a) with false by (symmetry; apply Z.eqb_neq; lia).
           exists (Z.max b a). split; [reflexivity|]. split; [lia|]. right.
           split.
           ++ intros t Ht. pose proof (Shown t Ht) as Hs. pose proof (R t).
              destruct (Z.ltb_spec t tau); lia.
           ++ destruct Hab as [Hab | [Hab | (-> & -> & Hab)]]; [lia | lia |].
              Z.div_mod_to_equations. lia.
        -- rewrite Z.eqb_refl. exists b. split; [reflexivity|]. split; [lia|]. left.
           pose proof (K (localTS - b)) as K4. rewrite K4 by lia.
           destruct (Z.ltb_spec (localTS - b) tau); [lia|]. split; [reflexivity|].
           intros t Ht. pose proof (Shown t Ht) as Hs. pose proof (R t).
           destruct (Z.ltb_spec t tau); lia.
  - (* the reading, taken as an instant, is after the change *)
    pose proof (K (localTS - b)) as K2. rewrite K2 by lia.
    destruct (Z.ltb_spec (localTS - b) tau); [lia|].
    rewrite Z.eqb_refl. exists b. split; [reflexivity|]. split; [lia|]. left.
    rewrite K2 by lia. destruct (Z.ltb_spec (localTS - b) tau); [lia|].
    split; [reflexivity|].
    intros t Ht. pose proof (Shown t Ht) as Hs. pose proof (R t).
    destruct (Z.ltb_spec t tau); lia.
Qed.

(** Since 2007 the period is the one of the rule in force. *)
Lemma pacificOffset_since_2007 (y u : Z) :
  2007 <= y ->
  TimeFromYear y <= u < TimeFromYear (y + 1) + 8 * msPerHour ->
  pacificOffset u
  = if (dstStart y <=? u) && (u <? dstEnd y) then - (7 * msPerHour) else - (8 * msPerHour).
Proof.
  intros Hy Hu. rewrite (pacificOffset_in_year y u) by lia.
  pose proof (dstEnd_bounds y) as E0. pose proof (TimeFromYear_step y) as Y0.
  unfold daylightSaving. cbv zeta.
  destruct (Z.leb_spec 2007 y); [| lia]. cbn [fst snd].
  destruct (Z.eqb_spec (dstEnd y) (TimeFromYear (y + 1))); [| reflexivity].
  unfold msPerDay, msPerHour in *. lia.
Qed.

(** Since 2007 the wall clock of the zone never shows a reading of the
    hour from 02:00 on the second Sunday of March. *)
Lemma wall_clock_skips_an_hour (t : Z) :
  let l := t + pacificOffset t in
  2007 <= YearFromTime l ->
  ~ (dstStart (YearFromTime l) - 8 * msPerHour <= l
     < dstStart (YearFromTime l) - 7 * msPerHour).
Proof.
  intros l Hy H. set (y := YearFromTime l) in *.
  pose proof (YearFromTime_bounds l) as Hl. fold y in Hl.
  pose proof (dstStart_bounds y) as S0. pose proof (dstEnd_bounds y) as E0.
  pose proof (TimeFromYear_step y) as Y0.
  pose proof (pacificOffset_range t) as [R _].
  assert (Ht : TimeFromYear y <= t < TimeFromYear (y + 1) + 8 * msPerHour).
  { subst l. unfold msPerHour, msPerDay in *. lia. }
  pose proof (pacificOffset_since_2007 y t Hy Ht) as Hoff.
  subst l. unfold msPerHour, msPerDay in *.
  destruct (Z.leb_spec (dstStart y) t); destruct (Z.ltb_spec t (dstEnd y));
    cbn [andb] in Hoff; rewrite Hoff in *; lia.
Qed.

End PacificFacts.
(* ------------------------------------------------------------------ *)
(** ** Decimal digits *)

Section DigitFacts.

Import JsString.

Lemma isDigit_digitChar (k : Z) : 0 <= k <= 9 -> isDigit (digitChar k) = true.
Proof.
  intros H.
  assert (C : k = 0 \/ k = 1 \/ k = 2 \/ k = 3 \/ k = 4 \/ k = 5 \/ k = 6 \/ k = 7
              \/ k = 8 \/ k = 9) by lia.
  repeat (destruct C as [-> | C]; [reflexivity|]). subst k. reflexivity.
Qed.

Lemma digitValue_digitChar (k : Z) : 0 <= k <= 9 -> digitValue (digitChar k) = k.
Proof.
  intros H.
  assert (C : k = 0 \/ k = 1 \/ k = 2 \/ k = 3 \/ k = 4 \/ k = 5 \/ k = 6 \/ k = 7
              \/ k = 8 \/ k = 9) by lia.
  repeat (destruct C as [-> | C]; [reflexivity|]). subst k. reflexivity.
Qed.

(** A digit character is none of the separators of the formats. *)
Lemma digitChar_not_separator (k : Z) (c : ascii) :
  0 <= k <= 9 -> isDigit c = false -> digitChar k <> c.
Proof. intros H Hc E. rewrite <- E, isDigit_digitChar in Hc by exact H. discriminate. Qed.

Lemma addLeadingZeros_fixed (n : Z) (len : nat) :
  0 <= n -> (numDigits n <= len)%nat -> addLeadingZeros n len = fixedDigits len n.
Proof.
  intros H Hn. unfold addLeadingZeros.
  replace (n <? 0) with false by (symmetry; apply Z.ltb_ge; lia).
  rewrite Z.abs_eq by lia. now rewrite Nat.max_l by exact Hn.
Qed.

Lemma numDigits_2 (n : Z) : 0 <= n <= 99 -> (numDigits n <= 2)%nat.
Proof.
  intros H. unfold numDigits. cbn [numDigitsAux].
  destruct (Z.ltb_spec n 10); [lia|].
  destruct (Z.ltb_spec (n / 10) 10); [lia|]. exfalso. Z.div_mod_to_equations. lia.
Qed.

Lemma numDigits_3 (n : Z) : 0 <= n <= 999 -> (numDigits n <= 3)%nat.
Proof.
  intros H. unfold numDigits. cbn [numDigitsAux].
  destruct (Z.ltb_spec n 10); [lia|].
  destruct (Z.ltb_spec (n / 10) 10); [lia|].
  destruct (Z.ltb_spec (n / 10 / 10) 10); [lia|]. exfalso. Z.div_mod_to_equations. lia.
Qed.

Lemma numDigits_4 (n : Z) : 0 <= n <= 9999 -> (numDigits n <= 4)%nat.
Proof.
  intros H. unfold numDigits. cbn [numDigitsAux].
  destruct (Z.ltb_spec n 10); [lia|].
  destruct (Z.ltb_spec (n / 10) 10); [lia|].
  destruct (Z.ltb_spec (n / 10 / 10) 10); [lia|].
  destruct (Z.ltb_spec (n / 10 / 10 / 10) 10); [lia|].
  exfalso. Z.div_mod_to_equations. lia.
Qed.

(** The digits of a number of at most two, three and four digits. *)
Lemma addLeadingZeros_2 (n : Z) :
  0 <= n <= 99 ->
  addLeadingZeros n 2 = String (digitChar (n / 10)) (String (digitChar (n mod 10)) EmptyString).
Proof.
  intros H. rewrite addLeadingZeros_fixed by (try apply numDigits_2; lia).
  cbn [fixedDigits append].
  now rewrite (Z.mod_small (n / 10) 10) by (Z.div_mod_to_equations; lia).
Qed.

Lemma addLeadingZeros_3 (n : Z) :
  0 <= n <= 999 ->
  addLeadingZeros n 3
  = String (digitChar (n / 100))
      (String (digitChar (n / 10 mod 10)) (String (digitChar (n mod 10)) EmptyString)).
Proof.
  intros H. rewrite addLeadingZeros_fixed by (try apply numDigits_3; lia).
  cbn [fixedDigits append].
  replace (n / 10 / 10 mod 10) with (n / 100) by (Z.div_mod_to_equations; lia).
  reflexivity.
Qed.

Lemma addLeadingZeros_4 (n : Z) :
  0 <= n <= 9999 ->
  addLeadingZeros n 4
  = String (digitChar (n / 1000))
      (String (digitChar (n / 100 mod 10))
         (String (digitChar (n / 10 mod 10)) (String (digitChar (n mod 10)) EmptyString))).
Proof.
  intros H. rewrite addLeadingZeros_fixed by (try apply numDigits_4; lia).
  cbn [fixedDigits append].
  replace (n / 10 / 10 / 10 mod 10) with (n / 1000) by (Z.div_mod_to_equations; lia).
  replace (n / 10 / 10 mod 10) with (n / 100 mod 10) by (Z.div_mod_to_equations; lia).
  reflexivity.
Qed.

(** Reading the digits back. *)
Lemma number_2 (a b : Z) :
  0 <= a <= 9 -> 0 <= b <= 9 ->
  Ecma.number [digitChar a; digitChar b] = Some (10 * a + b).
Proof.
  intros Ha Hb. unfold Ecma.number. cbn [forallb fold_left].
  rewrite !isDigit_digitChar, !digitValue_digitChar by assumption.
  cbn [andb]. f_equal; lia.
Qed.

Lemma number_3 (a b c : Z) :
  0 <= a <= 9 -> 0 <= b <= 9 -> 0 <= c <= 9 ->
  Ecma.number [digitChar a; digitChar b; digitChar c] = Some (100 * a + 10 * b + c).
Proof.
  intros Ha Hb Hc. unfold Ecma.number. cbn [forallb fold_left].
  rewrite !isDigit_digitChar, !digitValue_digitChar by assumption.
  cbn [andb]. f_equal; lia.
Qed.

Lemma number_4 (a b c d : Z) :
  0 <= a <= 9 -> 0 <= b <= 9 -> 0 <= c <= 9 -> 0 <= d <= 9 ->
  Ecma.number [digitChar a; digitChar b; digitChar c; digitChar d]
  = Some (1000 * a + 100 * b + 10 * c + d).
Proof.
  intros Ha Hb Hc Hd. unfold Ecma.number. cbn [forallb fold_left].
  rewrite !isDigit_digitChar, !digitValue_digitChar by assumption.
  cbn [andb]. f_equal; lia.
Qed.

(** A digit is the character of its value. *)
Lemma digitChar_digitValue (c : ascii) :
  isDigit c = true -> digitChar (digitValue c) = c /\ 0 <= digitValue c <= 9.
Proof.
  destruct c as [[] [] [] [] [] [] [] []]; intros H; try discriminate H;
    (split; [reflexivity | cbv; split; discriminate]).
Qed.

Lemma two_digits (c1 c2 : ascii) :
  isDigit c1 = true -> isDigit c2 = true ->
  let n := parseDigits (String c1 (String c2 EmptyString)) in
  0 <= n <= 99 /\ addLeadingZeros n 2 = String c1 (String c2 EmptyString).
Proof.
  intros H1 H2 n.
  destruct (digitChar_digitValue c1 H1) as [E1 R1].
  destruct (digitChar_digitValue c2 H2) as [E2 R2].
  assert (En : n = 10 * digitValue c1 + digitValue c2).
  { unfold n, parseDigits. cbn [list_ascii_of_string fold_left]. lia. }
  split; [lia|]. rewrite addLeadingZeros_2 by lia.
  replace (n / 10) with (digitValue c1) by (Z.div_mod_to_equations; lia).
  replace (n mod 10) with (digitValue c2) by (Z.div_mod_to_equations; lia).
  now rewrite E1, E2.
Qed.

Lemma four_digits (c1 c2 c3 c4 : ascii) :
  isDigit c1 = true -> isDigit c2 = true -> isDigit c3 = true -> isDigit c4 = true ->
  let n := parseDigits (String c1 (String c2 (String c3 (String c4 EmptyString)))) in
  0 <= n <= 9999
  /\ addLeadingZeros n 4 = String c1 (String c2 (String c3 (String c4 EmptyString))).
Proof.
  intros H1 H2 H3 H4 n.
  destruct (digitChar_digitValue c1 H1) as [E1 R1].
  destruct (digitChar_digitValue c2 H2) as [E2 R2].
  destruct (digitChar_digitValue c3 H3) as [E3 R3].
  destruct (digitChar_digitValue c4 H4) as [E4 R4].
  assert (En : n = 1000 * digitValue c1 + 100 * digitValue c2 + 10 * digitValue c3
                   + digitValue c4).
  { unfold n, parseDigits. cbn [list_ascii_of_string fold_left]. lia. }
  split; [lia|]. rewrite addLeadingZeros_4 by lia.
  replace (n / 1000) with (digitValue c1) by (Z.div_mod_to_equations; lia).
  replace (n / 100 mod 10) with (digitValue c2) by (Z.div_mod_to_equations; lia).
  replace (n / 10 mod 10) with (digitValue c3) by (Z.div_mod_to_equations; lia).
  replace (n mod 10) with (digitValue c4) by (Z.div_mod_to_equations; lia).
  now rewrite E1, E2, E3, E4.
Qed.

End DigitFacts.

(* ------------------------------------------------------------------ *)
(** ** From the strings of a request to an instant and back *)

Section RoundTripFacts.

Import JsString Ecma DateFnsTz Runtime Observe Index.

Lemma digits_of_2 (n : Z) : 0 <= n <= 99 -> 0 <= n / 10 <= 9 /\ 0 <= n mod 10 <= 9.
Proof. intros H. Z.div_mod_to_equations. lia. Qed.

Lemma digits_of_4 (n : Z) :
  0 <= n <= 9999 ->
  0 <= n / 1000 <= 9 /\ 0 <= n / 100 mod 10 <= 9 /\ 0 <= n / 10 mod 10 <= 9
  /\ 0 <= n mod 10 <= 9.
Proof. intros H. Z.div_mod_to_equations. lia. Qed.

Lemma matchDate_dateString (y m d : Z) :
  0 <= y <= 9999 -> 0 <= m <= 99 -> 0 <= d <= 99 ->
  matchDate (dateString y m d)
  = Some (addLeadingZeros d 2, addLeadingZeros m 2, addLeadingZeros y 4).
Proof.
  intros Hy Hm Hd. unfold dateString.
  rewrite (addLeadingZeros_2 d Hd), (addLeadingZeros_2 m Hm), (addLeadingZeros_4 y Hy).
  destruct (digits_of_2 d Hd) as [? ?]. destruct (digits_of_2 m Hm) as [? ?].
  destruct (digits_of_4 y Hy) as (? & ? & ? & ?).
  unfold matchDate. cbn [append list_ascii_of_string forallb string_of_list_ascii].
  rewrite !isDigit_digitChar by assumption. reflexivity.
Qed.

Lemma matchTime_timeString (h mi : Z) :
  0 <= h <= 99 -> 0 <= mi <= 99 ->
  matchTime (timeString h mi) = Some (addLeadingZeros h 2, addLeadingZeros mi 2).
Proof.
  intros Hh Hm. unfold timeString.
  rewrite (addLeadingZeros_2 h Hh), (addLeadingZeros_2 mi Hm).
  destruct (digits_of_2 h Hh) as [? ?]. destruct (digits_of_2 mi Hm) as [? ?].
  unfold matchTime. cbn [append list_ascii_of_string forallb string_of_list_ascii].
  rewrite !isDigit_digitChar by assumption. reflexivity.
Qed.

(** The naive date-time string of the handler, read by the library. *)
Lemma parseNaive_fields (y m d h mi : Z) :
  0 <= y <= 9999 -> 0 <= m <= 99 -> 0 <= d <= 99 -> 0 <= h <= 99 -> 0 <= mi <= 99 ->
  parseNaive (addLeadingZeros y 4 ++ "-" ++ addLeadingZeros m 2 ++ "-"
              ++ addLeadingZeros d 2 ++ "T" ++ addLeadingZeros h 2 ++ ":"
              ++ addLeadingZeros mi 2 ++ ":00")
  = if validateDate y (m - 1) d && validateTime h mi 0
    then Some (MakeDate (MakeDay y (m - 1) d) 0
               + ((h mod 24) * msPerHour + mi * msPerMinute + 0 * 1000))
    else None.
Proof.
  intros Hy Hm Hd Hh Hmi.
  rewrite (addLeadingZeros_2 d Hd), (addLeadingZeros_2 m Hm), (addLeadingZeros_4 y Hy),
    (addLeadingZeros_2 h Hh), (addLeadingZeros_2 mi Hmi).
  destruct (digits_of_2 d Hd) as [? ?]. destruct (digits_of_2 m Hm) as [? ?].
  destruct (digits_of_4 y Hy) as (? & ? & ? & ?).
  destruct (digits_of_2 h Hh) as [? ?]. destruct (digits_of_2 mi Hmi) as [? ?].
  unfold parseNaive. cbn [append list_ascii_of_string].
  rewrite !number_2, number_4 by assumption.
  change (number ["0"%char; "0"%char]) with (Some 0).
  replace (1000 * (y / 1000) + 100 * (y / 100 mod 10) + 10 * (y / 10 mod 10) + y mod 10)
    with y by (Z.div_mod_to_equations; lia).
  replace (10 * (m / 10) + m mod 10) with m by (Z.div_mod_to_equations; lia).
  replace (10 * (d / 10) + d mod 10) with d by (Z.div_mod_to_equations; lia).
  replace (10 * (h / 10) + h mod 10) with h by (Z.div_mod_to_equations; lia).
  replace (10 * (mi / 10) + mi mod 10) with mi by (Z.div_mod_to_equations; lia).
  reflexivity.
Qed.

(** A string that matches the pattern of a date, or of a time, is the
    string of the numbers it stands for. *)
Lemma dateFields_inv (date : string) (y m d : Z) :
  dateFields date = Some (y, m, d) ->
  0 <= y <= 9999 /\ 0 <= m <= 99 /\ 0 <= d <= 99 /\ date = dateString y m d.
Proof.
  unfold dateFields, matchDate. intros H.
  rewrite <- (string_of_list_ascii_of_string date).
  set (l := list_ascii_of_string date) in *. clearbody l.
  repeat (match type of H with
          | context [match ?x with _ => _ end] => is_var x; destruct x
          end; try discriminate H).
  cbn [forallb] in H.
  repeat match type of H with
         | context [isDigit ?c] =>
             let E := fresh "D" in
             destruct (isDigit c) eqn:E; cbn [andb] in H; [| discriminate H]
         end.
  injection H as <- <- <-. cbn [string_of_list_ascii].
  match goal with
  | D1 : isDigit ?d1 = true, D2 : isDigit ?d2 = true, D3 : isDigit ?m1 = true,
    D4 : isDigit ?m2 = true, D5 : isDigit ?y1 = true, D6 : isDigit ?y2 = true,
    D7 : isDigit ?y3 = true, D8 : isDigit ?y4 = true
    |- context [parseDigits (String ?y1 (String ?y2 (String ?y3 (String ?y4 EmptyString))))] =>
      destruct (four_digits y1 y2 y3 y4 D5 D6 D7 D8) as [Ry Ey]
  end.
  repeat match goal with
  | D1 : isDigit ?c1 = true, D2 : isDigit ?c2 = true
    |- context [parseDigits (String ?c1 (String ?c2 EmptyString))] =>
      let R := fresh "R" in let E := fresh "E" in
      destruct (two_digits c1 c2 D1 D2) as [R E];
      revert R E;
      generalize (parseDigits (String c1 (String c2 EmptyString)));
      intros ? R E
  end.
  revert Ry Ey.
  match goal with
  | |- context [parseDigits ?s] => generalize (parseDigits s)
  end.
  intros yy Ry Ey.
  repeat split; try lia. unfold dateString.
  repeat match goal with E : addLeadingZeros _ _ = _ |- _ => rewrite E; clear E end.
  reflexivity.
Qed.

Lemma timeFields_inv (time : string) (h mi : Z) :
  timeFields time = Some (h, mi) ->
  0 <= h <= 99 /\ 0 <= mi <= 99 /\ time = timeString h mi.
Proof.
  unfold timeFields, matchTime. intros H.
  rewrite <- (string_of_list_ascii_of_string time).
  set (l := list_ascii_of_string time) in *. clearbody l.
  repeat (match type of H with
          | context [match ?x with _ => _ end] => is_var x; destruct x
          end; try discriminate H).
  cbn [forallb] in H.
  repeat match type of H with
         | context [isDigit ?c] =>
             let E := fresh "D" in
             destruct (isDigit c) eqn:E; cbn [andb] in H; [| discriminate H]
         end.
  injection H as <- <-. cbn [string_of_list_ascii].
  repeat match goal with
  | D1 : isDigit ?c1 = true, D2 : isDigit ?c2 = true
    |- context [parseDigits (String ?c1 (String ?c2 EmptyString))] =>
      let R := fresh "R" in let E := fresh "E" in
      destruct (two_digits c1 c2 D1 D2) as [R E];
      revert R E;
      generalize (parseDigits (String c1 (String c2 EmptyString)));
      intros ? R E
  end.
  repeat split; try lia. unfold timeString.
  repeat match goal with E : addLeadingZeros _ _ = _ |- _ => rewrite E; clear E end.
  reflexivity.
Qed.

Lemma validDate_bounds (y m d : Z) :
  validDate y m d = true ->
  0 <= m - 1 <= 11 /\ 1 <= d <= DaysInMonth (isLeapYear y) (m - 1) /\ d <= 31.
Proof.
  unfold validDate. intros H.
  apply andb_prop in H as [H H4]. apply andb_prop in H as [H H3].
  apply andb_prop in H as [H1 H2].
  apply Z.leb_le in H1, H2, H3, H4.
  assert (DaysInMonth (isLeapYear y) (m - 1) <= 31).
  { unfold DaysInMonth. destruct (m - 1) as [| [ | | ] | ]; try lia;
      repeat match goal with
      | |- context [match ?p with _ => _ end] => destruct p; try lia
      end. }
  lia.
Qed.

Lemma validTime_bounds (h mi : Z) :
  validTime h mi = true -> 0 <= h <= 23 /\ 0 <= mi <= 59.
Proof.
  unfold validTime. intros H.
  apply andb_prop in H as [H H4]. apply andb_prop in H as [H H3].
  apply andb_prop in H as [H1 H2].
  apply Z.leb_le in H1, H2, H3, H4. lia.
Qed.

Lemma TimeFromYear_range (y : Z) :
  0 <= y <= 10000 -> -62167219200000 <= TimeFromYear y <= 253402300800000.
Proof.
  intros H. unfold TimeFromYear.
  pose proof (DayFromYear_mono 0 y) as H0. pose proof (DayFromYear_mono y 10000) as H1.
  change (DayFromYear 0) with (-719528) in H0.
  change (DayFromYear 10000) with 2932897 in H1.
  unfold msPerDay. lia.
Qed.

(** What the date and the time of a request resolve to, by their
    numbers: nothing when the library finds a field out of its range, and
    otherwise the instant the library makes of the reading, with the hour
    24 read as the hour 0 of the same day. *)
Lemma resolveInstant_fields (y m d h mi : Z) :
  0 <= y <= 9999 -> 0 <= m <= 99 -> 0 <= d <= 99 -> 0 <= h <= 99 -> 0 <= mi <= 99 ->
  resolveInstant (dateString y m d) (timeString h mi)
  = if validDate y m d && (h <? 25) && (mi <? 60)
    then match tzParseTimezone "America/Los_Angeles" (reading y m d (h mod 24) mi) with
         | Some offset => TimeClip (reading y m d (h mod 24) mi + offset)
         | None => None
         end
    else None.
Proof.
  intros Hy Hm Hd Hh Hmi. unfold resolveInstant.
  rewrite matchDate_dateString, matchTime_timeString by lia.
  unfold pacificDate, zonedTimeToUtc. rewrite parseNaive_fields by lia.
  replace (validateDate y (m - 1) d && validateTime h mi 0)
    with (validDate y m d && (h <? 25) && (mi <? 60)).
  2:{ unfold validateDate, validateTime, validDate.
      replace (0 <=? m - 1) with (1 <=? m)
        by (destruct (Z.leb_spec 1 m); destruct (Z.leb_spec 0 (m - 1)); lia || reflexivity).
      replace (m - 1 <=? 11) with (m <=? 12)
        by (destruct (Z.leb_spec m 12); destruct (Z.leb_spec (m - 1) 11);
            lia || reflexivity).
      change (0 <? 60) with true. rewrite andb_true_r, !andb_assoc. reflexivity. }
  replace (MakeDate (MakeDay y (m - 1) d) 0
           + (h mod 24 * msPerHour + mi * msPerMinute + 0 * 1000))
    with (reading y m d (h mod 24) mi)
    by (unfold reading, MakeDate, MakeTime, msPerSecond; lia).
  destruct (validDate y m d && (h <? 25) && (mi <? 60)); reflexivity.
Qed.

(** The reading of a valid date and time resolves to the earliest instant
    whose wall clock in the zone shows it, and that instant is formatted
    as the date and the time; unless no instant shows the reading, which
    is then of one of the hours 1 to 3. *)
Lemma resolveInstant_round_trip (y m d h mi : Z) :
  1 <= y <= 9999 ->
  validDate y m d = true ->
  validTime h mi = true ->
  exists t,
    resolveInstant (dateString y m d) (timeString h mi) = Some t
    /\ -62167219200000 <= t <= 253402329600000
    /\ ((wallClockShows t y m d h mi
         /\ (forall t', wallClockShows t' y m d h mi -> t <= t')
         /\ formatInTimeZone (Some t) "America/Los_Angeles" "dd-MM-yyyy"
            = Normal (dateString y m d)
         /\ formatInTimeZone (Some t) "America/Los_Angeles" "HH:mm"
            = Normal (timeString h mi))
        \/ ((forall t', ~ wallClockShows t' y m d h mi) /\ 1 <= h <= 3)).
Proof.
  intros Hy Hdate Htime.
  destruct (validDate_bounds y m d Hdate) as (Hm & Hd & Hd31).
  destruct (validTime_bounds h mi Htime) as (Hh & Hmi).
  unfold wallClockShows.
  set (L := reading y m d h mi).
  destruct (clock_of_time (MakeDay y (m - 1) d) h mi 0 0) as (Eh & Emi & Es & Ems & Ht);
    try lia. fold (reading y m d h mi) in Eh, Emi, Es, Ems. fold L in Eh, Emi, Es, Ems.
  destruct (fields_of_date y (m - 1) d (MakeTime h mi 0 0) Hm Hd Ht) as (EY & EM & ED).
  fold (reading y m d h mi) in EY, EM, ED. fold L in EY, EM, ED.
  pose proof (YearFromTime_bounds L) as HL. rewrite EY in HL.
  destruct (tzParseTimezone_pacific L) as (o & Hparse & Ho & Hcase).
  pose proof (TimeFromYear_range y) as R0. pose proof (TimeFromYear_range (y + 1)) as R1.
  assert (Hres : resolveInstant (dateString y m d) (timeString h mi) = Some (L - o)).
  { rewrite resolveInstant_fields by lia. rewrite Hdate.
    replace (h <? 25) with true by (symmetry; apply Z.ltb_lt; lia).
    replace (mi <? 60) with true by (symmetry; apply Z.ltb_lt; lia).
    cbn [andb]. replace (h mod 24) with h by (Z.div_mod_to_equations; lia).
    fold L. rewrite Hparse. unfold TimeClip.
    replace (Z.abs (L + - o) <=? 8640000000000000) with true.
    2:{ symmetry. apply Z.leb_le. unfold msPerHour in *. lia. }
    f_equal; lia. }
  exists (L - o). split; [exact Hres|].
  split; [unfold msPerHour in *; lia|].
  destruct Hcase as [[Hoff Hmin] | [Hnone Htod]].
  - left. rewrite Hoff. replace (L - o + o) with L by lia. split; [reflexivity|].
    split; [exact Hmin|].
    rewrite formatInTimeZone_date, formatInTimeZone_time, Hoff.
    replace (L - o + o) with L by lia.
    rewrite EY, EM, ED, Eh, Emi. cbv zeta.
    replace (0 <? y) with true by (symmetry; apply Z.ltb_lt; lia).
    replace (m - 1 + 1) with m by lia. split; reflexivity.
  - right. split; [exact Hnone|].
    subst L. unfold reading, MakeDate, MakeTime in Htod.
    unfold msPerHour, msPerMinute, msPerSecond, msPerDay in *.
    Z.div_mod_to_equations. lia.
Qed.

End RoundTripFacts.

(* ------------------------------------------------------------------ *)
(** ** The ISO string passed from the handler to the stages *)

Section IsoFacts.

Import JsString Ecma.

(** [new Date(d.toISOString())] is [d], for the instants of the years 0
    to 10000. *)
Lemma iso_round_trip (t : Z) :
  TimeFromYear 0 <= t < TimeFromYear 10001 ->
  exists iso, toISOString (Some t) = Normal iso /\ newDateFromString iso = Some t.
Proof.
  intros Ht. eexists. split; [reflexivity|].
  destruct (date_of_fields t) as (Hm & Hd & HD).
  destruct (time_of_fields t) as (Hh & Hmi & Hs & Hms & HT).
  pose proof (MakeDate_Day t) as Hback.
  assert (Hd31 : DateFromTime t <= 31).
  { revert Hd. unfold DaysInMonth.
    destruct (MonthFromTime t) as [| [ | | ] | ]; try lia;
      repeat match goal with
      | |- context [match ?p with _ => _ end] => destruct p; try lia
      end. }
  assert (HY : 0 <= YearFromTime t <= 10000).
  { pose proof (YearFromTime_bounds t) as B.
    destruct (Z_lt_ge_dec (YearFromTime t) 0) as [Hneg | Hpos].
    - pose proof (DayFromYear_mono (YearFromTime t + 1) 0 ltac:(lia)) as M.
      unfold TimeFromYear, msPerDay in *. lia.
    - destruct (Z_le_gt_dec (YearFromTime t) 10000) as [Hle | Hgt]; [lia|].
      pose proof (DayFromYear_mono 10001 (YearFromTime t) ltac:(lia)) as M.
      unfold TimeFromYear, msPerDay in *. lia. }
  assert (Hclip : TimeClip t = Some t).
  { unfold TimeClip. replace (Z.abs t <=? 8640000000000000) with true; [reflexivity|].
    symmetry. apply Z.leb_le.
    assert (E0 : TimeFromYear 0 = -62167219200000) by reflexivity.
    assert (E1 : TimeFromYear 10001 = 253433923200000) by reflexivity.
    lia. }
  rewrite (addLeadingZeros_2 (MonthFromTime t + 1)), (addLeadingZeros_2 (DateFromTime t)),
    (addLeadingZeros_2 (HourFromTime t)), (addLeadingZeros_2 (MinFromTime t)),
    (addLeadingZeros_2 (SecFromTime t)), (addLeadingZeros_3 (msFromTime t)) by lia.
  destruct (digits_of_2 (MonthFromTime t + 1)) as [? ?]; [lia|].
  destruct (digits_of_2 (DateFromTime t)) as [? ?]; [lia|].
  destruct (digits_of_2 (HourFromTime t)) as [? ?]; [lia|].
  destruct (digits_of_2 (MinFromTime t)) as [? ?]; [lia|].
  destruct (digits_of_2 (SecFromTime t)) as [? ?]; [lia|].
  assert (0 <= msFromTime t / 100 <= 9 /\ 0 <= msFromTime t / 10 mod 10 <= 9
          /\ 0 <= msFromTime t mod 10 <= 9) as (? & ? & ?)
    by (Z.div_mod_to_equations; lia).
  assert (Hfields :
    dateValue (YearFromTime t)
      (10 * ((MonthFromTime t + 1) / 10) + (MonthFromTime t + 1) mod 10)
      (10 * (DateFromTime t / 10) + DateFromTime t mod 10)
      (10 * (HourFromTime t / 10) + HourFromTime t mod 10)
      (10 * (MinFromTime t / 10) + MinFromTime t mod 10)
      (10 * (SecFromTime t / 10) + SecFromTime t mod 10)
      (100 * (msFromTime t / 100) + 10 * (msFromTime t / 10 mod 10)
       + msFromTime t mod 10) 0
    = Some t).
  { replace (10 * ((MonthFromTime t + 1) / 10) + (MonthFromTime t + 1) mod 10)
      with (MonthFromTime t + 1) by (Z.div_mod_to_equations; lia).
    replace (10 * (DateFromTime t / 10) + DateFromTime t mod 10)
      with (DateFromTime t) by (Z.div_mod_to_equations; lia).
    replace (10 * (HourFromTime t / 10) + HourFromTime t mod 10)
      with (HourFromTime t) by (Z.div_mod_to_equations; lia).
    replace (10 * (MinFromTime t / 10) + MinFromTime t mod 10)
      with (MinFromTime t) by (Z.div_mod_to_equations; lia).
    replace (10 * (SecFromTime t / 10) + SecFromTime t mod 10)
      with (SecFromTime t) by (Z.div_mod_to_equations; lia).
    replace (100 * (msFromTime t / 100) + 10 * (msFromTime t / 10 mod 10)
             + msFromTime t mod 10)
      with (msFromTime t) by (Z.div_mod_to_equations; lia).
    unfold dateValue.
    replace ((1 <=? MonthFromTime t + 1) && (MonthFromTime t + 1 <=? 12)
             && (1 <=? DateFromTime t) && (DateFromTime t <=? 31)
             && ((HourFromTime t <=? 23)
                 || (HourFromTime t =? 24) && (MinFromTime t =? 0)
                    && (SecFromTime t =? 0) && (msFromTime t =? 0))
             && (MinFromTime t <=? 59) && (SecFromTime t <=? 59)) with true.
    2:{ symmetry. replace (HourFromTime t <=? 23) with true
          by (symmetry; apply Z.leb_le; lia).
        cbn [orb]. repeat (apply andb_true_intro; split); try reflexivity;
          apply Z.leb_le; lia. }
    replace (MonthFromTime t + 1 - 1) with (MonthFromTime t) by lia.
    rewrite HD, HT, Hback. rewrite Z.mul_0_l, Z.sub_0_r. exact Hclip. }
  unfold isoYear.
  destruct (Z_le_gt_dec (YearFromTime t) 9999) as [Hle | Hgt].
  - replace ((0 <=? YearFromTime t) && (YearFromTime t <=? 9999)) with true.
    2:{ symmetry. apply andb_true_intro. split; apply Z.leb_le; lia. }
    rewrite (addLeadingZeros_4 (YearFromTime t)) by lia.
    destruct (digits_of_4 (YearFromTime t)) as (? & ? & ? & ?); [lia|].
    unfold newDateFromString, parseYear, parseDatePart, parseTime, parseOffset, takeNumber.
    cbn [append list_ascii_of_string].
    repeat (cbn [firstn skipn List.length Nat.eqb];
            rewrite ?number_2, ?number_3, ?number_4 by assumption).
    replace (1000 * (YearFromTime t / 1000) + 100 * (YearFromTime t / 100 mod 10)
             + 10 * (YearFromTime t / 10 mod 10) + YearFromTime t mod 10)
      with (YearFromTime t) by (Z.div_mod_to_equations; lia).
    exact Hfields.
  - assert (EY : YearFromTime t = 10000) by lia. rewrite EY in *.
    change ((0 <=? 10000) && (10000 <=? 9999)) with false.
    change (append (if 10000 <? 0 then "-" else "+") (fixedDigits 6 (Z.abs 10000)))
      with "+010000"%string.
    unfold newDateFromString, parseYear, parseDatePart, parseTime, parseOffset, takeNumber.
    cbn [append list_ascii_of_string].
    cbn [firstn skipn List.length Nat.eqb].
    change (number ["+"; "0"; "1"; "0"]%char) with (@None Z).
    change (Ascii.eqb "+" "+") with true.
    change (number ["0"; "1"; "0"; "0"; "0"; "0"]%char) with (Some 10000).
    repeat (cbn [firstn skipn List.length Nat.eqb];
            rewrite ?number_2, ?number_3, ?number_4 by assumption).
    exact Hfields.
Qed.

End IsoFacts.

(* ------------------------------------------------------------------ *)
(** ** Claims about time resolution *)

Section TimeClaims.

Import JsString Ecma DateFnsTz Runtime Observe ApyHub SendGrid Slack Index Examples.

(** A request with an address and a date and a time that resolve. *)
Lemma resolveBooking_resolves (method pathname address date time : string) (w : World)
    (instant : Z) :
  truthy address = true ->
  resolveInstant date time = Some instant ->
  exists trace l iso,
    toISOString (Some instant) = Normal iso
    /\ resolveBooking {| method := method; pathname := pathname;
                         json := Normal (Obj (Str address) (Str date) (Str time)) |}
                      w initialLocals
       = (trace, l,
          Normal {| name := orElse (splitHead "@" address) "Valued Candidate";
                    email := address;
                    ApyHub.startTimeISO := iso |}).
Proof.
  intros Ha Hres. unfold resolveInstant in Hres.
  destruct (matchDate date) as [[[day month] year] |] eqn:Hd; [| discriminate].
  destruct (matchTime time) as [[hour minute] |] eqn:Ht; [| discriminate].
  assert (Hdt : truthy date = true) by (destruct date; [discriminate | reflexivity]).
  assert (Htt : truthy time = true) by (destruct time; [discriminate | reflexivity]).
  unfold resolveBooking, setInputData, setBookingDataForSlack, splitAt, matchField.
  run_monad. cbn [json truthyField]. rewrite Ha, Hdt, Htt. cbn [negb orb].
  rewrite Hd, Ht, Hres. cbn [getTime isNaN].
  eexists _, _, _. split; reflexivity.
Qed.

Lemma inviteBody_functional (details : BookingDetails) (b1 b2 : list (string * Json)) :
  inviteBody details b1 -> inviteBody details b2 -> b1 = b2.
Proof.
  intros (s1 & md1 & st1 & et1 & H1 & A1 & B1 & C1 & ->)
         (s2 & md2 & st2 & et2 & H2 & A2 & B2 & C2 & ->).
  rewrite H1 in H2. injection H2 as <-. congruence.
Qed.

(** Once the booking is resolved and its invite request can be built, the
    request is the first call of the run. *)
Lemma run_reaches_invite (w : World) (env : Env) (request : Request)
    (t1 : list Event) (l1 : Locals) (details : BookingDetails) (body : list (string * Json)) :
  resolveBooking request w initialLocals = (t1, l1, Normal details) ->
  inviteBody details body ->
  exists trace resp rest,
    run w request env = (trace, resp)
    /\ calls trace = invitePost (APY_TOKEN env) body :: rest.
Proof.
  intros HR Hb.
  destruct (run_outcome request env w) as (t1' & l1' & r1 & HR' & _ & H).
  rewrite HR in HR'. injection HR' as <- <- <-.
  destruct H as (p & t & Hex & Hrun & _ & Hcalls).
  exists t. eexists. 
  destruct p as [e | body' e | body' e | body' msg e | body' msg payload];
    cbn [explains] in Hex.
  - exfalso. exact (Hex body Hb).
  - destruct Hex as (Hb' & _). rewrite (inviteBody_functional _ _ _ Hb Hb').
    eexists. split; [exact Hrun|]. rewrite Hcalls. reflexivity.
  - destruct Hex as (Hb' & _). rewrite (inviteBody_functional _ _ _ Hb Hb').
    eexists. split; [exact Hrun|]. rewrite Hcalls. reflexivity.
  - destruct Hex as (Hb' & _). rewrite (inviteBody_functional _ _ _ Hb Hb').
    eexists. split; [exact Hrun|]. rewrite Hcalls. reflexivity.
  - destruct Hex as (Hb' & _). rewrite (inviteBody_functional _ _ _ Hb Hb').
    eexists. split; [exact Hrun|]. rewrite Hcalls. reflexivity.
Qed.


(** A request whose date and time resolve to an instant of the years 0 to
    10000 reaches the invite generator, with the date and the time of the
    wall clock at that instant in its request. *)
Lemma resolved_reaches_invite (w : World) (env : Env) (address date time : string) (t : Z)
    (meetingDate startTime : string) :
  truthy address = true ->
  resolveInstant date time = Some t ->
  -62167219200000 <= t <= 253402329600000 ->
  formatInTimeZone (Some t) "America/Los_Angeles" "dd-MM-yyyy" = Normal meetingDate ->
  formatInTimeZone (Some t) "America/Los_Angeles" "HH:mm" = Normal startTime ->
  exists trace resp body rest,
    run w (booking address date time) env = (trace, resp)
    /\ calls trace = invitePost (APY_TOKEN env) body :: rest
    /\ field "time_zone" body = Some (JString "America/Los_Angeles")
    /\ field "meeting_date" body = Some (JString meetingDate)
    /\ field "start_time" body = Some (JString startTime).
Proof.
  intros Ha Hres Hrange Hfd Hft.
  destruct (resolveBooking_resolves "POST" "/book-email" address _ _ w t Ha Hres)
    as (t1 & l1 & iso & Hiso & HR).
  assert (E0 : TimeFromYear 0 = -62167219200000) by reflexivity.
  assert (E1 : TimeFromYear 10001 = 253433923200000) by reflexivity.
  destruct (iso_round_trip t ltac:(lia)) as (iso' & Hiso' & Hback).
  rewrite Hiso in Hiso'. injection Hiso' as <-.
  assert (Hend : newDate (Some (t + 30 * 60 * 1000)) = Some (t + 30 * 60 * 1000)).
  { unfold newDate, TimeClip.
    replace (Z.abs (t + 30 * 60 * 1000) <=? 8640000000000000) with true; [reflexivity|].
    symmetry. apply Z.leb_le. lia. }
  set (details := {| name := orElse (splitHead "@" address) "Valued Candidate";
                     email := address; ApyHub.startTimeISO := iso |}) in *.
  assert (Hbody : inviteBody details
            (requestBody details "America/Los_Angeles" meetingDate startTime
               (addLeadingZeros (HourFromTime (t + 30 * 60 * 1000
                                               + pacificOffset (t + 30 * 60 * 1000))) 2
                ++ ":" ++
                addLeadingZeros (MinFromTime (t + 30 * 60 * 1000
                                              + pacificOffset (t + 30 * 60 * 1000))) 2))).
  { exists t. do 3 eexists. split; [exact Hback|]. split; [exact Hfd|].
    split; [exact Hft|]. rewrite Hend. split; [apply formatInTimeZone_time | reflexivity]. }
  destruct (run_reaches_invite w env _ t1 l1 details _ HR Hbody)
    as (trace & resp & rest & Hrun & Hcalls).
  exists trace, resp. eexists. exists rest.
  split; [exact Hrun|]. split; [exact Hcalls|]. repeat split.
Qed.

(** Since 2007 the offset of the earliest instant that shows a reading is
    the one of the rule in force: seven hours for a reading of daylight
    saving time, eight hours otherwise. *)
Lemma offset_by_the_rule (y m d h mi t : Z) :
  2007 <= y ->
  validDate y m d = true ->
  validTime h mi = true ->
  wallClockShows t y m d h mi ->
  (forall t', wallClockShows t' y m d h mi -> t <= t') ->
  pacificOffset t
  = if daylightTime y m d h then - (7 * msPerHour) else - (8 * msPerHour).
Proof.
  intros Hy Hdate Htime Hshow Hmin. unfold wallClockShows in *.
  destruct (validDate_bounds y m d Hdate) as (Hm & Hd & Hd31).
  destruct (validTime_bounds h mi Htime) as (Hh & Hmi).
  set (L := reading y m d h mi) in *.
  destruct (clock_of_time (MakeDay y (m - 1) d) h mi 0 0) as (_ & _ & _ & _ & Ht);
    try lia.
  destruct (fields_of_date y (m - 1) d (MakeTime h mi 0 0) Hm Hd Ht) as (EY & _ & _).
  fold (reading y m d h mi) in EY. fold L in EY.
  pose proof (YearFromTime_bounds L) as HL. rewrite EY in HL.
  pose proof (pacificOffset_range t) as [R _].
  pose proof (dstStart_bounds y) as S0. pose proof (dstEnd_bounds y) as E0.
  pose proof (TimeFromYear_step y) as Y0.
  assert (K : forall u, TimeFromYear y <= u < TimeFromYear (y + 1) + 8 * msPerHour ->
              pacificOffset u
              = if (dstStart y <=? u) && (u <? dstEnd y)
                then - (7 * msPerHour) else - (8 * msPerHour))
    by (intros u Hu; now apply pacificOffset_since_2007).
  pose proof (K t ltac:(unfold msPerHour in *; lia)) as Kt.
  pose proof (K (L + 7 * msPerHour) ltac:(unfold msPerHour in *; lia)) as K7.
  pose proof (Hmin (L + 7 * msPerHour)) as M7.
  assert (EL : L = MakeDay y (m - 1) d * msPerDay + h * msPerHour + mi * msPerMinute)
    by (unfold L, reading, MakeDate, MakeTime, msPerSecond; lia).
  unfold daylightTime, dstStart, dstEnd, MakeDate in *. cbv zeta in *.
  set (D := MakeDay y (m - 1) d) in *.
  set (first := firstSundayOnOrAfter (MakeDay y 2 8)) in *.
  set (last := firstSundayOnOrAfter (MakeDay y 10 1)) in *.
  unfold msPerHour, msPerDay, msPerMinute in *.
  destruct (Z.leb_spec (first * 86400000 + 10 * 3600000) t);
    destruct (Z.ltb_spec t (last * 86400000 + 9 * 3600000));
    cbn [andb] in Kt;
    destruct (Z.leb_spec (first * 86400000 + 10 * 3600000) (L + 7 * 3600000));
    destruct (Z.ltb_spec (L + 7 * 3600000) (last * 86400000 + 9 * 3600000));
    cbn [andb] in K7;
    destruct (Z.ltb_spec first D); destruct (Z.eqb_spec D first);
    destruct (Z.leb_spec 3 h); destruct (Z.ltb_spec D last);
    destruct (Z.eqb_spec D last); destruct (Z.ltb_spec h 2);
    cbn [andb orb]; try exact Kt; exfalso; lia.
Qed.

(** Since 2007 the readings that no instant shows are those of the hour
    02 on the second Sunday of March. *)
Lemma shown_unless_skipped (y m d h mi : Z) :
  2007 <= y ->
  validDate y m d = true ->
  validTime h mi = true ->
  (exists t0, wallClockShows t0 y m d h mi) <-> skippedBySpringForward y m d h = false.
Proof.
  intros Hy Hdate Htime. unfold wallClockShows.
  destruct (validDate_bounds y m d Hdate) as (Hm & Hd & Hd31).
  destruct (validTime_bounds h mi Htime) as (Hh & Hmi).
  set (L := reading y m d h mi) in *.
  destruct (clock_of_time (MakeDay y (m - 1) d) h mi 0 0) as (_ & _ & _ & _ & Ht);
    try lia.
  destruct (fields_of_date y (m - 1) d (MakeTime h mi 0 0) Hm Hd Ht) as (EY & _ & _).
  fold (reading y m d h mi) in EY. fold L in EY.
  pose proof (YearFromTime_bounds L) as HL. rewrite EY in HL.
  pose proof (dstStart_bounds y) as S0. pose proof (dstEnd_bounds y) as E0.
  pose proof (TimeFromYear_step y) as Y0.
  assert (EL : L = MakeDay y (m - 1) d * msPerDay + h * msPerHour + mi * msPerMinute)
    by (unfold L, reading, MakeDate, MakeTime, msPerSecond; lia).
  assert (ES : dstStart y
               = firstSundayOnOrAfter (MakeDay y 2 8) * msPerDay + 10 * msPerHour)
    by reflexivity.
  unfold skippedBySpringForward.
  set (D := MakeDay y (m - 1) d) in *.
  set (first := firstSundayOnOrAfter (MakeDay y 2 8)) in *.
  split.
  - intros [t Hshow].
    destruct (Z.eqb_spec D first) as [ED |]; [| reflexivity].
    destruct (Z.eqb_spec h 2) as [-> |]; [| reflexivity]. exfalso.
    apply (wall_clock_skips_an_hour t); cbv zeta; rewrite Hshow, EY; [exact Hy|].
    unfold msPerDay, msPerHour, msPerMinute in *. lia.
  - intros Hskip.
    assert (K : forall u, TimeFromYear y <= u < TimeFromYear (y + 1) + 8 * msPerHour ->
                pacificOffset u
                = if (dstStart y <=? u) && (u <? dstEnd y)
                  then - (7 * msPerHour) else - (8 * msPerHour))
      by (intros u Hu; now apply pacificOffset_since_2007).
    pose proof (K (L + 7 * msPerHour) ltac:(unfold msPerHour in *; lia)) as K7.
    pose proof (K (L + 8 * msPerHour) ltac:(unfold msPerHour in *; lia)) as K8.
    destruct (Z.leb_spec (dstStart y) (L + 7 * msPerHour));
      destruct (Z.ltb_spec (L + 7 * msPerHour) (dstEnd y)); cbn [andb] in K7;
      try (exists (L + 7 * msPerHour); rewrite K7; lia).
    + exists (L + 8 * msPerHour). rewrite K8.
      replace (L + 8 * msPerHour <? dstEnd y) with false
        by (symmetry; apply Z.ltb_ge; unfold msPerHour in *; lia).
      rewrite andb_false_r. lia.
    + exists (L + 8 * msPerHour). rewrite K8.
      replace (dstStart y <=? L + 8 * msPerHour) with false; [cbn [andb]; lia|].
      symmetry. apply Z.leb_gt.
      destruct (Z.eqb_spec D first); destruct (Z.eqb_spec h 2);
        try discriminate Hskip;
        unfold msPerDay, msPerHour, msPerMinute in *; lia.
Qed.

(** On 09-03-2025 the wall clock of America/Los_Angeles goes from 01:59
    to 03:00: no instant shows the hour 02, and the instant the reading
    02:30 resolves to is formatted as another time. *)
Lemma skipped_hour_is_never_shown :
  denotesRealDate "09-03-2025" = true
  /\ denotesRealTime "02:30" = true
  /\ (exists t,
        resolveInstant "09-03-2025" "02:30" = Some t
        /\ formatInTimeZone (Some t) "America/Los_Angeles" "HH:mm" <> Normal "02:30")
  /\ forall t, let l := t + pacificOffset t in
               ~ (YearFromTime l = 2025 /\ MonthFromTime l + 1 = 3
                  /\ DateFromTime l = 9 /\ HourFromTime l = 2).
Proof.
  split; [reflexivity|]. split; [reflexivity|]. split.
  - exists 1741512600000. split; [vm_compute; reflexivity|]. vm_compute. discriminate.
  - intros t l (EY & EM & ED & EH).
    apply (wall_clock_skips_an_hour t); fold l; rewrite EY; [lia|].
    assert (ES : dstStart 2025 = 1741514400000) by reflexivity. rewrite ES.
    destruct (date_of_fields l) as (_ & _ & HD).
    destruct (time_of_fields l) as (_ & Hmi & Hs & Hms & HT).
    pose proof (MakeDate_Day l) as Hl.
    replace (MonthFromTime l) with 2 in HD by lia. rewrite EY, ED in HD.
    change (MakeDay 2025 2 9) with 20156 in HD. rewrite <- HD, <- HT, EH in Hl.
    unfold MakeDate, MakeTime, msPerDay, msPerHour, msPerMinute, msPerSecond in *. lia.
Qed.

(** The year 0000, which the pattern of a date admits, is printed as the
    year 1 before the common era, [0001]. *)
Lemma year_zero_is_printed_as_year_one :
  denotesRealDate "21-05-0000" = true
  /\ exists t,
       resolveInstant "21-05-0000" "14:30" = Some t
       /\ wallClockShows t 0 5 21 14 30
       /\ formatInTimeZone (Some t) "America/Los_Angeles" "dd-MM-yyyy"
          = Normal "21-05-0001".
Proof.
  split; [reflexivity|]. exists (-62154956222000).
  repeat split; vm_compute; reflexivity.
Qed.

(** C1, as stated, fails, in two ways.  09-03-2025 and 02:30 are a valid
    date and a valid time, but the spring-forward transition skips the
    hour: no instant shows the reading, and the instant it resolves to is
    formatted as 01:30.  And 21-05-0000 is a valid date of the pattern,
    resolved to an instant whose wall clock shows it, but formatted as
    21-05-0001. *)
Lemma valid_readings_that_do_not_round_trip :
  (denotesRealDate "09-03-2025" = true
   /\ denotesRealTime "02:30" = true
   /\ (forall t, ~ wallClockShows t 2025 3 9 2 30)
   /\ exists t,
        resolveInstant "09-03-2025" "02:30" = Some t
        /\ formatInTimeZone (Some t) "America/Los_Angeles" "dd-MM-yyyy"
           = Normal "09-03-2025"
        /\ formatInTimeZone (Some t) "America/Los_Angeles" "HH:mm" = Normal "01:30")
  /\ (denotesRealDate "21-05-0000" = true
      /\ denotesRealTime "14:30" = true
      /\ exists t,
           resolveInstant "21-05-0000" "14:30" = Some t
           /\ wallClockShows t 0 5 21 14 30
           /\ formatInTimeZone (Some t) "America/Los_Angeles" "dd-MM-yyyy"
              = Normal "21-05-0001"
           /\ formatInTimeZone (Some t) "America/Los_Angeles" "HH:mm" = Normal "14:30").
Proof.
  split.
  - split; [reflexivity|]. split; [reflexivity|]. split.
    + intros t H. destruct skipped_hour_is_never_shown as (_ & _ & _ & Hno).
      apply (Hno t). cbv zeta. unfold wallClockShows in H. rewrite H.
      repeat split; vm_compute; reflexivity.
    + exists 1741512600000. repeat split; vm_compute; reflexivity.
  - split; [reflexivity|]. split; [reflexivity|].
    exists (-62154956222000). repeat split; vm_compute; reflexivity.
Qed.

(** C1, amended.  For every date DD-MM-YYYY of the years 0001 to 9999
    that is a day of the calendar and every time HH:MM of the day that
    the wall clock of America/Los_Angeles shows at some instant (every
    one but those of an hour that a forward transition skips), the two
    strings resolve to the earliest instant whose wall clock in the zone
    is the given date and time, by the offset the zone data give for that
    instant and no constant: under the rule in force since 2007, seven
    hours for a reading of daylight saving time and eight hours for one
    of standard time.  Formatting the instant in the zone with
    [dd-MM-yyyy] and [HH:mm] returns the original strings, and the
    handler sends them as [meeting_date] and [start_time] in the invite
    request, the instant having passed through its ISO string. *)
Theorem local_time_round_trip
    (date time : string) (y m d h mi : Z) (w : World) (env : Env) (address : string) :
  dateFields date = Some (y, m, d) ->
  timeFields time = Some (h, mi) ->
  validDate y m d = true ->
  validTime h mi = true ->
  1 <= y ->
  (exists t0, wallClockShows t0 y m d h mi) ->
  truthy address = true ->
  exists t,
    resolveInstant date time = Some t
    /\ wallClockShows t y m d h mi
    /\ (forall t', wallClockShows t' y m d h mi -> t <= t')
    /\ (2007 <= y ->
        pacificOffset t
        = if daylightTime y m d h then - (7 * msPerHour) else - (8 * msPerHour))
    /\ formatInTimeZone (Some t) "America/Los_Angeles" "dd-MM-yyyy" = Normal date
    /\ formatInTimeZone (Some t) "America/Los_Angeles" "HH:mm" = Normal time
    /\ exists trace resp body rest,
         run w (booking address date time) env = (trace, resp)
         /\ calls trace = invitePost (APY_TOKEN env) body :: rest
         /\ field "time_zone" body = Some (JString "America/Los_Angeles")
         /\ field "meeting_date" body = Some (JString date)
         /\ field "start_time" body = Some (JString time).
Proof.
  intros Hdf Htf Hdate Htime Hy [t0 Hshown] Ha.
  destruct (dateFields_inv date y m d Hdf) as (Ry & _ & _ & ->).
  destruct (timeFields_inv time h mi Htf) as (_ & _ & ->).
  destruct (resolveInstant_round_trip y m d h mi ltac:(lia) Hdate Htime)
    as (t & Hres & Hrange & [(Hwall & Hmin & Hfd & Hft) | [Hnone _]]);
    [| destruct (Hnone t0 Hshown)].
  exists t. split; [exact Hres|]. split; [exact Hwall|]. split; [exact Hmin|].
  split; [intros H7; now apply (offset_by_the_rule y m d h mi)|].
  split; [exact Hfd|]. split; [exact Hft|].
  exact (resolved_reaches_invite w env address _ _ t _ _ Ha Hres Hrange Hfd Hft).
Qed.

Lemma local_time_round_trip_witness :
  exists t,
    resolveInstant "21-05-2025" "14:30" = Some t
    /\ wallClockShows t 2025 5 21 14 30
    /\ (forall t', wallClockShows t' 2025 5 21 14 30 -> t <= t')
    /\ (2007 <= 2025 ->
        pacificOffset t
        = if daylightTime 2025 5 21 14 then - (7 * msPerHour) else - (8 * msPerHour))
    /\ formatInTimeZone (Some t) "America/Los_Angeles" "dd-MM-yyyy" = Normal "21-05-2025"
    /\ formatInTimeZone (Some t) "America/Los_Angeles" "HH:mm" = Normal "14:30"
    /\ exists trace resp body rest,
         run allUp (booking "a.b@x.com" "21-05-2025" "14:30") env = (trace, resp)
         /\ calls trace = invitePost (APY_TOKEN env) body :: rest
         /\ field "time_zone" body = Some (JString "America/Los_Angeles")
         /\ field "meeting_date" body = Some (JString "21-05-2025")
         /\ field "start_time" body = Some (JString "14:30").
Proof.
  apply (local_time_round_trip "21-05-2025" "14:30" 2025 5 21 14 30 allUp env "a.b@x.com").
  - reflexivity.
  - reflexivity.
  - reflexivity.
  - reflexivity.
  - lia.
  - exists 1747863000000. vm_compute. reflexivity.
  - reflexivity.
Defined.

(** The offsets of the zone all occur: the same reading is resolved with
    seven hours in May 2025 and with eight hours in January 2025; in
    March 2006, under the rule of that year, with eight hours where the
    rule in force since 2007 would give seven; and in 1850 by the local
    mean time. *)
Lemma offset_follows_the_date :
  resolveInstant "21-05-2025" "14:30" = Some (reading 2025 5 21 14 30 + 7 * msPerHour)
  /\ resolveInstant "21-01-2025" "14:30" = Some (reading 2025 1 21 14 30 + 8 * msPerHour)
  /\ resolveInstant "15-03-2006" "12:00" = Some (reading 2006 3 15 12 0 + 8 * msPerHour)
  /\ daylightTime 2006 3 15 12 = true
  /\ resolveInstant "21-05-1850" "14:30" = Some (reading 1850 5 21 14 30 - localMeanTime).
Proof. repeat split; vm_compute; reflexivity. Qed.

(** A reading of the hours 0 and 4 to 23 is never skipped. *)
Lemma hours_never_skipped (y m d h mi : Z) :
  1 <= y <= 9999 ->
  validDate y m d = true ->
  validTime h mi = true ->
  h = 0 \/ 4 <= h ->
  exists t0, wallClockShows t0 y m d h mi.
Proof.
  intros Hy Hdate Htime Hh.
  destruct (resolveInstant_round_trip y m d h mi Hy Hdate Htime)
    as (t & _ & _ & [(Hwall & _) | [_ H13]]); [eauto | lia].
Qed.




End TimeClaims.
(* ------------------------------------------------------------------ *)
(** ** The entry point of the worker (src/index.ts, [fetch]) *)

Section RouterProperties.

Import JsString Runtime Observe Index.

(** The status of a response of the handler. *)
Lemma run_status (request : Request) (env : Env) (w : World) :
  exists t resp,
    run w request env = (t, Normal resp)
    /\ (status resp = 200 \/ status resp = 500).
Proof.
  destruct (run_outcome request env w) as (t1 & l1 & [details | e] & _ & _ & H).
  - destruct H as (p & t & _ & Hrun & _). exists t. eexists. split; [exact Hrun|].
    destruct p; cbn; auto.
  - destruct H as (t & Hrun & _). exists t. eexists. split; [exact Hrun|]. cbn. auto.
Qed.

(** X1.  The worker answers every request and never throws.  A request that is
    no POST gets 405, whatever its path; a POST to another path than
    /book-email gets 404; neither makes an outbound call.  Only a POST to
    /book-email (the method and the path compared as they are, with no
    normalisation) reaches the handler, whose response, 200 or 500, is the
    worker's. *)
Theorem worker_answers_every_request (request : Request) (env : Env) (w : World) :
  exists t resp,
    worker_fetch request env w tt = (t, tt, Normal resp)
    /\ (method request <> "POST" ->
        resp = {| status := 405; contentType := None; body := Text "Method Not Allowed" |}
        /\ forallb isConsole t = true)
    /\ (method request = "POST" -> pathname request <> "/book-email" ->
        resp = {| status := 404; contentType := None; body := Text "Not Found" |}
        /\ forallb isConsole t = true)
    /\ (method request = "POST" -> pathname request = "/book-email" ->
        run w request env = (t, Normal resp))
    /\ In (status resp) [200; 404; 405; 500].
Proof.
  unfold worker_fetch.
  destruct (String.eqb (method request) "POST") eqn:Hm; cbn [negb].
  - apply String.eqb_eq in Hm.
    destruct (String.eqb (pathname request) "/book-email") eqn:Hp.
    + apply String.eqb_eq in Hp.
      destruct (run_status request env w) as (t & resp & Hrun & Hst).
      exists t, resp. unfold call. unfold run in Hrun |- *.
      destruct (handleBookEmail request env w initialLocals) as [[t' l'] r'].
      injection Hrun as -> ->.
      split; [reflexivity|]. split; [congruence|]. split; [congruence|].
      split; [reflexivity|]. cbn [In]. destruct Hst as [-> | ->]; auto.
    + apply String.eqb_neq in Hp.
      eexists _, _. split; [reflexivity|]. split; [congruence|].
      split; [intros _ _; split; reflexivity|]. split; [congruence|].
      cbn. auto.
  - apply String.eqb_neq in Hm.
    eexists _, _. split; [reflexivity|].
    split; [intros _; split; reflexivity|]. split; [congruence|]. split; [congruence|].
    cbn. auto.
Qed.

End RouterProperties.

(* ------------------------------------------------------------------ *)
(** ** Notification delivery, for every answer (src/utils/slack.ts) *)

Section SlackProperties.

Import JsString Runtime Observe Slack Examples.

Lemma substring_split (i k : nat) (s : string) :
  substring 0 (i + k) s = (substring 0 i s ++ substring i k s)%string.
Proof.
  revert s. induction i as [| i IH]; intros s.
  - cbn [Nat.add]. destruct k, s; reflexivity.
  - destruct s as [| c s]; [reflexivity|].
    cbn [Nat.add substring append]. now rewrite IH.
Qed.

Lemma substring_is_prefix (n : nat) (s : string) :
  exists rest, s = (substring 0 n s ++ rest)%string.
Proof.
  revert s. induction n as [| n IH]; intros s.
  - exists s. destruct s; reflexivity.
  - destruct s as [| c s]; [exists EmptyString; reflexivity|].
    destruct (IH s) as [rest H]. exists rest. cbn [substring append]. now rewrite <- H.
Qed.

Lemma substring_after (q needle rest : string) :
  substring (String.length q) (String.length needle) (q ++ needle ++ rest) = needle.
Proof.
  induction q as [| c q IH]; [| exact IH].
  cbn [String.length append]. induction needle as [| c needle IH]; cbn.
  - destruct rest; reflexivity.
  - now rewrite IH.
Qed.

Lemma substring_length (n : nat) (s : string) :
  (n <= String.length s)%nat -> String.length (substring 0 n s) = n.
Proof.
  revert s. induction n as [| n IH]; intros s H.
  - destruct s; reflexivity.
  - destruct s as [| c s]; cbn [String.length] in *; [lia|].
    cbn [substring String.length]. rewrite IH; lia.
Qed.

Lemma string_append_assoc (a b c : string) :
  ((a ++ b) ++ c)%string = (a ++ b ++ c)%string.
Proof. induction a as [| x a IH]; cbn; [reflexivity | now rewrite IH]. Qed.

Lemma string_append_length (a b : string) :
  String.length (a ++ b) = (String.length a + String.length b)%nat.
Proof. induction a as [| c a IH]; cbn; [reflexivity | now rewrite IH]. Qed.

(** [prefixThrough needle s] is the part of [s] up to the end of the
    first occurrence of [needle]. *)
Lemma prefixThrough_some (needle s p : string) :
  prefixThrough needle s = Some p ->
  exists q rest,
    s = (q ++ needle ++ rest)%string /\ p = (q ++ needle)%string
    /\ forall q' rest', s = (q' ++ needle ++ rest')%string ->
                        (String.length q <= String.length q')%nat.
Proof.
  unfold prefixThrough. destruct (index 0 needle s) as [i |] eqn:Hi; [| discriminate].
  intros [= <-].
  pose proof (index_correct1 _ _ _ _ Hi) as H1.
  pose proof (index_correct2 _ _ _ _ Hi) as H2.
  destruct (substring_is_prefix (i + String.length needle) s) as [rest Hrest].
  rewrite substring_split, H1 in Hrest.
  assert (Hlen : String.length (substring 0 i s) = i).
  { destruct (Nat.le_gt_cases i (String.length s)) as [Hle | Hgt];
      [now apply substring_length|].
    exfalso.
    assert (Hs : substring 0 i s = s).
    { clear - Hgt. revert s Hgt. induction i as [| i IH]; intros s Hgt; [lia|].
      destruct s as [| c s]; [reflexivity|]. cbn [String.length] in Hgt.
      cbn [substring]. rewrite IH; [reflexivity | lia]. }
    rewrite Hs in Hrest.
    apply (f_equal String.length) in Hrest. rewrite !string_append_length in Hrest.
    destruct needle as [| c needle].
    - apply index_correct1 in Hi as Hi'. destruct s; cbn in Hi; [|].
      + destruct i; [cbn in Hgt; lia | discriminate].
      + injection Hi as <-. lia.
    - cbn [String.length] in Hrest. lia. }
  exists (substring 0 i s), rest.
  split; [| split].
  - rewrite <- string_append_assoc. exact Hrest.
  - rewrite substring_split, H1. reflexivity.
  - intros q' rest' Hq'. rewrite Hlen.
    destruct (Nat.le_gt_cases i (String.length q')) as [Hle | Hgt]; [exact Hle|].
    exfalso. apply (H2 (String.length q')); [lia | exact Hgt |].
    rewrite Hq'. apply substring_after.
Qed.

Lemma prefixThrough_none (needle s : string) :
  needle <> EmptyString ->
  prefixThrough needle s = None ->
  forall q rest, s <> (q ++ needle ++ rest)%string.
Proof.
  unfold prefixThrough. intros Hn H q rest ->.
  destruct (index 0 needle (q ++ needle ++ rest)) as [i |] eqn:Hi; [discriminate|].
  apply (index_correct3 0 (String.length q) _ _ Hi Hn); [lia|].
  apply substring_after.
Qed.

(** X3.  The line [sendSlackMessage] logs before a delivery shows the URL up
    to the end of its first [services/] and nothing of what follows; a URL
    without [services/] is not shown at all. *)
Theorem delivery_log_masks_the_url {S : Type} (url : string) (payload : SlackMessagePayload)
    (w : World) (s : S) :
  truthy url = true ->
  exists shown rest,
    fst (fst (sendSlackMessage (Some url) payload w s))
      = Console LLog ("Sending Slack message to: " ++ shown) :: rest
    /\ ((exists q secret,
           url = (q ++ "services/" ++ secret)%string
           /\ shown = (q ++ "services/" ++ "...")%string
           /\ forall q' secret', url = (q' ++ "services/" ++ secret')%string ->
                                 (String.length q <= String.length q')%nat)
        \/ ((forall q secret, url <> (q ++ "services/" ++ secret)%string)
            /\ shown = "Invalid Slack URL")).
Proof.
  intros Hurl. destruct url as [| c url]; [discriminate|].
  unfold sendSlackMessage.
  destruct (prefixThrough "services/" (String c url)) as [p |] eqn:Hp.
  - destruct (prefixThrough_some _ _ _ Hp) as (q & secret & Hs & -> & Hmin).
    exists ((q ++ "services/") ++ "...")%string.
    unfold bind at 1. unfold console at 1, emit.
    match goal with
    | |- context [tryCatch ?m ?h w s] => destruct (tryCatch m h w s) as [[t2 s2] r2]
    end.
    eexists. split; [reflexivity|]. left. exists q, secret.
    split; [exact Hs|]. split; [now rewrite string_append_assoc | exact Hmin].
  - exists "Invalid Slack URL".
    unfold bind at 1. unfold console at 1, emit.
    match goal with
    | |- context [tryCatch ?m ?h w s] => destruct (tryCatch m h w s) as [[t2 s2] r2]
    end.
    eexists. split; [reflexivity|]. right. split; [| reflexivity].
    apply prefixThrough_none; [discriminate | exact Hp].
Qed.

Lemma delivery_log_masks_the_url_witness :
  truthy bookingsUrl = true
  /\ exists shown rest,
       fst (fst (sendSlackMessage (S := unit) (Some bookingsUrl) hello allUp tt))
         = Console LLog ("Sending Slack message to: " ++ shown) :: rest
       /\ ((exists q secret,
              bookingsUrl = (q ++ "services/" ++ secret)%string
              /\ shown = (q ++ "services/" ++ "...")%string
              /\ forall q' secret', bookingsUrl = (q' ++ "services/" ++ secret')%string ->
                                    (String.length q <= String.length q')%nat)
           \/ ((forall q secret, bookingsUrl <> (q ++ "services/" ++ secret)%string)
               /\ shown = "Invalid Slack URL")).
Proof.
  split; [reflexivity|].
  apply (delivery_log_masks_the_url bookingsUrl hello allUp tt). reflexivity.
Defined.

(** X2.  A delivery completes with a boolean for every answer of the world: it
    never throws, and makes exactly one POST, of the payload as given and
    with no header but the content type, when the URL is not empty, and
    none otherwise.  Nothing is retried and nothing is detached. *)
Theorem delivery_always_completes {S : Type} (url : option string) (payload : SlackMessagePayload)
    (w : World) (s : S) :
  exists t b,
    sendSlackMessage url payload w s = (t, s, Normal b)
    /\ calls t = notification url payload
    /\ forallb (fun ev => isConsole ev || isNotification ev) t = true.
Proof.
  destruct (configured url) eqn:Hc.
  - destruct url as [url |]; [| discriminate]. cbn [configured] in Hc.
    destruct url as [| c url]; [discriminate|].
    unfold sendSlackMessage, notification, slackPost. run_monad. cbn [truthy].
    repeat (destruct_scrutinee; cbv beta iota; cbn [negb]);
      (eexists _, _; split; [reflexivity|]; split; reflexivity).
  - destruct (sendSlackMessage_unconfigured url payload w s Hc) as [msg ->].
    eexists _, _. split; [reflexivity|]. split; [| reflexivity].
    destruct url as [[| c url] |]; try discriminate; reflexivity.
Qed.

End SlackProperties.

(* ------------------------------------------------------------------ *)
(** ** Invite generation and email dispatch, for every answer *)

Section StageProperties.

Import JsString Ecma DateFnsTz Runtime Observe ApyHub SendGrid Examples Content.

(** The sample booking and its invite request. *)
Lemma sampleInvite_body : inviteBody sampleBooking sampleInvite.
Proof.
  exists 1747863000000, "21-05-2025", "14:30", "15:00".
  repeat split; vm_compute; reflexivity.
Qed.

Lemma invitePost_inj (apiToken : string) (b1 b2 : list (string * Json)) :
  invitePost apiToken b1 = invitePost apiToken b2 -> b1 = b2.
Proof. unfold invitePost. congruence. Qed.

(** X4.  Once its request is built, [generateICS] makes exactly that one
    request, and returns a text exactly when the request was answered
    with a success status and a body that could be read: the text is that
    body, unchanged. *)
Theorem invite_text_is_the_answer {S : Type} (details : BookingDetails) (apiToken : string)
    (w : World) (s : S) (body : list (string * Json)) :
  inviteBody details body ->
  exists t r,
    generateICS details apiToken w s = (t, s, r)
    /\ calls t = [invitePost apiToken body]
    /\ forall ics,
         r = Normal ics
         <-> exists resp,
               inviteAnswer w apiToken body = Resolved resp
               /\ ok resp = true
               /\ text resp = Normal ics.
Proof.
  intros Hbody.
  destruct (generateICS_run details apiToken w s) as (t & r & Hrun & _ & H).
  exists t, r. split; [exact Hrun|].
  destruct H as [(_ & _ & Hno) | (body' & Hb & Hc & ->)]; [destruct (Hno body Hbody)|].
  assert (body' = body) as -> by (eapply inviteBody_functional; eassumption).
  split; [exact Hc|]. intros ics. unfold inviteResult. split.
  - intros H.
    destruct (inviteAnswer w apiToken body) as [e | resp]; [discriminate|].
    exists resp. destruct (text resp) as [txt | e]; [| discriminate].
    destruct (ok resp); [| discriminate]. injection H as <-. auto.
  - intros (resp & Ha & Hok & Ht). rewrite Ha, Ht, Hok. reflexivity.
Qed.

Lemma invite_text_is_the_answer_witness :
  inviteBody sampleBooking sampleInvite
  /\ exists t r,
       generateICS sampleBooking "apy-token" allUp tt = (t, tt, r)
       /\ calls t = [invitePost "apy-token" sampleInvite]
       /\ forall ics,
            r = Normal ics
            <-> exists resp,
                  inviteAnswer allUp "apy-token" sampleInvite = Resolved resp
                  /\ ok resp = true
                  /\ text resp = Normal ics.
Proof.
  split; [exact sampleInvite_body|].
  apply (invite_text_is_the_answer sampleBooking "apy-token" allUp tt sampleInvite).
  exact sampleInvite_body.
Defined.

(** X5.  The failures of [generateICS] once its request is built: an error of
    the transport is thrown on as it is; an answer with another status
    than success is turned into an error that quotes the status and the
    body of the answer; every failure is logged as an error, and none is
    retried. *)
Theorem invite_failures {S : Type} (details : BookingDetails) (apiToken : string)
    (w : World) (s : S) (body : list (string * Json)) :
  inviteBody details body ->
  exists t r,
    generateICS details apiToken w s = (t, s, r)
    /\ calls t = [invitePost apiToken body]
    /\ (forall e, inviteAnswer w apiToken body = Rejected e -> r = Throw e)
    /\ (forall resp errorText,
          inviteAnswer w apiToken body = Resolved resp ->
          ok resp = false ->
          text resp = Normal errorText ->
          r = Throw (mkError ("Failed to generate ICS: ApyHub returned status "
                              ++ toDecimal (status resp) ++ " - " ++ errorText)))
    /\ ((exists e, r = Throw e) -> existsb isErrorLog t = true).
Proof.
  intros Hb.
  destruct (generateICS_run details apiToken w s) as (t & r & Hrun & _ & H).
  destruct H as [(_ & _ & Hno) | (body' & Hb' & Hc & Hr)]; [destruct (Hno body Hb)|].
  rewrite (inviteBody_functional _ _ _ Hb' Hb) in Hc, Hr. clear body' Hb'.
  exists t, r. split; [exact Hrun|]. split; [exact Hc|].
  split; [| split].
  - intros e He. rewrite Hr, He. reflexivity.
  - intros resp errorText Ha Hok Ht. rewrite Hr, Ha. cbn [inviteResult].
    rewrite Ht, Hok. reflexivity.
  - revert Hrun. clear Hc.
    destruct Hb as (start & md & st & et & Hs & H1 & H2 & H3 & ->).
    unfold generateICS. run_monad. rewrite Hs. cbn [getTime plus]. rewrite H1, H2, H3.
    unfold inviteAnswer in Hr. unfold invitePost.
    destruct (fetch w APYHUB_ICAL_URL
                [("Content-Type", "application/json"); ("apy-token", apiToken)]
                (ObjectBody (requestBody details "America/Los_Angeles" md st et)))
      as [e | resp];
      [| destruct (ok resp); cbn [negb]; destruct (text resp) ];
      intros [= <- <-]; intros [e' He']; try discriminate; reflexivity.
Qed.

Lemma invite_failures_witness :
  inviteBody sampleBooking sampleInvite
  /\ exists t r,
       generateICS sampleBooking "apy-token" inviteDown tt = (t, tt, r)
       /\ calls t = [invitePost "apy-token" sampleInvite]
       /\ (forall e, inviteAnswer inviteDown "apy-token" sampleInvite = Rejected e
                     -> r = Throw e)
       /\ (forall resp errorText,
             inviteAnswer inviteDown "apy-token" sampleInvite = Resolved resp ->
             ok resp = false ->
             text resp = Normal errorText ->
             r = Throw (mkError ("Failed to generate ICS: ApyHub returned status "
                                 ++ toDecimal (status resp) ++ " - " ++ errorText)))
       /\ ((exists e, r = Throw e) -> existsb isErrorLog t = true).
Proof.
  split; [exact sampleInvite_body|].
  apply (invite_failures sampleBooking "apy-token" inviteDown tt sampleInvite).
  exact sampleInvite_body.
Defined.

(** [sendEmailWithICS] either fails before any call, or hands the
    confirmation of its details to the mail service, once. *)
Lemma sendEmailWithICS_message {S : Type} (details : EmailDetails) (apiKey : string)
    (w : World) (s : S) :
  exists t r,
    sendEmailWithICS details apiKey w s = (t, s, r)
    /\ forallb (fun ev => isConsole ev || isEmailDispatch ev) t = true
    /\ ((calls t = [] /\ exists e, r = Throw e)
        \/ exists msg,
             calls t = [SgMailSend apiKey msg]
             /\ r = sendResult (sgMail_send w apiKey msg)
             /\ confirmation (toEmail details) (toName details) (icsContent details) msg
             /\ exists displayTimePacific,
                  displayed (SendGrid.startTimeISO details) = Normal displayTimePacific
                  /\ shows (toName details) displayTimePacific
                           (SendGrid.startTimeISO details) msg).
Proof.
  unfold sendEmailWithICS, sendResult, confirmation, displayed, shows. run_monad.
  destruct (formatInTimeZone (newDateFromString (SendGrid.startTimeISO details))
                             "America/Los_Angeles" "MM/dd/yyyy, hh:mm:ss a zzz")
    as [disp | e].
  2:{ eexists _, _. split; [reflexivity|]. split; [reflexivity|]. left.
      split; [reflexivity | eauto]. }
  destruct (btoa (icsContent details)) as [enc | e].
  2:{ eexists _, _. split; [reflexivity|]. split; [reflexivity|]. left.
      split; [reflexivity | eauto]. }
  match goal with
  | |- context [sgMail_send w apiKey ?m] =>
      destruct (sgMail_send w apiKey m) as [code | e rb] eqn:Hs;
      (eexists _, _; split; [reflexivity|]; split; [reflexivity|]; right;
       exists m; split; [reflexivity|]; rewrite Hs; split; [reflexivity|];
       split; [cbn; repeat (split; [reflexivity|]); exists enc; split; reflexivity|];
       exists disp; split; [reflexivity|]; split; reflexivity)
  end.
Qed.

(** X6.  The message of [sendEmailWithICS] goes to the recipient of the
    details, with a copy to the one fixed address, and carries the invite
    as its only attachment, in base 64, whatever the details are; it is
    handed over once.  The function returns exactly when the mail service
    accepts the message; a rejection, whatever its error, is thrown as
    the one fixed error that says nothing of its cause. *)
Theorem mail_is_the_confirmation {S : Type} (details : EmailDetails) (apiKey : string)
    (w : World) (s : S) (t : list Event) (s' : S) (r : Completion unit)
    (key : string) (msg : MailData) :
  sendEmailWithICS details apiKey w s = (t, s', r) ->
  In (SgMailSend key msg) (calls t) ->
  key = apiKey
  /\ calls t = [SgMailSend key msg]
  /\ confirmation (toEmail details) (toName details) (icsContent details) msg
  /\ (r = Normal tt <-> exists statusCode, sgMail_send w apiKey msg = Sent statusCode)
  /\ (forall e responseBody,
        sgMail_send w apiKey msg = SendRejected e responseBody ->
        r = Throw (mkError "Failed to send confirmation email via SendGrid.")).
Proof.
  intros Hrun Hin.
  destruct (sendEmailWithICS_message details apiKey w s) as (t0 & r0 & H0 & _ & H).
  rewrite Hrun in H0. injection H0 as <- <- <-.
  destruct H as [[Hc _] | (m & Hc & Hr & Hm & _)]; rewrite Hc in Hin; [destruct Hin|].
  destruct Hin as [[= <- <-] | []].
  split; [reflexivity|]. split; [exact Hc|]. split; [exact Hm|].
  rewrite Hr. unfold sendResult.
  destruct (sgMail_send w apiKey m) as [code | e rb]; split.
  - split; [eauto | reflexivity].
  - discriminate.
  - split; [discriminate | intros [code H]; discriminate].
  - reflexivity.
Qed.

Lemma mail_is_the_confirmation_witness :
  let details := {| toEmail := "a.b@x.com"; toName := "a.b";
                    SendGrid.startTimeISO := "2025-05-21T21:30:00.000Z";
                    icsContent := "BEGIN:VCALENDAR" |} in
  let run := sendEmailWithICS details "sendgrid-key" mailDown tt in
  "sendgrid-key" = "sendgrid-key"
  /\ calls (fst (fst run)) = [SgMailSend "sendgrid-key" sampleMail]
  /\ confirmation "a.b@x.com" "a.b" "BEGIN:VCALENDAR" sampleMail
  /\ (snd run = Normal tt
      <-> exists statusCode, sgMail_send mailDown "sendgrid-key" sampleMail = Sent statusCode)
  /\ (forall e responseBody,
        sgMail_send mailDown "sendgrid-key" sampleMail = SendRejected e responseBody ->
        snd run = Throw (mkError "Failed to send confirmation email via SendGrid.")).
Proof.
  intros details run.
  apply (mail_is_the_confirmation details "sendgrid-key" mailDown tt
           (fst (fst run)) (snd (fst run)) (snd run) "sendgrid-key" sampleMail).
  - rewrite <- !surjective_pairing. reflexivity.
  - vm_compute. left. reflexivity.
Defined.

End StageProperties.

(* ------------------------------------------------------------------ *)
(** ** The handler, by what its calls carry *)

Section HandlerContent.

Import JsString Ecma DateFnsTz Runtime Observe ApyHub SendGrid Slack Index Examples Content.

(** The second part of the try block, with what its mail and its success
    notification carry. *)
Lemma completeBooking_carries (bookingDetails : BookingDetails) (env : Env) w (l : Locals) :
  exists p t,
    explains w env bookingDetails p
    /\ carries w env bookingDetails p
    /\ completeBooking bookingDetails env w l = (t, l, progressResult p)
    /\ calls (responsePath t) = pathCalls env p
    /\ calls t = (pathCalls env p ++ successNotification env p)%list.
Proof.
  unfold completeBooking. unfold bind at 1, lift.
  destruct (formatInTimeZone (newDateFromString (ApyHub.startTimeISO bookingDetails))
              "America/Los_Angeles" "MM/dd/yyyy, hh:mm:ss a zzz") as [disp | e] eqn:Hdisp.
  2:{ exists (FailedBeforeInvite e). eexists. split; [| repeat split].
      intros body (start & md & st & et & Hs & _). rewrite Hs in Hdisp.
      destruct (formatInTimeZone_display start) as [disp Hd]. congruence. }
  unfold bind at 1.
  destruct (generateICS_run bookingDetails (APY_TOKEN env) w l)
    as (t2 & r2 & -> & Hq2 & Hc2).
  assert (Hp2 : responsePath t2 = t2).
  { eapply responsePath_id; [| exact Hq2]. intros [] H; try reflexivity; discriminate. }
  destruct Hc2 as [(Hc2 & [e ->] & Hno) | (body & Hb & Hc2 & ->)].
  { exists (FailedBeforeInvite e). eexists. split; [exact Hno|]. split; [exact I|].
    split; [reflexivity|]. cbn [app]. rewrite Hp2, Hc2. split; reflexivity. }
  destruct (inviteResult (inviteAnswer w (APY_TOKEN env) body)) as [ics | e] eqn:Hi.
  2:{ exists (FailedInvite body e). eexists. split; [split; assumption|]. split; [exact I|].
      split; [reflexivity|]. cbn [app]. rewrite Hp2, Hc2. split; reflexivity. }
  unfold bind at 1.
  destruct (sendEmailWithICS_message
              {| toEmail := email bookingDetails; toName := name bookingDetails;
                 SendGrid.startTimeISO := ApyHub.startTimeISO bookingDetails;
                 icsContent := ics |} (SENDGRID_KEY env) w l)
    as (t3 & r3 & -> & Hq3 & Hc3).
  assert (Hp3 : responsePath t3 = t3).
  { eapply responsePath_id; [| exact Hq3]. intros [] H; try reflexivity; discriminate. }
  destruct Hc3 as [[Hc3 [e ->]] | (msg & Hc3 & -> & Hmsg & disp' & Hdisp' & Hshow)];
    [| cbn [toEmail toName icsContent SendGrid.startTimeISO] in Hmsg, Hdisp', Hshow].
  { exists (FailedBeforeEmail body e). eexists. split; [split; eauto|]. split; [exact I|].
    split; [reflexivity|]. cbn [pathCalls successNotification app].
    rewrite responsePath_app, !calls_app, Hp2, Hp3, Hc2, Hc3. split; reflexivity. }
  assert (Hto : to_email msg = email bookingDetails) by apply Hmsg.
  destruct (sendResult (sgMail_send w (SENDGRID_KEY env) msg)) as [[] | e] eqn:Hs.
  2:{ exists (FailedEmail body msg e). eexists. split; [repeat split; eauto|].
      split; [exists ics; split; [exact Hi | exact Hmsg]|].
      split; [reflexivity|]. cbn [pathCalls successNotification app].
      rewrite responsePath_app, !calls_app, Hp2, Hp3, Hc2, Hc3. split; reflexivity. }
  exists (Completed body msg {| blocks := successMessageBlocks bookingDetails disp |}).
  assert (Hcar : carries w env bookingDetails
                   (Completed body msg
                      {| blocks := successMessageBlocks bookingDetails disp |})).
  { split; [exists ics; split; [exact Hi | exact Hmsg]|]. exists disp.
    unfold displayed in *. rewrite Hdisp in Hdisp'. injection Hdisp' as <-.
    split; [exact Hdisp|]. split; [exact Hshow | reflexivity]. }
  unfold bind at 1. unfold console at 1, emit.
  destruct (SLACK_BOOKINGS_URL env) as [[| c url] |] eqn:Hurl;
    try (eexists; split; [repeat split; eauto|]; split; [exact Hcar|]; split; [reflexivity|];
         cbn [pathCalls successNotification app]; rewrite Hurl;
         cbn [notification truthy];
         rewrite !responsePath_app, !calls_app, Hp2, Hp3, Hc2, Hc3; split; reflexivity).
  destruct (detached_notification (String c url)
              {| blocks := successMessageBlocks bookingDetails disp |}
              (console LLog "Success Slack notification sent.")
              (console LError "Failed to send success Slack notification.") w l)
    as (task & Ht & Hc);
    [reflexivity | intros w' s'; eexists; split; reflexivity
     | intros w' s'; eexists; split; reflexivity |].
  unfold bind at 1. rewrite Ht. unfold ret.
  eexists. split; [repeat split; eauto|]. split; [exact Hcar|]. split; [reflexivity|].
  cbn [pathCalls successNotification app]. rewrite Hurl. cbn [notification truthy].
  rewrite !responsePath_app, !calls_app, Hp2, Hp3, Hc2, Hc3.
  cbn [app]. rewrite calls_console, calls_detached, Hc. split; reflexivity.
Qed.

(** One invocation, by the stage it reaches and what its calls carry. *)
Lemma run_carries (request : Request) (env : Env) w :
  exists t1 l1 r1,
    resolveBooking request w initialLocals = (t1, l1, r1)
    /\ match r1 with
       | Throw e =>
           exists t,
             run w request env = (t, Normal (failureResponse e))
             /\ calls (responsePath t) = []
             /\ calls t = failureNotification env l1 (Throw e)
       | Normal bookingDetails =>
           exists p t,
             explains w env bookingDetails p
             /\ carries w env bookingDetails p
             /\ run w request env = (t, Normal (response (progressResult p)))
             /\ calls (responsePath t) = pathCalls env p
             /\ calls t = (pathCalls env p ++ successNotification env p
                           ++ failureNotification env l1 (progressResult p))%list
       end.
Proof.
  destruct (resolveBooking_quiet request w initialLocals) as (t1 & l1 & r1 & HR & Hq & _).
  exists t1, l1, r1. split; [exact HR|].
  destruct (console_only_calls t1 Hq) as [Hc1 Hd1].
  assert (Hp1 : responsePath t1 = t1).
  { eapply responsePath_id; [| exact Hq]. intros [] H; try reflexivity; discriminate. }
  destruct r1 as [bookingDetails | e].
  - destruct (completeBooking_carries bookingDetails env w l1)
      as (p & t2 & Hex & Hcar & HC & Hp2 & Hc2).
    assert (Htry : tryBlock request env w initialLocals
                   = ((t1 ++ t2)%list, l1, progressResult p)).
    { unfold tryBlock, bind. rewrite HR, HC. reflexivity. }
    destruct (handle_run request env w _ _ _ Htry) as (t & Hrun & Hpath & Hcalls).
    exists p, t. split; [exact Hex|]. split; [exact Hcar|]. split; [exact Hrun|]. split.
    + rewrite Hpath, responsePath_app, calls_app, Hp1, Hc1, Hp2. reflexivity.
    + rewrite Hcalls, calls_app, Hc1, Hc2. cbn [app]. apply eq_sym, app_assoc.
  - assert (Htry : tryBlock request env w initialLocals = (t1, l1, Throw e)).
    { unfold tryBlock, bind. rewrite HR. reflexivity. }
    destruct (handle_run request env w _ _ _ Htry) as (t & Hrun & Hpath & Hcalls).
    exists t. split; [exact Hrun|]. split.
    + rewrite Hpath, Hp1. exact Hc1.
    + rewrite Hcalls, Hc1. reflexivity.
Qed.

(** A notification is no mail and no invite request. *)
Lemma notification_no_mail (url : option string) payload key msg :
  ~ In (SgMailSend key msg) (notification url payload).
Proof.
  destruct url as [[| c u] |]; cbn; intros H; try destruct H as [H | []]; try discriminate;
    exact H.
Qed.

Lemma notification_no_invite (url : option string) payload apiToken body :
  ~ In (invitePost apiToken body) (notification url payload).
Proof.
  destruct url as [[| c u] |]; cbn; intros H; try destruct H as [H | []]; try discriminate;
    exact H.
Qed.

Lemma failureNotification_no_mail env l r key msg :
  ~ In (SgMailSend key msg) (failureNotification env l r).
Proof. destruct r; [intros [] | apply notification_no_mail]. Qed.

Lemma failureNotification_no_invite env l r apiToken body :
  ~ In (invitePost apiToken body) (failureNotification env l r).
Proof. destruct r; [intros [] | apply notification_no_invite]. Qed.

Lemma successNotification_no_mail env p key msg :
  ~ In (SgMailSend key msg) (successNotification env p).
Proof. destruct p; try (intros []); apply notification_no_mail. Qed.

Lemma successNotification_no_invite env p apiToken body :
  ~ In (invitePost apiToken body) (successNotification env p).
Proof. destruct p; try (intros []); apply notification_no_invite. Qed.

(** What [generateICS] returns is the body of an answer with a success
    status. *)
Lemma inviteResult_normal (o : FetchOutcome) (ics : string) :
  inviteResult o = Normal ics <->
  exists resp, o = Resolved resp /\ ok resp = true /\ text resp = Normal ics.
Proof.
  unfold inviteResult. split.
  - destruct o as [e | resp]; [discriminate|].
    destruct (text resp) as [txt | e] eqn:Ht; [| discriminate].
    destruct (ok resp) eqn:Hok; [| discriminate].
    intros [= <-]. exists resp. auto.
  - intros (resp & -> & Hok & Ht). rewrite Ht, Hok. reflexivity.
Qed.

(** X7.  Whatever mail a run dispatches is the confirmation of its request: it
    goes to the address of the request body as it was given, under the
    name derived from it, with the SendGrid key of the environment, and
    its attachment is the text the invite generator answered with in
    this run, in base 64. *)
Theorem mail_carries_the_invite (w : World) (request : Request) (env : Env)
    (t : list Event) (resp : Completion Response) (key : string) (msg : MailData) :
  run w request env = (t, resp) ->
  In (SgMailSend key msg) (calls t) ->
  exists address date time body answer ics,
    json request = Normal (Obj (Str address) (Str date) (Str time))
    /\ key = SENDGRID_KEY env
    /\ calls (responsePath t) = [invitePost (APY_TOKEN env) body; SgMailSend key msg]
    /\ inviteAnswer w (APY_TOKEN env) body = Resolved answer
    /\ ok answer = true
    /\ text answer = Normal ics
    /\ confirmation address (orElse (splitHead "@" address) "Valued Candidate") ics msg.
Proof.
  intros Hrun Hin.
  destruct (run_carries request env w) as (t1 & l1 & [details | e] & HR & H).
  - destruct H as (p & t' & Hex & Hcar & Hrun' & Hpath & Hcalls).
    rewrite Hrun in Hrun'. injection Hrun' as <- ->.
    destruct (resolveBooking_inv request w initialLocals t1 l1 details HR)
      as (address & date & time & day & month & year & hour & minute & instant
          & Hj & _ & _ & _ & _ & _ & Hn & He & _).
    rewrite Hcalls in Hin. rewrite !in_app_iff in Hin.
    destruct Hin as [Hin | [Hin | Hin]];
      [| destruct (successNotification_no_mail _ _ _ _ Hin)
       | destruct (failureNotification_no_mail _ _ _ _ _ Hin)].
    destruct p as [e | body e | body e | body m e | body m payload];
      cbn [pathCalls] in Hin, Hpath; cbn [carries] in Hcar.
    + destruct Hin.
    + destruct Hin as [Hin | []]. discriminate.
    + destruct Hin as [Hin | []]. discriminate.
    + destruct Hin as [Hin | [Hin | []]]; [discriminate|]. injection Hin as <- <-.
      destruct Hcar as (ics & Hi & Hm).
      apply inviteResult_normal in Hi as (a & Ha & Hok & Ht).
      rewrite He, Hn in Hm. exists address, date, time, body, a, ics.
      repeat (split; [assumption || reflexivity|]). exact Hm.
    + destruct Hin as [Hin | [Hin | []]]; [discriminate|]. injection Hin as <- <-.
      destruct Hcar as [(ics & Hi & Hm) _].
      apply inviteResult_normal in Hi as (a & Ha & Hok & Ht).
      rewrite He, Hn in Hm. exists address, date, time, body, a, ics.
      repeat (split; [assumption || reflexivity|]). exact Hm.
  - destruct H as (t' & Hrun' & _ & Hcalls).
    rewrite Hrun in Hrun'. injection Hrun' as <- ->.
    rewrite Hcalls in Hin. destruct (failureNotification_no_mail _ _ _ _ _ Hin).
Qed.

Lemma mail_carries_the_invite_witness :
  let r := run allUp (booking "a.b@x.com" "21-05-2025" "14:30") env in
  exists address date time body answer ics,
    json (booking "a.b@x.com" "21-05-2025" "14:30")
      = Normal (Obj (Str address) (Str date) (Str time))
    /\ "sendgrid-key" = SENDGRID_KEY env
    /\ calls (responsePath (fst r))
       = [invitePost (APY_TOKEN env) body; SgMailSend "sendgrid-key" sampleMail]
    /\ inviteAnswer allUp (APY_TOKEN env) body = Resolved answer
    /\ ok answer = true
    /\ text answer = Normal ics
    /\ confirmation address (orElse (splitHead "@" address) "Valued Candidate") ics
                    sampleMail.
Proof.
  intros r.
  apply (mail_carries_the_invite allUp (booking "a.b@x.com" "21-05-2025" "14:30") env
           (fst r) (snd r) "sendgrid-key" sampleMail).
  - apply surjective_pairing.
  - vm_compute. right. left. reflexivity.
Defined.

(** X8.  An invite text with a character above U+00FF cannot be encoded for
    the attachment: although the invite generator answered with success,
    no mail is dispatched, and the run ends with the failure response. *)
Theorem invite_above_latin1_is_not_mailed (w : World) (request : Request) (env : Env)
    (t : list Event) (resp : Response) (body : list (string * Json))
    (answer : HttpResponse) (ics : string) (e : Error) :
  run w request env = (t, Normal resp) ->
  In (invitePost (APY_TOKEN env) body) (calls t) ->
  inviteAnswer w (APY_TOKEN env) body = Resolved answer ->
  ok answer = true ->
  text answer = Normal ics ->
  btoa ics = Throw e ->
  status resp = 500
  /\ calls (responsePath t) = [invitePost (APY_TOKEN env) body]
  /\ forall key msg, ~ In (SgMailSend key msg) (calls t).
Proof.
  intros Hrun Hin Ha Hok Ht Hb.
  assert (Hi : inviteResult (inviteAnswer w (APY_TOKEN env) body) = Normal ics).
  { apply inviteResult_normal. exists answer. auto. }
  destruct (run_carries request env w) as (t1 & l1 & [details | e1] & HR & H).
  - destruct H as (p & t' & Hex & Hcar & Hrun' & Hpath & Hcalls).
    rewrite Hrun in Hrun'. injection Hrun' as <- ->.
    rewrite Hcalls in Hin. rewrite !in_app_iff in Hin.
    destruct Hin as [Hin | [Hin | Hin]];
      [| destruct (successNotification_no_invite _ _ _ _ Hin)
       | destruct (failureNotification_no_invite _ _ _ _ _ Hin)].
    assert (Hbody : forall body', In (invitePost (APY_TOKEN env) body)
                                     [invitePost (APY_TOKEN env) body'] -> body' = body).
    { intros body' [H | []]. now apply invitePost_inj in H. }
    destruct p as [e1 | body' e1 | body' e1 | body' m e1 | body' m payload];
      cbn [pathCalls] in Hin, Hpath, Hcalls; cbn [explains carries] in Hex, Hcar.
    + destruct Hin.
    + apply Hbody in Hin as ->. destruct Hex as [_ Hex]. congruence.
    + apply Hbody in Hin as ->.
      split; [reflexivity|]. split; [exact Hpath|].
      intros key msg Hm. rewrite Hcalls in Hm. cbn [successNotification app] in Hm.
      destruct Hm as [Hm | Hm]; [discriminate|].
      exact (failureNotification_no_mail _ _ _ _ _ Hm).
    + destruct Hin as [Hin | [Hin | []]]; [| discriminate].
      apply invitePost_inj in Hin as ->.
      destruct Hcar as (ics' & Hi' & Hm). rewrite Hi in Hi'. injection Hi' as <-.
      destruct Hm as (_ & _ & _ & _ & _ & enc & Henc & _). congruence.
    + destruct Hin as [Hin | [Hin | []]]; [| discriminate].
      apply invitePost_inj in Hin as ->.
      destruct Hcar as [(ics' & Hi' & Hm) _]. rewrite Hi in Hi'. injection Hi' as <-.
      destruct Hm as (_ & _ & _ & _ & _ & enc & Henc & _). congruence.
  - destruct H as (t' & Hrun' & _ & Hcalls).
    rewrite Hrun in Hrun'. injection Hrun' as <- ->.
    rewrite Hcalls in Hin. destruct (failureNotification_no_invite _ _ _ _ _ Hin).
Qed.

Lemma invite_above_latin1_is_not_mailed_witness :
  let r := run inviteAboveLatin1 (booking "a.b@x.com" "21-05-2025" "14:30") env in
  Index.status (response (snd r)) = 500
  /\ calls (responsePath (fst r)) = [invitePost (APY_TOKEN env) sampleInvite]
  /\ forall key msg, ~ In (SgMailSend key msg) (calls (fst r)).
Proof.
  intros r.
  apply (invite_above_latin1_is_not_mailed inviteAboveLatin1
           (booking "a.b@x.com" "21-05-2025" "14:30") env (fst r) (response (snd r))
           sampleInvite
           {| Runtime.status := 200; text := Normal "SUMMARY:Rozmowa z Łukaszem" |}
           "SUMMARY:Rozmowa z Łukaszem"
           (mkError "btoa() can only operate on characters in the Latin1 (ISO/IEC 8859-1) range.")).
  - vm_compute. reflexivity.
  - vm_compute. left. reflexivity.
  - reflexivity.
  - reflexivity.
  - reflexivity.
  - vm_compute. reflexivity.
Defined.

End HandlerContent.

(* ------------------------------------------------------------------ *)
(** ** Requests the handler rejects before any call *)

Section RejectionProperties.

Import JsString Ecma DateFnsTz Runtime Observe ApyHub SendGrid Slack Index Examples Content.

Ltac unfold_resolveBooking :=
  unfold resolveBooking, setInputData, setBookingDataForSlack, splitAt, matchField;
  run_monad.

(** A run whose booking does not resolve: the failure response, no call
    on the response path, and the failure notification built from the
    variables as the throw left them. *)
Lemma run_rejects (request : Request) (env : Env) (w : World) t1 l1 (e : Error) :
  resolveBooking request w initialLocals = (t1, l1, Throw e) ->
  exists t,
    run w request env = (t, Normal (failureResponse e))
    /\ calls (responsePath t) = []
    /\ calls t = notification (SLACK_ERRORS_URL env)
                              {| blocks := failureMessageBlocks l1 e |}.
Proof.
  intros HR.
  destruct (run_carries request env w) as (t1' & l1' & r1 & HR' & H).
  rewrite HR in HR'. injection HR' as <- <- <-. exact H.
Qed.

(** X10.  A body that cannot be read as JSON, or that is no object, is answered
    with the failure response and never reaches a service: the error is
    the one of the parser, or [Invalid JSON payload]; the failure
    notification shows [N/A] for the applicant, or [undefined] when the
    body is a truthy value that is no object. *)
Theorem unusable_body_is_rejected (w : World) (request : Request) (env : Env) :
  (forall email interview_date interview_time,
      json request <> Normal (Obj email interview_date interview_time)) ->
  exists t error applicant,
    run w request env = (t, Normal (failureResponse error))
    /\ calls (responsePath t) = []
    /\ calls t = notification (SLACK_ERRORS_URL env)
                   {| blocks := failureBlocks applicant
                                  (orElse (message error) "Unknown internal error") |}
    /\ (forall e, json request = Throw e -> error = e /\ applicant = "N/A")
    /\ (json request = Normal Falsy
        -> error = mkError "Invalid JSON payload" /\ applicant = "N/A")
    /\ (json request = Normal Primitive
        -> error = mkError "Invalid JSON payload" /\ applicant = "undefined").
Proof.
  intros Hno.
  destruct (json request) as [[| | email date time] | e] eqn:Hj;
    [| | destruct (Hno email date time eq_refl) |].
  - destruct (run_rejects request env w []
                {| inputData := Some Falsy;
                   bookingDataForSlack := bookingDataForSlack initialLocals |}
                (mkError "Invalid JSON payload")) as (t & Hrun & Hp & Hc).
    { unfold_resolveBooking. rewrite Hj. reflexivity. }
    exists t, (mkError "Invalid JSON payload"), "N/A".
    repeat split; try assumption; try discriminate.
  - destruct (run_rejects request env w []
                {| inputData := Some Primitive;
                   bookingDataForSlack :=
                     {| slack_name := Some "Candidate (No Email)"; slack_email := None |} |}
                (mkError "Invalid JSON payload")) as (t & Hrun & Hp & Hc).
    { unfold_resolveBooking. rewrite Hj. reflexivity. }
    exists t, (mkError "Invalid JSON payload"), "undefined".
    repeat split; try assumption; try discriminate.
  - destruct (run_rejects request env w [] initialLocals e) as (t & Hrun & Hp & Hc).
    { unfold_resolveBooking. rewrite Hj. reflexivity. }
    exists t, e, "N/A".
    repeat split; try assumption; try discriminate; congruence.
Qed.

Lemma unusable_body_is_rejected_witness :
  let request := {| method := "POST"; pathname := "/book-email"; json := Normal Falsy |} in
  exists t error applicant,
    run allUp request env = (t, Normal (failureResponse error))
    /\ calls (responsePath t) = []
    /\ calls t = notification (SLACK_ERRORS_URL env)
                   {| blocks := failureBlocks applicant
                                  (orElse (message error) "Unknown internal error") |}
    /\ (forall e, json request = Throw e -> error = e /\ applicant = "N/A")
    /\ (json request = Normal Falsy
        -> error = mkError "Invalid JSON payload" /\ applicant = "N/A")
    /\ (json request = Normal Primitive
        -> error = mkError "Invalid JSON payload" /\ applicant = "undefined").
Proof.
  intros request.
  apply (unusable_body_is_rejected allUp request env).
  intros email interview_date interview_time. discriminate.
Defined.

(** X12.  A date or a time that does not match its pattern is answered with
    [Invalid date or time format.] and never reaches a service; the
    failure notification names the applicant. *)
Theorem malformed_date_or_time_is_rejected (w : World) (request : Request) (env : Env)
    (address date time : string) :
  json request = Normal (Obj (Str address) (Str date) (Str time)) ->
  truthy address = true -> truthy date = true -> truthy time = true ->
  matchDate date = None \/ matchTime time = None ->
  exists t,
    run w request env
      = (t, Normal {| status := 500; contentType := Some "application/json";
                      body := Failure "Invalid date or time format." |})
    /\ calls (responsePath t) = []
    /\ calls t = notification (SLACK_ERRORS_URL env)
                   {| blocks := failureBlocks address "Invalid date or time format." |}.
Proof.
  intros Hj Ha Hd Ht Hbad.
  destruct (run_rejects request env w
              [Console LLog "Received Bland input data:"]
              {| inputData := Some (Obj (Str address) (Str date) (Str time));
                 bookingDataForSlack :=
                   {| slack_name := Some (orElse (splitHead "@" address) "Candidate");
                      slack_email := Some address |} |}
              (mkError "Invalid date or time format.")) as (t & Hrun & Hp & Hc).
  { unfold_resolveBooking. rewrite Hj. cbn [truthyField shown]. rewrite Ha, Hd, Ht.
    cbn [negb orb].
    destruct Hbad as [H | H]; rewrite H; [| destruct (matchDate date) as [[[? ?] ?] |]];
      reflexivity. }
  exists t. split; [exact Hrun|]. split; [exact Hp|].
  rewrite Hc. unfold failureMessageBlocks, applicantEmail, failureBlocks.
  cbn [bookingDataForSlack slack_email]. rewrite Ha. reflexivity.
Qed.

Lemma malformed_date_or_time_is_rejected_witness :
  exists t,
    run allUp (booking "a.b@x.com" "2025-05-21" "14:30") env
      = (t, Normal {| status := 500; contentType := Some "application/json";
                      body := Failure "Invalid date or time format." |})
    /\ calls (responsePath t) = []
    /\ calls t = notification (SLACK_ERRORS_URL env)
                   {| blocks := failureBlocks "a.b@x.com" "Invalid date or time format." |}.
Proof.
  apply (malformed_date_or_time_is_rejected allUp (booking "a.b@x.com" "2025-05-21" "14:30")
           env "a.b@x.com" "2025-05-21" "14:30"); try reflexivity.
  left. reflexivity.
Defined.

(** X19.  A date and a time that match their patterns but that the time
    zone library makes no instant of (an Invalid Date) are answered with
    [Could not parse Pacific date.] and never reach a service; the
    failure notification names the applicant. *)
Theorem unresolvable_date_is_rejected (w : World) (request : Request) (env : Env)
    (address date time day month year hour minute : string) :
  json request = Normal (Obj (Str address) (Str date) (Str time)) ->
  truthy address = true ->
  matchDate date = Some (day, month, year) ->
  matchTime time = Some (hour, minute) ->
  isNaN (getTime (pacificDate day month year hour minute)) = true ->
  exists t,
    run w request env
      = (t, Normal {| status := 500; contentType := Some "application/json";
                      body := Failure "Could not parse Pacific date." |})
    /\ calls (responsePath t) = []
    /\ calls t = notification (SLACK_ERRORS_URL env)
                   {| blocks := failureBlocks address "Could not parse Pacific date." |}.
Proof.
  intros Hj Ha Hd Ht Hnan.
  assert (Hdt : truthy date = true) by (destruct date; [discriminate Hd | reflexivity]).
  assert (Htt : truthy time = true) by (destruct time; [discriminate Ht | reflexivity]).
  destruct (run_rejects request env w
              [Console LLog "Received Bland input data:"]
              {| inputData := Some (Obj (Str address) (Str date) (Str time));
                 bookingDataForSlack :=
                   {| slack_name := Some (orElse (splitHead "@" address) "Candidate");
                      slack_email := Some address |} |}
              (mkError "Could not parse Pacific date.")) as (t & Hrun & Hp & Hc).
  { unfold_resolveBooking. rewrite Hj. cbn [truthyField shown]. rewrite Ha, Hdt, Htt.
    cbn [negb orb]. rewrite Hd, Ht, Hnan. reflexivity. }
  exists t. split; [exact Hrun|]. split; [exact Hp|].
  rewrite Hc. unfold failureMessageBlocks, applicantEmail, failureBlocks.
  cbn [bookingDataForSlack slack_email]. rewrite Ha. reflexivity.
Qed.

Lemma unresolvable_date_is_rejected_witness :
  exists t,
    run allUp (booking "a.b@x.com" "32-01-2025" "14:30") env
      = (t, Normal {| status := 500; contentType := Some "application/json";
                      body := Failure "Could not parse Pacific date." |})
    /\ calls (responsePath t) = []
    /\ calls t = notification (SLACK_ERRORS_URL env)
                   {| blocks := failureBlocks "a.b@x.com" "Could not parse Pacific date." |}.
Proof.
  apply (unresolvable_date_is_rejected allUp (booking "a.b@x.com" "32-01-2025" "14:30") env
           "a.b@x.com" "32-01-2025" "14:30" "32" "01" "2025" "14" "30");
    vm_compute; reflexivity.
Defined.

(** X13.  A property of another type than string where the handler calls a
    string method ends the run with the TypeError of that call, with no
    call to a service.  For the email this happens before the required
    fields are checked, whatever the date and the time are; for the date
    and the time, after that check and before the patterns are tested. *)
Theorem field_of_another_type_is_a_type_error (w : World) (request : Request) (env : Env)
    (email interview_date interview_time : JsField) :
  json request = Normal (Obj email interview_date interview_time) ->
  truthyField email = true ->
  emailAsDeclared email = false
  \/ (truthyField interview_date = true /\ truthyField interview_time = true
      /\ ((exists t s, interview_date = NonString t s)
          \/ (exists t s, interview_time = NonString t s))) ->
  exists t method,
    run w request env
      = (t, Normal {| status := 500; contentType := Some "application/json";
                      body := Failure (method ++ " is not a function") |})
    /\ calls (responsePath t) = []
    /\ (emailAsDeclared email = false -> method = "inputData.email.split")
    /\ (emailAsDeclared email = true ->
        (exists t s, interview_date = NonString t s) ->
        method = "inputData.interview_date.match")
    /\ (emailAsDeclared email = true ->
        (forall t s, interview_date <> NonString t s) ->
        method = "inputData.interview_time.match").
Proof.
  intros Hj He H.
  assert (Hres : exists t1 l1 method,
             resolveBooking request w initialLocals
               = (t1, l1, Throw (mkError (method ++ " is not a function")))
             /\ (emailAsDeclared email = false -> method = "inputData.email.split")
             /\ (emailAsDeclared email = true ->
                 (exists t s, interview_date = NonString t s) ->
                 method = "inputData.interview_date.match")
             /\ (emailAsDeclared email = true ->
                 (forall t s, interview_date <> NonString t s) ->
                 method = "inputData.interview_time.match")).
  { unfold_resolveBooking. rewrite Hj.
    destruct email as [| address | [|] sh]; try discriminate He.
    - (* the email is a string *)
      destruct H as [H | (Hd & Ht & H)]; [discriminate H|].
      cbn [truthyField] in He |- *. rewrite He.
      destruct interview_date as [| d | [|] shd]; try discriminate Hd.
      + destruct H as [(? & ? & H) | (b & s & ->)]; [discriminate H|].
        cbn [truthyField] in Hd, Ht |- *. rewrite Hd, Ht. cbn [negb orb].
        eexists _, _, "inputData.interview_time.match". split; [reflexivity|].
        split; [discriminate|]. split; [intros _ (? & ? & E); discriminate E | reflexivity].
      + cbn [truthyField] in Ht |- *. rewrite Ht. cbn [negb orb].
        eexists _, _, "inputData.interview_date.match". split; [reflexivity|].
        split; [discriminate|]. split; [reflexivity|].
        intros _ Hn. destruct (Hn true shd eq_refl).
    - (* the email is no string *)
      eexists _, _, "inputData.email.split". split; [reflexivity|].
      split; [reflexivity|]. split; discriminate. }
  destruct Hres as (t1 & l1 & method & HR & H1 & H2 & H3).
  destruct (run_rejects request env w t1 l1 _ HR) as (t & Hrun & Hp & _).
  exists t, method. split; [| split; [exact Hp|]; split; [exact H1|]; split; assumption].
  rewrite Hrun. unfold failureResponse, orElse. cbn [message].
  destruct method; reflexivity.
Qed.

Lemma field_of_another_type_is_a_type_error_witness :
  let request := {| method := "POST"; pathname := "/book-email";
                    json := Normal (Obj (NonString true "42") Undefined Undefined) |} in
  exists t method,
    run allUp request env
      = (t, Normal {| status := 500; contentType := Some "application/json";
                      body := Failure (method ++ " is not a function") |})
    /\ calls (responsePath t) = []
    /\ (emailAsDeclared (NonString true "42") = false -> method = "inputData.email.split")
    /\ (emailAsDeclared (NonString true "42") = true ->
        (exists t s, Undefined = NonString t s) ->
        method = "inputData.interview_date.match")
    /\ (emailAsDeclared (NonString true "42") = true ->
        (forall t s, Undefined <> NonString t s) ->
        method = "inputData.interview_time.match").
Proof.
  intros request.
  apply (field_of_another_type_is_a_type_error allUp request env
           (NonString true "42") Undefined Undefined).
  - reflexivity.
  - reflexivity.
  - left. reflexivity.
Defined.

End RejectionProperties.

(* ------------------------------------------------------------------ *)
(** ** The calls of a run, in order *)

Section SequenceProperties.

Import JsString Ecma DateFnsTz Runtime Observe ApyHub SendGrid Slack Index Examples Content.

(** X14.  On its response path a run makes at most one invite request and at
    most one mail dispatch, the first with the ApyHub token and the second
    with the SendGrid key of the environment, never anything else and
    never twice: nothing is retried.  The mail is dispatched only after
    the invite request was answered with a success status and a body that
    could be read. *)
Theorem calls_are_made_once_and_in_order (w : World) (request : Request) (env : Env) :
  exists t resp,
    run w request env = (t, Normal resp)
    /\ ((calls (responsePath t) = [] /\ status resp = 500)
        \/ (exists body,
              calls (responsePath t) = [invitePost (APY_TOKEN env) body]
              /\ status resp = 500)
        \/ (exists body msg answer ics,
              calls (responsePath t)
                = [invitePost (APY_TOKEN env) body; SgMailSend (SENDGRID_KEY env) msg]
              /\ inviteAnswer w (APY_TOKEN env) body = Resolved answer
              /\ ok answer = true
              /\ text answer = Normal ics)).
Proof.
  destruct (run_carries request env w) as (t1 & l1 & [details | e] & HR & H).
  - destruct H as (p & t & Hex & _ & Hrun & Hpath & _).
    exists t. eexists. split; [exact Hrun|]. rewrite Hpath.
    destruct p as [e | body e | body e | body m e | body m payload];
      cbn [pathCalls explains progressResult response] in *.
    + left. split; reflexivity.
    + right. left. exists body. split; reflexivity.
    + right. left. exists body. split; reflexivity.
    + right. right. destruct Hex as (_ & [ics Hi] & _).
      apply inviteResult_normal in Hi as (a & Ha & Hok & Ht).
      exists body, m, a, ics. auto.
    + right. right. destruct Hex as (_ & [ics Hi] & _).
      apply inviteResult_normal in Hi as (a & Ha & Hok & Ht).
      exists body, m, a, ics. auto.
  - destruct H as (t & Hrun & Hpath & _).
    exists t. eexists. split; [exact Hrun|]. left. split; [exact Hpath | reflexivity].
Qed.

(** X15.  Every run ends with one notification attempt, after all its other
    calls and detached from the response: to the bookings destination
    when the response is 200, to the errors destination when it is 500,
    never to both, and to none when the destination of the outcome is not
    configured. *)
Theorem one_notification_by_outcome (w : World) (request : Request) (env : Env) :
  exists t resp payload,
    run w request env = (t, Normal resp)
    /\ calls t
       = (calls (responsePath t)
          ++ notification (if status resp =? 200 then SLACK_BOOKINGS_URL env
                           else SLACK_ERRORS_URL env) payload)%list
    /\ hd_error (blocks payload)
       = Some (Section (if status resp =? 200 then "✅ *New Interview Booked!*"
                        else "❌ *Interview Booking Failed!*")).
Proof.
  destruct (run_carries request env w) as (t1 & l1 & [details | e] & HR & H).
  - destruct H as (p & t & _ & Hcar & Hrun & Hpath & Hcalls).
    exists t.
    destruct p as [e | body e | body e | body m e | body m payload];
      cbn [pathCalls carries progressResult response successNotification
           failureNotification] in *;
      try (eexists; exists {| blocks := failureMessageBlocks l1 e |};
           split; [exact Hrun|]; rewrite Hcalls, Hpath; split; reflexivity).
    destruct Hcar as [_ (disp & _ & _ & ->)].
    eexists. eexists. split; [exact Hrun|]. rewrite Hcalls, Hpath, app_nil_r.
    split; reflexivity.
  - destruct H as (t & Hrun & Hpath & Hcalls).
    exists t. eexists. exists {| blocks := failureMessageBlocks l1 e |}.
    split; [exact Hrun|]. rewrite Hcalls, Hpath. split; reflexivity.
Qed.

(** Whenever the body of a request is an object with a non-empty string
    as its email, the variables of the handler hold that address for the
    failure notification, however the booking goes on. *)
Lemma resolveBooking_applicant (request : Request) (w : World) (l0 : Locals)
    (address : string) (date time : JsField) t l r :
  json request = Normal (Obj (Str address) date time) ->
  truthy address = true ->
  resolveBooking request w l0 = (t, l, r) ->
  applicantEmail l = address.
Proof.
  intros Hj Ha. unfold resolveBooking, setInputData, setBookingDataForSlack, splitAt, matchField.
  run_monad. rewrite Hj. cbn [truthyField shown]. rewrite Ha. cbn [negb orb].
  intros H.
  repeat match type of H with
         | context [match ?x with _ => _ end] =>
             lazymatch x with
             | context [match _ with _ => _ end] => fail
             | _ => destruct x eqn:?
             end; cbn [negb orb] in H; cbv beta iota in H
         end;
    injection H as <- <- <-; unfold applicantEmail; cbn [bookingDataForSlack slack_email];
    rewrite Ha; reflexivity.
Qed.

(** X16.  When the request names an applicant, every failure notification shows
    that address and the message of the error the response reports; only
    the text that stands in for an empty message differs between the
    two. *)
Theorem failure_notification_names_the_applicant (w : World) (request : Request) (env : Env)
    (address : string) (date time : JsField) (t : list Event) (resp : Response) :
  json request = Normal (Obj (Str address) date time) ->
  truthy address = true ->
  run w request env = (t, Normal resp) ->
  status resp = 500 ->
  exists error,
    body resp = Failure (orElse (message error)
                                "Failed to process booking due to an internal error.")
    /\ calls t
       = (calls (responsePath t)
          ++ notification (SLACK_ERRORS_URL env)
               {| blocks := failureBlocks address
                              (orElse (message error) "Unknown internal error") |})%list.
Proof.
  intros Hj Ha Hrun Hst.
  destruct (run_carries request env w) as (t1 & l1 & r1 & HR & H).
  pose proof (resolveBooking_applicant request w initialLocals address date time
                t1 l1 r1 Hj Ha HR) as Happ.
  destruct r1 as [details | e].
  - destruct H as (p & t' & _ & _ & Hrun' & Hpath & Hcalls).
    rewrite Hrun in Hrun'. injection Hrun' as <- ->.
    destruct p as [e | body e | body e | body m e | body m payload];
      cbn [pathCalls progressResult response successNotification failureNotification] in *;
      try discriminate Hst;
      (exists e; split; [reflexivity|]; rewrite Hcalls, Hpath;
       unfold failureMessageBlocks, failureBlocks; rewrite Happ; reflexivity).
  - destruct H as (t' & Hrun' & Hpath & Hcalls).
    rewrite Hrun in Hrun'. injection Hrun' as <- ->.
    exists e. split; [reflexivity|]. rewrite Hcalls, Hpath.
    unfold failureNotification, failureMessageBlocks, failureBlocks. rewrite Happ.
    reflexivity.
Qed.

Lemma failure_notification_names_the_applicant_witness :
  let r := run inviteDown (booking "a.b@x.com" "21-05-2025" "14:30") env in
  exists error,
    body (response (snd r))
      = Failure (orElse (message error)
                        "Failed to process booking due to an internal error.")
    /\ calls (fst r)
       = (calls (responsePath (fst r))
          ++ notification (SLACK_ERRORS_URL env)
               {| blocks := failureBlocks "a.b@x.com"
                              (orElse (message error) "Unknown internal error") |})%list.
Proof.
  intros r.
  apply (failure_notification_names_the_applicant inviteDown
           (booking "a.b@x.com" "21-05-2025" "14:30") env "a.b@x.com"
           (Str "21-05-2025") (Str "14:30") (fst r) (response (snd r))).
  - reflexivity.
  - reflexivity.
  - vm_compute. reflexivity.
  - vm_compute. reflexivity.
Defined.

(** X17.  A booking that succeeds is announced as it was mailed: the success
    notification shows the name and the address the mail went to and the
    same start, formatted from the same text, as the two bodies of the
    mail.  Name and address are never empty there, so that the stand-in
    [N/A] of the notification is never shown. *)
Theorem success_is_announced_as_mailed (w : World) (request : Request) (env : Env)
    (t : list Event) (resp : Response) :
  run w request env = (t, Normal resp) ->
  status resp = 200 ->
  exists address date time body msg startTimeISO displayTimePacific,
    json request = Normal (Obj (Str address) (Str date) (Str time))
    /\ displayed startTimeISO = Normal displayTimePacific
    /\ to_email msg = address
    /\ shows (orElse (splitHead "@" address) "Valued Candidate") displayTimePacific
             startTimeISO msg
    /\ calls t
       = app [invitePost (APY_TOKEN env) body; SgMailSend (SENDGRID_KEY env) msg]
           (notification (SLACK_BOOKINGS_URL env)
               {| blocks :=
                    [ Section "✅ *New Interview Booked!*";
                      Divider;
                      Fields [ "*Applicant:* "
                                 ++ orElse (splitHead "@" address) "Valued Candidate";
                               "*Email:* " ++ address;
                               "*Time (PT):* " ++ displayTimePacific;
                               "*Calendar Invite:* Sent Successfully!" ] ] |}).
Proof.
  intros Hrun Hst.
  destruct (run_carries request env w) as (t1 & l1 & [details | e] & HR & H).
  - destruct H as (p & t' & _ & Hcar & Hrun' & _ & Hcalls).
    rewrite Hrun in Hrun'. injection Hrun' as <- ->.
    destruct (resolveBooking_inv request w initialLocals t1 l1 details HR)
      as (address & date & time & day & month & year & hour & minute & instant
          & Hj & Ha & _ & _ & _ & _ & Hn & He & _).
    destruct p as [e | body e | body e | body m e | body m payload];
      cbn [progressResult response failureResponse status] in Hst; try discriminate Hst.
    cbn [carries pathCalls successNotification failureNotification progressResult] in *.
    destruct Hcar as [(ics & _ & Hm) (disp & Hd & Hs & ->)].
    exists address, date, time, body, m, (ApyHub.startTimeISO details), disp.
    split; [exact Hj|]. split; [exact Hd|].
    split; [rewrite <- He; apply Hm|].
    split; [rewrite <- Hn; exact Hs|].
    rewrite Hcalls, app_nil_r. unfold successMessageBlocks.
    assert (Hname : orElse (name details) "N/A" = name details).
    { unfold orElse at 1. rewrite Hn, truthy_orElse; reflexivity. }
    rewrite Hname, Hn, He.
    assert (Haddr : orElse address "N/A" = address) by (unfold orElse; now rewrite Ha).
    rewrite Haddr. reflexivity.
  - destruct H as (t' & Hrun' & _).
    rewrite Hrun in Hrun'. injection Hrun' as <- ->. discriminate Hst.
Qed.

Lemma success_is_announced_as_mailed_witness :
  let r := run allUp (booking "a.b@x.com" "21-05-2025" "14:30") env in
  exists address date time body msg startTimeISO displayTimePacific,
    json (booking "a.b@x.com" "21-05-2025" "14:30")
      = Normal (Obj (Str address) (Str date) (Str time))
    /\ displayed startTimeISO = Normal displayTimePacific
    /\ to_email msg = address
    /\ shows (orElse (splitHead "@" address) "Valued Candidate") displayTimePacific
             startTimeISO msg
    /\ calls (fst r)
       = app [invitePost (APY_TOKEN env) body; SgMailSend (SENDGRID_KEY env) msg]
           (notification (SLACK_BOOKINGS_URL env)
               {| blocks :=
                    [ Section "✅ *New Interview Booked!*";
                      Divider;
                      Fields [ "*Applicant:* "
                                 ++ orElse (splitHead "@" address) "Valued Candidate";
                               "*Email:* " ++ address;
                               "*Time (PT):* " ++ displayTimePacific;
                               "*Calendar Invite:* Sent Successfully!" ] ] |}).
Proof.
  intros r.
  apply (success_is_announced_as_mailed allUp (booking "a.b@x.com" "21-05-2025" "14:30") env
           (fst r) (response (snd r))).
  - vm_compute. reflexivity.
  - vm_compute. reflexivity.
Defined.

Lemma notification_no_object (dest : option string) payload url headers fields :
  ~ In (Fetch url headers (ObjectBody fields)) (notification dest payload).
Proof.
  destruct dest as [[| c u] |]; cbn; intros H; try destruct H as [H | []]; try discriminate;
    exact H.
Qed.

(** X9.  An object is posted to the invite generator only, with the token of
    the environment, and for the applicant of the request only: the one
    attendee is the address of the request body as it was given, the
    summary names the applicant by the part of the address before the
    first [@], and the organizer and the time zone are the fixed ones. *)
Theorem invite_names_the_applicant (w : World) (request : Request) (env : Env)
    (t : list Event) (resp : Completion Response)
    (url : string) (headers : list (string * string)) (fields : list (string * Json)) :
  run w request env = (t, resp) ->
  In (Fetch url headers (ObjectBody fields)) (calls t) ->
  exists address date time,
    json request = Normal (Obj (Str address) (Str date) (Str time))
    /\ url = APYHUB_ICAL_URL
    /\ headers = [("Content-Type", "application/json"); ("apy-token", APY_TOKEN env)]
    /\ field "attendees_emails" fields = Some (JStrings [address])
    /\ field "summary" fields
       = Some (JString ("Interview: " ++ orElse (splitHead "@" address) "Valued Candidate"))
    /\ field "organizer_email" fields = Some (JString "hello@debtcat.com")
    /\ field "time_zone" fields = Some (JString "America/Los_Angeles").
Proof.
  intros Hrun Hin.
  destruct (run_carries request env w) as (t1 & l1 & [details | e] & HR & H).
  - destruct H as (p & t' & Hex & _ & Hrun' & _ & Hcalls).
    rewrite Hrun in Hrun'. injection Hrun' as <- ->.
    destruct (resolveBooking_inv request w initialLocals t1 l1 details HR)
      as (address & date & time & day & month & year & hour & minute & instant
          & Hj & _ & _ & _ & _ & _ & Hn & He & _).
    rewrite Hcalls in Hin. rewrite !in_app_iff in Hin.
    destruct Hin as [Hin | [Hin | Hin]].
    2:{ destruct p; try destruct Hin. exact (False_ind _ (notification_no_object _ _ _ _ _ Hin)). }
    2:{ destruct (progressResult p); [destruct Hin|].
        exact (False_ind _ (notification_no_object _ _ _ _ _ Hin)). }
    assert (Hbody : inviteBody details fields
                    /\ url = APYHUB_ICAL_URL
                    /\ headers = [("Content-Type", "application/json");
                                  ("apy-token", APY_TOKEN env)]).
    { destruct p as [e | body e | body e | body m e | body m payload];
        cbn [pathCalls explains] in Hin, Hex.
      - destruct Hin.
      - destruct Hin as [[= <- <- <-] | []]. split; [apply Hex | split; reflexivity].
      - destruct Hin as [[= <- <- <-] | []]. split; [apply Hex | split; reflexivity].
      - destruct Hin as [[= <- <- <-] | [Hin | []]]; [| discriminate Hin].
        split; [apply Hex | split; reflexivity].
      - destruct Hin as [[= <- <- <-] | [Hin | []]]; [| discriminate Hin].
        split; [apply Hex | split; reflexivity]. }
    destruct Hbody as ((start & md & st & et & _ & _ & _ & _ & ->) & -> & ->).
    exists address, date, time. rewrite <- Hn, <- He.
    split; [rewrite He; exact Hj|]. repeat split.
  - destruct H as (t' & Hrun' & _ & Hcalls).
    rewrite Hrun in Hrun'. injection Hrun' as <- ->.
    rewrite Hcalls in Hin. cbn [failureNotification] in Hin.
    destruct (notification_no_object _ _ _ _ _ Hin).
Qed.

Lemma invite_names_the_applicant_witness :
  let r := run allUp (booking "a.b@x.com" "21-05-2025" "14:30") env in
  exists address date time,
    json (booking "a.b@x.com" "21-05-2025" "14:30")
      = Normal (Obj (Str address) (Str date) (Str time))
    /\ APYHUB_ICAL_URL = APYHUB_ICAL_URL
    /\ [("Content-Type", "application/json"); ("apy-token", "apy-token")]
       = [("Content-Type", "application/json"); ("apy-token", APY_TOKEN env)]
    /\ field "attendees_emails" sampleInvite = Some (JStrings [address])
    /\ field "summary" sampleInvite
       = Some (JString ("Interview: " ++ orElse (splitHead "@" address) "Valued Candidate"))
    /\ field "organizer_email" sampleInvite = Some (JString "hello@debtcat.com")
    /\ field "time_zone" sampleInvite = Some (JString "America/Los_Angeles").
Proof.
  intros r.
  apply (invite_names_the_applicant allUp (booking "a.b@x.com" "21-05-2025" "14:30") env
           (fst r) (snd r) APYHUB_ICAL_URL
           [("Content-Type", "application/json"); ("apy-token", "apy-token")] sampleInvite).
  - apply surjective_pairing.
  - vm_compute. left. reflexivity.
Defined.

(** X18.  The start of a booking is handed from the handler to the two stages
    as the text of [toISOString]; read back with [new Date], as both
    stages and the handler do, it is the instant the date and the time of
    the request resolved to, for every instant of the years 0 to 10000. *)
Theorem start_time_survives_the_hand_over (request : Request) (w : World) (l0 l : Locals)
    (t : list Event) (details : BookingDetails) :
  resolveBooking request w l0 = (t, l, Normal details) ->
  exists address date time instant,
    json request = Normal (Obj (Str address) (Str date) (Str time))
    /\ resolveInstant date time = Some instant
    /\ toISOString (Some instant) = Normal (ApyHub.startTimeISO details)
    /\ (TimeFromYear 0 <= instant < TimeFromYear 10001 ->
        newDateFromString (ApyHub.startTimeISO details) = Some instant).
Proof.
  intros H.
  destruct (resolveBooking_inv request w l0 t l details H)
    as (address & date & time & day & month & year & hour & minute & instant
        & Hj & _ & Hd & Ht & Hp & Hi & _).
  exists address, date, time, instant.
  split; [exact Hj|]. split; [unfold resolveInstant; rewrite Hd, Ht; exact Hp|].
  split; [exact Hi|]. intros Hrange.
  destruct (iso_round_trip instant Hrange) as (iso & Hiso & Hback).
  rewrite Hi in Hiso. injection Hiso as <-. exact Hback.
Qed.

Lemma start_time_survives_the_hand_over_witness :
  let r := resolveBooking (booking "a.b@x.com" "21-05-2025" "14:30") allUp initialLocals in
  exists address date time instant,
    json (booking "a.b@x.com" "21-05-2025" "14:30")
      = Normal (Obj (Str address) (Str date) (Str time))
    /\ resolveInstant date time = Some instant
    /\ toISOString (Some instant) = Normal (ApyHub.startTimeISO sampleBooking)
    /\ (TimeFromYear 0 <= instant < TimeFromYear 10001 ->
        newDateFromString (ApyHub.startTimeISO sampleBooking) = Some instant).
Proof.
  intros r.
  apply (start_time_survives_the_hand_over (booking "a.b@x.com" "21-05-2025" "14:30") allUp
           initialLocals (snd (fst r)) (fst (fst r)) sampleBooking).
  vm_compute. reflexivity.
Defined.

End SequenceProperties.

